(** * FinTrack: the ledger, goal, forecast and health services

    A shallow embedding of the backend services of FinTrack
    (transactionService, transactionRepository, Budget, goalService,
    forecastService, healthScoreService, mlService, analyticsService and
    the background jobs) and the properties of its consistency and
    aggregation layer.

    Modelling conventions.
    - A JavaScript number that holds an amount is an exact rational ([Q]):
      rounding of IEEE doubles is outside the model.  Where the source
      divides, the special values of a JavaScript number are kept
      ([Number]: finite, the two infinities, NaN).
    - A [Date] is its time value, milliseconds since the epoch; calendar
      fields are read in UTC.
    - The MongoDB collections are one record [Db]; an [async] method is a
      computation [M A] that threads the [Db] and either returns or throws.
      A throw keeps the writes made before it, as the database does.
    - The ML micro-service is a record of responses ([MLBackend]) that the
      services receive: a response is either a body or a failed request. *)

From Stdlib Require Import ZArith QArith Qminmax Lia Lqa List String Bool Permutation Sorted.
From stdpp Require Import base option list gmap strings sorting.

Local Open Scope string_scope.
Local Open Scope Z_scope.

(** ** Numbers *)

(** [Number]: a JavaScript number, rounding apart. *)
Inductive Number : Type :=
| Fin (q : Q)
| PosInf
| NegInf
| NaN.

(** [a / b] on two finite numbers. *)
Definition js_div (a b : Q) : Number :=
  if Qeq_bool b 0 then
    (if Qeq_bool a 0 then NaN
     else if Qle_bool 0 a then PosInf else NegInf)
  else Fin (a / b)%Q.

(** [x * k] for a finite positive constant [k]. *)
Definition js_mul_pos (x : Number) (k : Q) : Number :=
  match x with
  | Fin q => Fin (q * k)%Q
  | other => other
  end.

(** [Math.min(x, k)] for a finite constant [k]. *)
Definition Math_min (x : Number) (k : Q) : Number :=
  match x with
  | Fin q => Fin (if Qle_bool q k then q else k)
  | PosInf => Fin k
  | NegInf => NegInf
  | NaN => NaN
  end.

(** [Math.max(a, b)] on finite numbers. *)
Definition Math_max (a b : Q) : Q := if Qle_bool b a then a else b.

(** [x >= k] *)
Definition js_ge (x : Number) (k : Q) : bool :=
  match x with
  | Fin q => Qle_bool k q
  | PosInf => true
  | NegInf => false
  | NaN => false
  end.

(** [x <= k] *)
Definition js_le (x : Number) (k : Q) : bool :=
  match x with
  | Fin q => Qle_bool q k
  | PosInf => false
  | NegInf => true
  | NaN => false
  end.

(** [x || 0] on a finite number: zero is falsy. *)
Definition or_zero (x : Q) : Q := if Qeq_bool x 0 then 0%Q else x.

(** [x || d] on an optional finite number: [undefined] and zero are falsy. *)
Definition num_or (x : option Q) (d : Q) : Q :=
  match x with
  | Some q => if Qeq_bool q 0 then d else q
  | None => d
  end.

Definition truthy_num (x : option Q) : bool :=
  match x with
  | Some q => negb (Qeq_bool q 0)
  | None => false
  end.

(** A string is truthy when it is present and not empty. *)
Definition truthy_str (x : option string) : bool :=
  match x with
  | Some s => negb (String.eqb s "")
  | None => false
  end.

Definition str_or (x : option string) (d : string) : string :=
  match x with
  | Some s => if String.eqb s "" then d else s
  | None => d
  end.

(** [Math.ceil(a / b)] on natural numbers, [b > 0]. *)
Definition ceil_div (a b : N) : N := ((a + b - 1) / b)%N.

(** ** Dates *)

Definition Date : Type := Z.

Definition msPerDay : Z := 86400000.

(** Day number (days since 1970-01-01) of a proleptic Gregorian date. *)
Definition days_from_civil (y m d : Z) : Z :=
  let y' := if m <=? 2 then y - 1 else y in
  let era := y' / 400 in
  let yoe := y' - era * 400 in
  let mp := (m + 9) mod 12 in
  let doy := (153 * mp + 2) / 5 + d - 1 in
  let doe := yoe * 365 + yoe / 4 - yoe / 100 + doy in
  era * 146097 + doe - 719468.

(** Year and month (1..12) of a day number. *)
Definition civil_from_days (z : Z) : Z * Z :=
  let z' := z + 719468 in
  let era := z' / 146097 in
  let doe := z' - era * 146097 in
  let yoe := (doe - doe / 1460 + doe / 36524 - doe / 146096) / 365 in
  let doy := doe - (365 * yoe + yoe / 4 - yoe / 100) in
  let mp := (5 * doy + 2) / 153 in
  let m := (mp + 2) mod 12 + 1 in
  (yoe + era * 400 + (if m <=? 2 then 1 else 0), m).

(** [new Date(Date.UTC(y, m - 1, d))] *)
Definition mkDate (y m d : Z) : Date := days_from_civil y m d * msPerDay.

(** [d.getFullYear()] *)
Definition getFullYear (d : Date) : Z := fst (civil_from_days (d / msPerDay)).

(** [d.getMonth()], 0..11 *)
Definition getMonth (d : Date) : Z := snd (civil_from_days (d / msPerDay)) - 1.

(** [d.setDate(d.getDate() - n)] *)
Definition minusDays (d : Date) (n : Z) : Date := d - n * msPerDay.

(** ** Errors (utils/errors.js) *)

Inductive AppError : Type :=
| ValidationError (message : string)
| NotFoundError (resource : string)
| Error (message : string)
| RequestError (message : string).

(** ** Documents *)

(** An [ObjectId] is a natural number. *)
Abbreviation ObjectId := nat (only parsing).

Inductive TxType : Type := income | expense.

Inductive CategorySource : Type := cs_user | cs_ai | cs_auto.

Inductive PaymentMethod : Type :=
  cash | card | bank_transfer | digital_wallet | pm_other.

Inductive NeedsVsWants : Type := needs | wants | nw_unknown.

Inductive NvwSource : Type := nvw_user | nvw_ai.

#[global] Instance TxType_eq_dec : EqDecision TxType.
Proof. solve_decision. Defined.

(** Transaction (models/Transaction.js) *)
Record Transaction : Type := mkTransaction {
  t_id : ObjectId;
  t_userId : ObjectId;
  t_type : TxType;
  t_amount : Q;
  t_description : string;
  t_notes : string;
  t_category : string;
  t_categorySource : CategorySource;
  t_paymentMethod : PaymentMethod;
  t_needsVsWants : NeedsVsWants;
  t_needsVsWantsSource : NvwSource;
  t_aiConfidence : option Q;
  t_date : Date;
  t_createdAt : Date
}.

(** [signedAmount] virtual *)
Definition signedAmount (t : Transaction) : Q :=
  match t_type t with
  | income => t_amount t
  | expense => (- t_amount t)%Q
  end.

(** Budget (models/Budget.js); the unique index (userId, category, month,
    year) is the key of the collection. *)
Abbreviation BudgetKey := (ObjectId * string * Z * Z)%type (only parsing).

Record Budget : Type := mkBudget {
  b_amount : Q;
  b_spent : Q;
  b_isActive : bool
}.

Inductive GoalType : Type :=
  spending_cap | savings_target | category_limit | custom.

Inductive GoalStatus : Type := active | completed | failed | paused.

Inductive GoalSource : Type := gs_user | gs_ai_recommended.

#[global] Instance GoalStatus_eq_dec : EqDecision GoalStatus.
Proof. solve_decision. Defined.

(** Goal (models/Goal.js) *)
Record Goal : Type := mkGoal {
  g_userId : ObjectId;
  g_title : string;
  g_type : GoalType;
  g_targetValue : Q;
  g_currentValue : Q;
  g_startDate : Date;
  g_endDate : Date;
  g_status : GoalStatus;
  g_source : GoalSource;
  g_progress : Number
}.

Inductive RiskIndicator : Type := risk_low | risk_medium | risk_high.

Inductive ForecastType : Type := f7day | f14day | f30day.

Record DayPrediction : Type := mkDayPrediction {
  p_date : Date;
  p_predictedAmount : Q;
  p_lowerBound : Q;
  p_upperBound : Q;
  p_confidence : Q
}.

(** Forecast (models/Forecast.js) *)
Record Forecast : Type := mkForecast {
  f_userId : ObjectId;
  f_forecastType : ForecastType;
  f_startDate : Date;
  f_predictions : list DayPrediction;
  f_riskIndicator : RiskIndicator;
  f_riskScore : option Q;
  f_modelVersion : option string;
  f_computedAt : Date
}.

Record SubScore : Type := mkSubScore {
  ss_score : option Q;
  ss_weight : Q
}.

Record SubScores : Type := mkSubScores {
  savingsRate : SubScore;
  spendingVolatility : SubScore;
  incomeToExpenseRatio : SubScore;
  budgetAdherence : SubScore;
  anomalyScore : SubScore
}.

(** FinancialHealth (models/FinancialHealth.js) *)
Record FinancialHealth : Type := mkFinancialHealth {
  h_userId : ObjectId;
  h_date : Date;
  h_overallScore : Q;
  h_subScores : SubScores;
  h_explanation : string;
  h_metrics : list (string * Q);
  h_recommendations : list string
}.

Record User : Type := mkUser {
  u_monthlyIncome : Q;
  u_currency : string
}.

(** ** The database *)

Record Db : Type := mkDb {
  transactions : list Transaction;
  budgets : gmap BudgetKey Budget;
  categories : list (ObjectId * string);
  goals : gmap ObjectId Goal;
  forecasts : list Forecast;
  healthScores : list FinancialHealth;
  users : gmap ObjectId User;
  nextId : ObjectId
}.

Definition set_transactions (l : list Transaction) (db : Db) : Db :=
  mkDb l (budgets db) (categories db) (goals db) (forecasts db)
       (healthScores db) (users db) (nextId db).

Definition set_budgets (b : gmap BudgetKey Budget) (db : Db) : Db :=
  mkDb (transactions db) b (categories db) (goals db) (forecasts db)
       (healthScores db) (users db) (nextId db).

Definition set_goals (g : gmap ObjectId Goal) (db : Db) : Db :=
  mkDb (transactions db) (budgets db) (categories db) g (forecasts db)
       (healthScores db) (users db) (nextId db).

Definition set_forecasts (f : list Forecast) (db : Db) : Db :=
  mkDb (transactions db) (budgets db) (categories db) (goals db) f
       (healthScores db) (users db) (nextId db).

Definition set_healthScores (h : list FinancialHealth) (db : Db) : Db :=
  mkDb (transactions db) (budgets db) (categories db) (goals db)
       (forecasts db) h (users db) (nextId db).

Definition set_nextId (n : ObjectId) (db : Db) : Db :=
  mkDb (transactions db) (budgets db) (categories db) (goals db)
       (forecasts db) (healthScores db) (users db) n.

(** ** Computations over the database *)

Inductive Outcome (A : Type) : Type :=
| Returned (a : A)
| Thrown (e : AppError).
Arguments Returned {A} a.
Arguments Thrown {A} e.

Definition M (A : Type) : Type := Db -> Outcome A * Db.

Definition ret {A} (a : A) : M A := fun db => (Returned a, db).

Definition throw {A} (e : AppError) : M A := fun db => (Thrown e, db).

Definition bind {A B} (c : M A) (k : A -> M B) : M B :=
  fun db =>
    match c db with
    | (Returned a, db') => k a db'
    | (Thrown e, db') => (Thrown e, db')
    end.

(** [try { c } catch (error) { h error }] *)
Definition try_catch {A} (c : M A) (h : AppError -> M A) : M A :=
  fun db =>
    match c db with
    | (Returned a, db') => (Returned a, db')
    | (Thrown e, db') => h e db'
    end.

Definition get_db : M Db := fun db => (Returned db, db).

Definition modify_db (f : Db -> Db) : M unit := fun db => (Returned tt, f db).

Notation "'let*' x ':=' c 'in' k" := (bind c (fun x => k))
  (at level 10, x name, c at level 100, k at level 200).

Notation "c ';;' k" := (bind c (fun _ => k))
  (at level 100, k at level 200, right associativity).

(** ** The ML micro-service, as the backend sees it *)

Inductive Response (A : Type) : Type :=
| Body (data : A)
| Failure (message : string).
Arguments Body {A} data.
Arguments Failure {A} message.

Record CategoryRequest : Type := mkCategoryRequest {
  cr_description : string;
  cr_amount : Q;
  cr_type : TxType;
  cr_paymentMethod : PaymentMethod
}.

Record CategoryPrediction : Type := mkCategoryPrediction {
  cp_category : string;
  cp_needsVsWants : option NeedsVsWants;
  cp_confidence : option Q
}.

Record HistoryItem : Type := mkHistoryItem {
  hi_amount : Q;
  hi_type : TxType;
  hi_category : string;
  hi_date : Date
}.

Record HealthData : Type := mkHealthData {
  hd_overallScore : option Q;
  hd_subScores : SubScores;
  hd_explanation : option string;
  hd_metrics : list (string * Q);
  hd_recommendations : option (list string)
}.

Record ForecastData : Type := mkForecastData {
  fd_predictions : list DayPrediction;
  fd_riskIndicator : option RiskIndicator;
  fd_riskScore : option Q;
  fd_modelVersion : option string
}.

Record MLBackend : Type := mkMLBackend {
  post_predict_category : CategoryRequest -> Response (option CategoryPrediction);
  post_health_score : ObjectId -> list HistoryItem -> User -> Response HealthData;
  post_forecast_generate :
    ObjectId -> list HistoryItem -> ForecastType -> Response ForecastData
}.

(** [await this.client.post(...)]: a failed or timed-out request rejects. *)
Definition await_post {A} (r : Response A) : M A :=
  match r with
  | Body data => ret data
  | Failure message => throw (RequestError message)
  end.

Module MLService.

(** [predictCategory]: every failure is logged and becomes [null]. *)
Definition predictCategory (ml : MLBackend) (transactionData : CategoryRequest)
  : M (option CategoryPrediction) :=
  try_catch
    (await_post (post_predict_category ml transactionData))
    (fun _ => ret None).

(** [computeHealthScore]: a failure is logged and thrown again. *)
Definition computeHealthScore (ml : MLBackend) (userId : ObjectId)
    (transactionHistory : list HistoryItem) (userProfile : User) : M HealthData :=
  try_catch
    (await_post (post_health_score ml userId transactionHistory userProfile))
    (fun error => throw error).

(** [generateForecast]: a failure is logged and thrown again. *)
Definition generateForecast (ml : MLBackend) (userId : ObjectId)
    (transactionHistory : list HistoryItem) (forecastType : ForecastType)
  : M ForecastData :=
  try_catch
    (await_post (post_forecast_generate ml userId transactionHistory forecastType))
    (fun error => throw error).

End MLService.

(** ** Budget (models/Budget.js) *)

Module BudgetModel.

(** Schema validators of the key fields: category required, month in
    1..12, year at least 2000. *)
Definition key_valid (k : BudgetKey) : bool :=
  let '(_, category, month, year) := k in
  negb (String.eqb category "") && (1 <=? month) && (month <=? 12)
  && (2000 <=? year).

(** Schema validators of [amount] and [spent]: both have [min: 0]. *)
Definition doc_valid (b : Budget) : bool :=
  Qle_bool 0 (b_amount b) && Qle_bool 0 (b_spent b).

(** [doc.save()]: the validators run first; an invalid document is not
    written. *)
Definition save (k : BudgetKey) (b : Budget) : M Budget :=
  if key_valid k && doc_valid b then
    modify_db (fun db => set_budgets (<[k := b]> (budgets db)) db) ;; ret b
  else throw (ValidationError "Budget validation failed").

(** [Budget.create({userId, category, month, year, amount})] *)
Definition create (k : BudgetKey) (amount : Q) : M Budget :=
  save k (mkBudget amount 0 true).

Definition getOrCreate (userId : ObjectId) (category : string) (month year : Z)
    (defaultAmount : Q) : M Budget :=
  let* db := get_db in
  match budgets db !! (userId, category, month, year) with
  | Some budget => ret budget
  | None => create (userId, category, month, year) defaultAmount
  end.

Definition updateSpent (userId : ObjectId) (category : string) (month year : Z)
    (amount : Q) : M Budget :=
  let* budget := getOrCreate userId category month year 0 in
  save (userId, category, month, year)
       (mkBudget (b_amount budget) (or_zero (b_spent budget) + amount)%Q
                 (b_isActive budget)).

(** [utilization] virtual *)
Definition utilization (b : Budget) : Number :=
  if Qeq_bool (b_amount b) 0 then Fin 0
  else Math_min (js_mul_pos (js_div (b_spent b) (b_amount b)) 100) 100.

(** [remaining] virtual *)
Definition remaining (b : Budget) : Q := Math_max (b_amount b - b_spent b) 0.

End BudgetModel.

(** ** Transaction repository (repositories/transactionRepository.js) *)

Record UpdateData : Type := mkUpdateData {
  ud_amount : option Q;
  ud_description : option string;
  ud_date : option Date;
  ud_category : option string;
  ud_notes : option string;
  ud_paymentMethod : option PaymentMethod;
  ud_type : option TxType
}.

Record Filters : Type := mkFilters {
  fl_type : option TxType;
  fl_category : option string;
  fl_startDate : option Date;
  fl_endDate : option Date;
  fl_page : option N;
  fl_limit : option N
}.

Record Pagination : Type := mkPagination {
  pg_page : N;
  pg_limit : N;
  pg_total : N;
  pg_pages : N
}.

Record Page : Type := mkPage {
  pg_transactions : list Transaction;
  pg_pagination : Pagination
}.

(** [{ $set: updateData }] on one document *)
Definition apply_set (u : UpdateData) (t : Transaction) : Transaction :=
  mkTransaction (t_id t) (t_userId t)
    (default (t_type t) (ud_type u))
    (default (t_amount t) (ud_amount u))
    (default (t_description t) (ud_description u))
    (default (t_notes t) (ud_notes u))
    (default (t_category t) (ud_category u))
    (t_categorySource t)
    (default (t_paymentMethod t) (ud_paymentMethod u))
    (t_needsVsWants t) (t_needsVsWantsSource t) (t_aiConfidence t)
    (default (t_date t) (ud_date u))
    (t_createdAt t).

(** Sort orders of the queries: [{date: -1}] and [{date: -1, createdAt: -1}]. *)
Definition date_desc (x y : Transaction) : Prop := t_date y <= t_date x.

Definition date_created_desc (x y : Transaction) : Prop :=
  t_date y < t_date x \/ (t_date y = t_date x /\ t_createdAt y <= t_createdAt x).

#[global] Instance date_desc_dec x y : Decision (date_desc x y).
Proof. unfold date_desc. apply _. Defined.

#[global] Instance date_created_desc_dec x y : Decision (date_created_desc x y).
Proof. unfold date_created_desc. apply _. Defined.

Module TransactionModel.

(** Schema validators of a transaction: amount at least 0, description
    required and at most 500 characters, notes at most 1000 characters,
    category required.  Strings are taken as trimmed already. *)
Definition valid (t : Transaction) : bool :=
  Qle_bool 0 (t_amount t)
  && negb (String.eqb (t_description t) "")
  && (String.length (t_description t) <=? 500)%nat
  && (String.length (t_notes t) <=? 1000)%nat
  && negb (String.eqb (t_category t) "").

(** Update validators ([runValidators: true]): the validators of the
    paths that the update sets. *)
Definition valid_update (u : UpdateData) : bool :=
  match ud_amount u with Some a => Qle_bool 0 a | None => true end
  && match ud_description u with
     | Some d => negb (String.eqb d "") && (String.length d <=? 500)%nat
     | None => true
     end
  && match ud_notes u with
     | Some n => (String.length n <=? 1000)%nat
     | None => true
     end
  && match ud_category u with
     | Some c => negb (String.eqb c "")
     | None => true
     end.

(** The query [{ userId, date: { $gte: startDate, $lte: endDate } }] *)
Definition in_range (userId : ObjectId) (startDate endDate : Date)
    (t : Transaction) : bool :=
  Nat.eqb (t_userId t) userId && (startDate <=? t_date t) && (t_date t <=? endDate).

(** [Transaction.getByDateRange] *)
Definition getByDateRange (userId : ObjectId) (startDate endDate : Date)
  : M (list Transaction) :=
  let* db := get_db in
  ret (merge_sort date_desc
         (List.filter (in_range userId startDate endDate) (transactions db))).

End TransactionModel.

(** The object that [getMonthlySummary] returns. *)
Record MonthlySummary : Type := mkMonthlySummary {
  totalIncome : Q;
  totalExpenses : Q;
  savings : Q;
  transactionCount : nat
}.

(** [new Date(year, month - 1, 1)], for [month] in 1..12 *)
Definition month_start (year month : Z) : Date := mkDate year month 1.

(** [new Date(year, month, 0, 23, 59, 59)], for [month] in 1..12: the last
    day of the month, at 23:59:59.000 *)
Definition month_end (year month : Z) : Date := mkDate year (month + 1) 1 - 1000.

Module TransactionRepository.

Definition find_by_id (id : ObjectId) (l : list Transaction) : option Transaction :=
  List.find (fun t => Nat.eqb (t_id t) id) l.

(** [new Transaction(data).save()]: the document gets a fresh [_id] and
    its [createdAt]. *)
Definition create (now : Date) (transactionData : Transaction) : M Transaction :=
  let* db := get_db in
  let transaction :=
    mkTransaction (nextId db) (t_userId transactionData) (t_type transactionData)
      (t_amount transactionData) (t_description transactionData)
      (t_notes transactionData) (t_category transactionData)
      (t_categorySource transactionData) (t_paymentMethod transactionData)
      (t_needsVsWants transactionData) (t_needsVsWantsSource transactionData)
      (t_aiConfidence transactionData) (t_date transactionData) now in
  if TransactionModel.valid transaction then
    modify_db (fun db => set_nextId (S (nextId db))
                           (set_transactions (transactions db ++ [transaction]) db)) ;;
    ret transaction
  else throw (ValidationError "Transaction validation failed").

Definition findById (id : ObjectId) : M Transaction :=
  let* db := get_db in
  match find_by_id id (transactions db) with
  | Some transaction => ret transaction
  | None => throw (NotFoundError "Transaction")
  end.

(** The predicate of the query built by [findByUserId]. *)
Definition matches (userId : ObjectId) (filters : Filters) (t : Transaction) : bool :=
  Nat.eqb (t_userId t) userId
  && match fl_type filters with
     | Some ty => bool_decide (t_type t = ty)
     | None => true
     end
  && (if truthy_str (fl_category filters)
      then String.eqb (t_category t) (default "" (fl_category filters))
      else true)
  && match fl_startDate filters with
     | Some d => d <=? t_date t
     | None => true
     end
  && match fl_endDate filters with
     | Some d => t_date t <=? d
     | None => true
     end.

(** [parseInt(x) || d] *)
Definition int_or (x : option N) (d : N) : N :=
  match x with
  | Some 0%N => d
  | Some n => n
  | None => d
  end.

Definition findByUserId (userId : ObjectId) (filters : Filters) : M Page :=
  let* db := get_db in
  let page := int_or (fl_page filters) 1 in
  let limit := int_or (fl_limit filters) 50 in
  let skip := ((page - 1) * limit)%N in
  let found := List.filter (matches userId filters) (transactions db) in
  let transactions :=
    take (N.to_nat limit) (drop (N.to_nat skip) (merge_sort date_created_desc found)) in
  let total := N.of_nat (length found) in
  ret (mkPage transactions (mkPagination page limit total (ceil_div total limit))).

(** [findByIdAndUpdate(id, { $set: updateData }, { runValidators: true })] *)
Definition update (id : ObjectId) (updateData : UpdateData) : M Transaction :=
  if TransactionModel.valid_update updateData then
    let* db := get_db in
    match find_by_id id (transactions db) with
    | Some old =>
        let transaction := apply_set updateData old in
        modify_db (fun db =>
          set_transactions
            (List.map (fun t => if Nat.eqb (t_id t) id then transaction else t)
                      (transactions db)) db) ;;
        ret transaction
    | None => throw (NotFoundError "Transaction")
    end
  else throw (ValidationError "Validation failed").

(** [findByIdAndDelete] *)
Definition delete (id : ObjectId) : M Transaction :=
  let* db := get_db in
  match find_by_id id (transactions db) with
  | Some transaction =>
      modify_db (fun db =>
        set_transactions
          (List.filter (fun t => negb (Nat.eqb (t_id t) id)) (transactions db)) db) ;;
      ret transaction
  | None => throw (NotFoundError "Transaction")
  end.

Definition getByDateRange := TransactionModel.getByDateRange.

Definition getMonthlySummary (userId : ObjectId) (year month : Z) : M MonthlySummary :=
  let startDate := month_start year month in
  let endDate := month_end year month in
  let* transactions := TransactionModel.getByDateRange userId startDate endDate in
  let summary :=
    fold_left
      (fun acc txn =>
         match t_type txn with
         | income => ((fst acc + t_amount txn)%Q, snd acc)
         | expense => (fst acc, (snd acc + t_amount txn)%Q)
         end)
      transactions (0%Q, 0%Q) in
  ret (mkMonthlySummary (fst summary) (snd summary) (fst summary - snd summary)%Q
                        (length transactions)).

End TransactionRepository.

Module CategoryRepository.

(** [Category.findOne({ userId, name })], as the truth value of its result *)
Definition findByName (userId : ObjectId) (name : string) : M bool :=
  let* db := get_db in
  ret (existsb (fun c => Nat.eqb (fst c) userId && String.eqb (snd c) name)
               (categories db)).

End CategoryRepository.

(** ** Transaction service (services/transactionService.js) *)

Record TransactionData : Type := mkTransactionData {
  td_amount : Q;
  td_description : string;
  td_type : TxType;
  td_date : option Date;
  td_category : option string;
  td_notes : option string;
  td_paymentMethod : option PaymentMethod
}.

Definition with_category (c : string) (t : Transaction) : Transaction :=
  mkTransaction (t_id t) (t_userId t) (t_type t) (t_amount t) (t_description t)
    (t_notes t) c (t_categorySource t) (t_paymentMethod t) (t_needsVsWants t)
    (t_needsVsWantsSource t) (t_aiConfidence t) (t_date t) (t_createdAt t).

(** The assignments of the [if (prediction)] block of [create]. *)
Definition with_prediction (p : CategoryPrediction) (t : Transaction) : Transaction :=
  mkTransaction (t_id t) (t_userId t) (t_type t) (t_amount t) (t_description t)
    (t_notes t) (cp_category p) cs_ai (t_paymentMethod t)
    (default nw_unknown (cp_needsVsWants p)) nvw_ai
    (match cp_confidence p with
     | Some q => if Qeq_bool q 0 then None else Some q
     | None => None
     end)
    (t_date t) (t_createdAt t).

Definition is_expense (ty : TxType) : bool := bool_decide (ty = expense).

Module TransactionService.

Definition create (ml : MLBackend) (now : Date) (userId : ObjectId)
    (transactionData : TransactionData) : M Transaction :=
  let category := td_category transactionData in
  let type := td_type transactionData in
  (if truthy_str category then
     let* categoryExists :=
       CategoryRepository.findByName userId (default "" category) in
     if categoryExists : bool then ret tt
     else throw (ValidationError "Category does not exist")
   else ret tt) ;;
  let transaction :=
    mkTransaction 0%nat userId type (td_amount transactionData)
      (td_description transactionData)
      (str_or (td_notes transactionData) "")
      (str_or category "Other Expense")
      (if truthy_str category then cs_user else cs_auto)
      (default card (td_paymentMethod transactionData))
      nw_unknown nvw_user None
      (default now (td_date transactionData)) now in
  let* transaction :=
    if negb (truthy_str category) then
      try_catch
        (let* prediction :=
           MLService.predictCategory ml
             (mkCategoryRequest (t_description transaction) (t_amount transaction)
                                (t_type transaction) (t_paymentMethod transaction)) in
         match prediction with
         | Some p => ret (with_prediction p transaction)
         | None => ret transaction
         end)
        (fun _ =>
           ret (with_category
                  (match type with
                   | income => "Other Income"
                   | expense => "Other Expense"
                   end) transaction))
    else ret transaction in
  let* createdTransaction := TransactionRepository.create now transaction in
  (if is_expense type && negb (String.eqb (t_category createdTransaction) "") then
     let transactionDate := t_date createdTransaction in
     BudgetModel.updateSpent userId (t_category createdTransaction)
       (getMonth transactionDate + 1) (getFullYear transactionDate)
       (t_amount createdTransaction) ;; ret tt
   else ret tt) ;;
  ret createdTransaction.

Definition getById (userId transactionId : ObjectId) : M Transaction :=
  let* transaction := TransactionRepository.findById transactionId in
  if negb (Nat.eqb (t_userId transaction) userId)
  then throw (NotFoundError "Transaction")
  else ret transaction.

Definition getAll (userId : ObjectId) (filters : Filters) : M Page :=
  TransactionRepository.findByUserId userId filters.

Definition update (userId transactionId : ObjectId) (updateData : UpdateData)
  : M Transaction :=
  let* existingTransaction := getById userId transactionId in
  (if truthy_str (ud_category updateData) || truthy_num (ud_amount updateData) then
     let oldDate := t_date existingTransaction in
     (if is_expense (t_type existingTransaction) then
        BudgetModel.updateSpent userId (t_category existingTransaction)
          (getMonth oldDate + 1) (getFullYear oldDate)
          (- t_amount existingTransaction)%Q ;; ret tt
      else ret tt) ;;
     let newAmount := num_or (ud_amount updateData) (t_amount existingTransaction) in
     let newCategory :=
       str_or (ud_category updateData) (t_category existingTransaction) in
     let newDate := default oldDate (ud_date updateData) in
     (if is_expense (t_type existingTransaction) then
        BudgetModel.updateSpent userId newCategory
          (getMonth newDate + 1) (getFullYear newDate) newAmount ;; ret tt
      else ret tt)
   else ret tt) ;;
  TransactionRepository.update transactionId updateData.

Definition delete (userId transactionId : ObjectId) : M Transaction :=
  let* transaction := getById userId transactionId in
  (if is_expense (t_type transaction) then
     let transactionDate := t_date transaction in
     BudgetModel.updateSpent userId (t_category transaction)
       (getMonth transactionDate + 1) (getFullYear transactionDate)
       (- t_amount transaction)%Q ;; ret tt
   else ret tt) ;;
  TransactionRepository.delete transactionId.

End TransactionService.

(** ** Goals (models/Goal.js, services/goalService.js) *)

Module GoalModel.

(** Schema validators: title required and at most 200 characters,
    targetValue and currentValue at least 0, progress between 0 and 100. *)
Definition valid (g : Goal) : bool :=
  negb (String.eqb (g_title g) "")
  && (String.length (g_title g) <=? 200)%nat
  && Qle_bool 0 (g_targetValue g)
  && Qle_bool 0 (g_currentValue g)
  && js_ge (g_progress g) 0
  && js_le (g_progress g) 100.

Definition save (goalId : ObjectId) (g : Goal) : M Goal :=
  if valid g then
    modify_db (fun db => set_goals (<[goalId := g]> (goals db)) db) ;; ret g
  else throw (ValidationError "Goal validation failed").

(** [Math.min((currentValue / targetValue) * 100, 100)] *)
Definition progress_of (currentValue targetValue : Q) : Number :=
  Math_min (js_mul_pos (js_div currentValue targetValue) 100) 100.

Definition with_progress (currentValue : Q) (g : Goal) : Goal :=
  let progress := progress_of currentValue (g_targetValue g) in
  mkGoal (g_userId g) (g_title g) (g_type g) (g_targetValue g) currentValue
    (g_startDate g) (g_endDate g)
    (if js_ge progress 100 && bool_decide (g_status g = active)
     then completed else g_status g)
    (g_source g) progress.

(** [goalSchema.methods.updateProgress] *)
Definition updateProgress (goalId : ObjectId) (g : Goal) (currentValue : Q) : M Goal :=
  save goalId (with_progress currentValue g).

(** [daysRemaining] virtual, read at time [now]:
    [Math.max(Math.ceil((end - now) / (1000 * 60 * 60 * 24)), 0)] *)
Definition daysRemaining (now : Date) (g : Goal) : Z :=
  Z.max (- ((- (g_endDate g - now)) / msPerDay)) 0.

End GoalModel.

(** [l.filter(t => t.type === ty).reduce((sum, t) => sum + t.amount, 0)] *)
Definition sum_amounts (ty : TxType) (l : list Transaction) : Q :=
  fold_left (fun sum t => (sum + t_amount t)%Q)
            (List.filter (fun t => bool_decide (t_type t = ty)) l) 0%Q.

Module GoalService.

Definition getById (userId goalId : ObjectId) : M Goal :=
  let* db := get_db in
  match goals db !! goalId with
  | Some goal =>
      if negb (Nat.eqb (g_userId goal) userId) then throw (Error "Goal not found")
      else ret goal
  | None => throw (Error "Goal not found")
  end.

Definition updateProgress (userId goalId : ObjectId) : M Goal :=
  let* goal := getById userId goalId in
  let startDate := g_startDate goal in
  let endDate := g_endDate goal in
  let* currentValue :=
    match g_type goal with
    | spending_cap | category_limit =>
        let* transactions :=
          TransactionRepository.getByDateRange userId startDate endDate in
        ret (sum_amounts expense transactions)
    | savings_target =>
        let* transactions :=
          TransactionRepository.getByDateRange userId startDate endDate in
        let income := sum_amounts income transactions in
        let expenses := sum_amounts expense transactions in
        ret (income - expenses)%Q
    | custom => ret 0%Q
    end in
  GoalModel.save goalId (GoalModel.with_progress (Math_max currentValue 0) goal).

Definition delete (userId goalId : ObjectId) : M Goal :=
  let* goal := GoalService.getById userId goalId in
  modify_db (fun db => set_goals (base.delete goalId (goals db)) db) ;;
  ret goal.

End GoalService.

(** ** Forecasts (models/Forecast.js, services/forecastService.js) *)

Definition in_0_100 (q : Q) : bool := Qle_bool 0 q && Qle_bool q 100.

#[global] Instance ForecastType_eq_dec : EqDecision ForecastType.
Proof. solve_decision. Defined.

(** Sort order of the forecast queries: [{computedAt: -1}]. *)
Definition computedAt_desc (x y : Forecast) : Prop := f_computedAt y <= f_computedAt x.

#[global] Instance computedAt_desc_dec x y : Decision (computedAt_desc x y).
Proof. unfold computedAt_desc. apply _. Defined.

Module ForecastModel.

(** Schema validator: riskScore, when present, lies between 0 and 100. *)
Definition valid (f : Forecast) : bool :=
  match f_riskScore f with
  | Some s => in_0_100 s
  | None => true
  end.

Definition save (f : Forecast) : M Forecast :=
  if valid f then
    modify_db (fun db => set_forecasts (forecasts db ++ [f]) db) ;; ret f
  else throw (ValidationError "Forecast validation failed").

(** [Forecast.getLatest]:
    [findOne({ userId, forecastType }).sort({ computedAt: -1 })] *)
Definition getLatest (userId : ObjectId) (forecastType : ForecastType)
  : M (option Forecast) :=
  let* db := get_db in
  ret (head (merge_sort computedAt_desc
               (List.filter (fun f => Nat.eqb (f_userId f) userId
                                      && bool_decide (f_forecastType f = forecastType))
                            (forecasts db)))).

End ForecastModel.

Definition insufficient_history : string :=
  "Insufficient transaction history for forecasting (minimum 30 days)".

Module ForecastService.

Definition generateAndStore (ml : MLBackend) (now : Date) (userId : ObjectId)
    (forecastType : ForecastType) : M Forecast :=
  try_catch
    (let endDate := now in
     let startDate := minusDays now 90 in
     let* transactions :=
       TransactionRepository.getByDateRange userId startDate endDate in
     (if (length transactions <? 30)%nat
      then throw (Error insufficient_history) else ret tt) ;;
     let transactionHistory :=
       List.map (fun t => mkHistoryItem (signedAmount t) (t_type t) (t_category t)
                                        (t_date t)) transactions in
     let* forecastData :=
       MLService.generateForecast ml userId transactionHistory forecastType in
     ForecastModel.save
       (mkForecast userId forecastType now (fd_predictions forecastData)
          (default risk_medium (fd_riskIndicator forecastData))
          (fd_riskScore forecastData) (fd_modelVersion forecastData) now))
    (fun error => throw error).

Definition getLatest (userId : ObjectId) (forecastType : ForecastType)
  : M (option Forecast) :=
  ForecastModel.getLatest userId forecastType.

End ForecastService.

(** ** Health scores (models/FinancialHealth.js, services/healthScoreService.js) *)

(** Sort order of the health score queries: [{date: -1}]. *)
Definition health_date_desc (x y : FinancialHealth) : Prop := h_date y <= h_date x.

#[global] Instance health_date_desc_dec x y : Decision (health_date_desc x y).
Proof. unfold health_date_desc. apply _. Defined.

Module FinancialHealthModel.

Definition sub_valid (s : SubScore) : bool :=
  match ss_score s with
  | Some q => in_0_100 q
  | None => true
  end.

(** [new FinancialHealth({...}).save()]: overallScore is required and
    lies between 0 and 100, explanation is required, every sub-score that
    is present lies between 0 and 100. *)
Definition save (userId : ObjectId) (now : Date) (healthData : HealthData)
  : M FinancialHealth :=
  match hd_overallScore healthData, hd_explanation healthData with
  | Some score, Some explanation =>
      let subs := hd_subScores healthData in
      if in_0_100 score && negb (String.eqb explanation "")
         && sub_valid (savingsRate subs) && sub_valid (spendingVolatility subs)
         && sub_valid (incomeToExpenseRatio subs) && sub_valid (budgetAdherence subs)
         && sub_valid (anomalyScore subs)
      then
        let healthScore :=
          mkFinancialHealth userId now score subs explanation
            (hd_metrics healthData) (default [] (hd_recommendations healthData)) in
        modify_db (fun db => set_healthScores (healthScores db ++ [healthScore]) db) ;;
        ret healthScore
      else throw (ValidationError "FinancialHealth validation failed")
  | _, _ => throw (ValidationError "FinancialHealth validation failed")
  end.

(** [FinancialHealth.getLatest]: [findOne({ userId }).sort({ date: -1 })] *)
Definition getLatest (userId : ObjectId) : M (option FinancialHealth) :=
  let* db := get_db in
  ret (head (merge_sort health_date_desc
               (List.filter (fun h => Nat.eqb (h_userId h) userId) (healthScores db)))).

End FinancialHealthModel.

Module UserRepository.

Definition findById (id : ObjectId) : M User :=
  let* db := get_db in
  match users db !! id with
  | Some user => ret user
  | None => throw (NotFoundError "User")
  end.

End UserRepository.

Module HealthScoreService.

Definition computeAndStore (ml : MLBackend) (now : Date) (userId : ObjectId)
  : M FinancialHealth :=
  try_catch
    (let* user := UserRepository.findById userId in
     let endDate := now in
     let startDate := minusDays now 90 in
     let* transactions :=
       TransactionRepository.getByDateRange userId startDate endDate in
     let transactionHistory :=
       List.map (fun t => mkHistoryItem (t_amount t) (t_type t) (t_category t)
                                        (t_date t)) transactions in
     let* healthData :=
       MLService.computeHealthScore ml userId transactionHistory user in
     FinancialHealthModel.save userId now healthData)
    (fun error => throw error).

Definition getLatest (userId : ObjectId) : M (option FinancialHealth) :=
  FinancialHealthModel.getLatest userId.

(** [find({ userId }).sort({ date: -1 }).limit(limit)], [limit = 30] by
    default; for MongoDB a limit of 0 is no limit. *)
Definition getHistory (userId : ObjectId) (limit : option N) : M (list FinancialHealth) :=
  let* db := get_db in
  let limit := default 30%N limit in
  let sorted :=
    merge_sort health_date_desc
      (List.filter (fun h => Nat.eqb (h_userId h) userId) (healthScores db)) in
  ret (if N.eqb limit 0 then sorted else take (N.to_nat limit) sorted).

End HealthScoreService.

(** ** Background jobs (jobs/forecastJob.js, jobs/healthScoreJob.js,
    jobs/goalProgressJob.js) *)

(** What a job logs when it is done. *)
Record JobReport : Type := mkJobReport {
  jr_total : nat;
  jr_success : nat;
  jr_errors : nat
}.

(** The loop of a job:
    [for (const x of items) { try { await body(x); successCount++; }
                              catch (error) { errorCount++; } }] *)
Fixpoint for_each_counting {A B} (body : A -> M B) (items : list A)
    (successCount errorCount : nat) : M (nat * nat) :=
  match items with
  | [] => ret (successCount, errorCount)
  | x :: rest =>
      let* counts :=
        try_catch (body x ;; ret (S successCount, errorCount))
                  (fun _ => ret (successCount, S errorCount)) in
      for_each_counting body rest (fst counts) (snd counts)
  end.

Module ForecastJob.

(** The task that [start] schedules.  [users] is the answer of
    [User.find({ isActive: true })], each user with the time at which
    its turn comes.  An error outside the loop is logged and there is no
    report. *)
Definition run (ml : MLBackend) (users : list (ObjectId * Date)) : M (option JobReport) :=
  try_catch
    (let* counts :=
       for_each_counting
         (fun user => ForecastService.generateAndStore ml (snd user) (fst user) f30day)
         users 0%nat 0%nat in
     ret (Some (mkJobReport (length users) (fst counts) (snd counts))))
    (fun _ => ret None).

End ForecastJob.

Module HealthScoreJob.

Definition run (ml : MLBackend) (users : list (ObjectId * Date)) : M (option JobReport) :=
  try_catch
    (let* counts :=
       for_each_counting
         (fun user => HealthScoreService.computeAndStore ml (snd user) (fst user))
         users 0%nat 0%nat in
     ret (Some (mkJobReport (length users) (fst counts) (snd counts))))
    (fun _ => ret None).

End HealthScoreJob.

Module GoalProgressJob.

(** [activeGoals] is [Goal.find({ status: 'active' }).select('_id userId')]. *)
Definition run : M (option JobReport) :=
  try_catch
    (let* db := get_db in
     let activeGoals :=
       List.map (fun goal => (fst goal, g_userId (snd goal)))
         (List.filter (fun goal => bool_decide (g_status (snd goal) = active))
                      (map_to_list (goals db))) in
     let* counts :=
       for_each_counting
         (fun goal => GoalService.updateProgress (snd goal) (fst goal))
         activeGoals 0%nat 0%nat in
     ret (Some (mkJobReport (length activeGoals) (fst counts) (snd counts))))
    (fun _ => ret None).

End GoalProgressJob.

(** ** Analytics (services/analyticsService.js) *)

Module AnalyticsService.

(** [cached] is what [redisClient.get(cacheKey)] answered: [null], or the
    summary that was stored under the key in the last five minutes.  The
    answer of [redisClient.set] is not used. *)
Definition getMonthlySummary (cached : option MonthlySummary) (userId : ObjectId)
    (year month : Z) : M MonthlySummary :=
  match cached with
  | Some summary => ret summary
  | None => TransactionRepository.getMonthlySummary userId year month
  end.

Definition getSavingsRate (cached : option MonthlySummary) (userId : ObjectId)
    (year month : Z) : M Number :=
  let* summary := getMonthlySummary cached userId year month in
  if Qeq_bool (totalIncome summary) 0 then ret (Fin 0)
  else ret (js_mul_pos (js_div (savings summary) (totalIncome summary)) 100).

End AnalyticsService.

(** ** Properties of the ledger *)

(** The ledger key of a transaction: owner, category, month and year of
    its date, as the service passes them to [Budget.updateSpent]. *)
Definition bucket_of (t : Transaction) : BudgetKey :=
  (t_userId t, t_category t, getMonth (t_date t) + 1, getFullYear (t_date t)).

(** [spent] of a ledger row; a missing row has spent nothing. *)
Definition spent_of (db : Db) (k : BudgetKey) : Q :=
  match budgets db !! k with
  | Some b => b_spent b
  | None => 0%Q
  end.

(** Sum of the amounts of a list of transactions. *)
Definition total (l : list Transaction) : Q := foldr Qplus 0%Q (List.map t_amount l).

(** The expense transactions of a bucket. *)
Definition in_bucket (k : BudgetKey) (t : Transaction) : bool :=
  is_expense (t_type t) && bool_decide (bucket_of t = k).

(** Sum of [amount] over the expense transactions of a bucket that exist. *)
Definition bucket_total (db : Db) (k : BudgetKey) : Q :=
  total (List.filter (in_bucket k) (transactions db)).

(** What a transaction contributes to a bucket of the ledger. *)
Definition contribution (t : Transaction) (k : BudgetKey) : Q :=
  if in_bucket k t then t_amount t else 0%Q.

(** Every ledger row has a non-negative [spent]. *)
Definition spent_nonneg (db : Db) : Prop :=
  forall k b, budgets db !! k = Some b -> (0 <= b_spent b)%Q.

(** Every ledger row passes the validators of the Budget schema. *)
Definition rows_valid (db : Db) : Prop :=
  forall k b, budgets db !! k = Some b ->
              BudgetModel.key_valid k = true /\ BudgetModel.doc_valid b = true.

(** The ledger agrees with the transactions: in every bucket [spent] is
    the sum of the expense amounts that exist. *)
Definition ledger_consistent (db : Db) : Prop :=
  forall k, (spent_of db k == bucket_total db k)%Q.

(** A computation keeps a property of the database, whether it returns or
    throws. *)
Definition preserves {A} (P : Db -> Prop) (c : M A) : Prop :=
  forall db, P db -> P (snd (c db)).

(** A request to the transaction service. *)
Inductive Request : Type :=
| ReqCreate (now : Date) (transactionData : TransactionData)
| ReqUpdate (transactionId : ObjectId) (updateData : UpdateData)
| ReqDelete (transactionId : ObjectId).



(** The requests on which the ledger is kept exact: dates are of year
    2000 or later; an update passes the update validators, leaves the
    direction alone, sets a non-zero amount if it sets one, and sets a
    date only together with an amount or a category. *)
Definition exact_request (r : Request) : Prop :=
  match r with
  | ReqCreate now td => 2000 <= getFullYear (default now (td_date td))
  | ReqUpdate _ ud =>
      TransactionModel.valid_update ud = true
      /\ ud_type ud = None
      /\ (forall a, ud_amount ud = Some a -> ~ (a == 0)%Q)
      /\ (forall d, ud_date ud = Some d ->
            2000 <= getFullYear d
            /\ (truthy_str (ud_category ud) || truthy_num (ud_amount ud) = true))
  | ReqDelete _ => True
  end.

(** A well-formed database: distinct ids below the counter, stored
    transactions and ledger rows that pass their schemas, dates of year
    2000 or later, and a ledger that agrees with the transactions. *)
Record well_formed (db : Db) : Prop := mk_well_formed {
  wf_ids : NoDup (List.map t_id (transactions db));
  wf_fresh : forall t, In t (transactions db) -> (t_id t < nextId db)%nat;
  wf_docs : forall t, In t (transactions db) ->
                      (0 <= t_amount t)%Q /\ t_category t <> ""%string
                      /\ 2000 <= getFullYear (t_date t);
  wf_rows : rows_valid db;
  wf_ledger : ledger_consistent db
}.

(** The input of [create] passes the validators of the transaction schema. *)
Definition input_valid (td : TransactionData) : bool :=
  Qle_bool 0 (td_amount td)
  && negb (String.eqb (td_description td) "")
  && (String.length (td_description td) <=? 500)%nat
  && (String.length (str_or (td_notes td) "") <=? 1000)%nat.

(** ** Properties of the forecast *)

(** The transactions of owner [userId] in the trailing 90 days. *)
Definition window_90 (userId : ObjectId) (now : Date) (db : Db) : list Transaction :=
  merge_sort date_desc
    (List.filter (TransactionModel.in_range userId (minusDays now 90) now)
                 (transactions db)).

(** The spec's measure of history: the number of distinct days of the
    trailing 90-day window on which the owner has a transaction. *)
Definition spec_history_days (userId : ObjectId) (now : Date) (db : Db) : nat :=
  length (remove_dups (List.map (fun t => t_date t / msPerDay)
                                (window_90 userId now db))).

(** ** Properties of goal progress *)

(** The value that [GoalService.updateProgress] computes for a goal,
    before the floor at 0. *)
Definition goal_value (userId : ObjectId) (g : Goal) (db : Db) : Q :=
  let transactions :=
    merge_sort date_desc
      (List.filter (TransactionModel.in_range userId (g_startDate g) (g_endDate g))
                   (transactions db)) in
  match g_type g with
  | spending_cap | category_limit => sum_amounts expense transactions
  | savings_target =>
      (sum_amounts income transactions - sum_amounts expense transactions)%Q
  | custom => 0%Q
  end.

(** The spec's sums: the amounts of the owner's transactions of one
    direction dated within [startDate, endDate], and the same restricted
    to one category. *)
Definition spec_window_sum (ty : TxType) (userId : ObjectId) (startDate endDate : Date)
    (db : Db) : Q :=
  total
    (List.filter
       (fun t => Nat.eqb (t_userId t) userId && bool_decide (t_type t = ty)
                 && (startDate <=? t_date t) && (t_date t <=? endDate))
       (transactions db)).

Definition spec_category_sum (category : string) (userId : ObjectId)
    (startDate endDate : Date) (db : Db) : Q :=
  total
    (List.filter
       (fun t => Nat.eqb (t_userId t) userId && bool_decide (t_type t = expense)
                 && String.eqb (t_category t) category
                 && (startDate <=? t_date t) && (t_date t <=? endDate))
       (transactions db)).

(** Every stored transaction has a non-negative amount, as the schema
    demands. *)
Definition amounts_nonneg (db : Db) : Prop :=
  forall t, In t (transactions db) -> (0 <= t_amount t)%Q.

(** The claim on the value of a goal, in the spec's words, for a goal
    whose category is [category]: the expenses of the window for a
    spending cap, those of the goal's category for a category limit,
    income minus expenses floored at 0 for a savings target, and the
    value that the caller supplied for a custom goal. *)
Definition spec_current_value (category : string) (g : Goal) (db : Db) : Q :=
  match g_type g with
  | spending_cap =>
      spec_window_sum expense (g_userId g) (g_startDate g) (g_endDate g) db
  | category_limit =>
      spec_category_sum category (g_userId g) (g_startDate g) (g_endDate g) db
  | savings_target =>
      Qmax 0 (spec_window_sum income (g_userId g) (g_startDate g) (g_endDate g) db
              - spec_window_sum expense (g_userId g) (g_startDate g) (g_endDate g) db)
  | custom => g_currentValue g
  end.

Definition spec_updateProgress (category : string) (userId goalId : ObjectId)
    (db : Db) : Prop :=
  forall g g',
    goals db !! goalId = Some g ->
    fst (GoalService.updateProgress userId goalId db) = Returned g' ->
    (g_currentValue g' == spec_current_value category g db)%Q.

(** ** Properties of the listing *)

(** The empty filter set. *)
Definition no_filters : Filters := mkFilters None None None None None None.




(** ** Scenarios *)

(** One user, the categories Food and Rent, nothing else. *)
Definition db0 : Db :=
  mkDb [] ∅ [(1%nat, "Food"); (1%nat, "Rent")] ∅ [] []
       {[ 1%nat := mkUser 5000 "USD" ]} 100%nat.

(** The ML service is down: every request fails. *)
Definition ml_down : MLBackend :=
  mkMLBackend (fun _ => Failure "timeout of 30000ms exceeded")
              (fun _ _ _ => Failure "timeout of 30000ms exceeded")
              (fun _ _ _ => Failure "timeout of 30000ms exceeded").

(** A ledger whose Food row of January 2024 has spent 100. *)
Definition db_food100 : Db :=
  set_budgets {[ (1%nat, "Food", 1, 2024) := mkBudget 0 100 true ]} db0.

(** A first expense: lunch, 100, Food, 15 January 2024. *)
Definition lunch : TransactionData :=
  mkTransactionData 100 "lunch" expense (Some (mkDate 2024 1 15)) (Some "Food")
                    None None.

Definition db_lunch : Db :=
  snd (TransactionService.create ml_down (mkDate 2024 1 20) 1%nat lunch db0).

Definition jan_food : BudgetKey := (1%nat, "Food", 1, 2024).

Definition feb_food : BudgetKey := (1%nat, "Food", 2, 2024).

(** An update that sets the date only: 15 February 2024. *)
Definition move_to_february : UpdateData :=
  mkUpdateData None None (Some (mkDate 2024 2 15)) None None None None.

(** The lunch as it is stored. *)
Definition lunch_doc : Transaction :=
  mkTransaction 100%nat 1%nat expense 100 "lunch" "" "Food" cs_user card
                nw_unknown nvw_user None (mkDate 2024 1 15) (mkDate 2024 1 20).

(** An update that sets the amount and the date: 80 on 15 February 2024. *)
Definition move_and_reprice : UpdateData :=
  mkUpdateData (Some 80%Q) None (Some (mkDate 2024 2 15)) None None None None.

(** An update that sets the amount to 0. *)
Definition set_amount_zero : UpdateData :=
  mkUpdateData (Some 0%Q) None None None None None None.

(** An income with no category. *)
Definition salary : TransactionData :=
  mkTransactionData 5000 "salary" income (Some (mkDate 2024 1 15)) None None None.

(** The ML service answers every request. *)
Definition ml_up : MLBackend :=
  mkMLBackend
    (fun _ => Body (Some (mkCategoryPrediction "Food" (Some needs) (Some (9 # 10)))))
    (fun _ _ _ =>
       Body (mkHealthData (Some 72%Q)
               (mkSubScores (mkSubScore (Some 80%Q) (1 # 4)) (mkSubScore (Some 60%Q) (1 # 5))
                            (mkSubScore (Some 75%Q) (1 # 4)) (mkSubScore (Some 70%Q) (1 # 5))
                            (mkSubScore (Some 90%Q) (1 # 10)))
               (Some "Stable finances") [] None))
    (fun _ _ _ =>
       Body (mkForecastData
               [mkDayPrediction (mkDate 2024 3 2) (-40)%Q (-60)%Q (-20)%Q (4 # 5)]
               (Some risk_low) (Some 10%Q) None)).

(** An expense of owner 1. *)
Definition expense_on (id : ObjectId) (date : Date) (amount : Q) (category : string)
  : Transaction :=
  mkTransaction id 1%nat expense amount "item" "" category cs_user card
                nw_unknown nvw_user None date date.

Definition db_with (l : list Transaction) : Db :=
  set_nextId 1000%nat (set_transactions l db0).

(** Two expenses a day on each of the 29 days of February 2024. *)
Definition february_two_a_day : list Transaction :=
  flat_map
    (fun i =>
       [expense_on (2 * i)%nat (mkDate 2024 2 1 + Z.of_nat i * msPerDay) 10 "Food";
        expense_on (2 * i + 1)%nat (mkDate 2024 2 1 + Z.of_nat i * msPerDay) 5 "Rent"])
    (seq 0 29).

(** Thirty expenses on one day, 20 February 2024. *)
Definition thirty_on_one_day : list Transaction :=
  List.map (fun i => expense_on i (mkDate 2024 2 20) 10 "Food") (seq 0 30).

(** January 2024: Food 100 and Rent 50; a category limit on Food (goal 7),
    a custom goal whose current value 4 was supplied by its owner (goal 8)
    and a spending cap with target 0 (goal 9, window March 2024, where
    nothing was spent). *)
Definition food_limit : Goal :=
  mkGoal 1%nat "Food limit" category_limit 200 0 (mkDate 2024 1 1) (mkDate 2024 1 31)
         active gs_user (Fin 0).

Definition read_more : Goal :=
  mkGoal 1%nat "Read more" custom 10 4 (mkDate 2024 1 1) (mkDate 2024 1 31)
         active gs_user (Fin 40).

Definition no_spend_march : Goal :=
  mkGoal 1%nat "No-spend March" spending_cap 0 0 (mkDate 2024 3 1) (mkDate 2024 3 31)
         active gs_user (Fin 0).

Definition db_goals : Db :=
  set_goals {[ 7%nat := food_limit; 8%nat := read_more; 9%nat := no_spend_march ]}
    (db_with [expense_on 1%nat (mkDate 2024 1 10) 100 "Food";
              expense_on 2%nat (mkDate 2024 1 12) 50 "Rent"]).


(** ** Properties of the pages of a listing *)

(** The filters [fl] with the page number [p]. *)
Definition with_page (fl : Filters) (p : N) : Filters :=
  mkFilters (fl_type fl) (fl_category fl) (fl_startDate fl) (fl_endDate fl)
            (Some p) (fl_limit fl).

(** The transactions that [getAll] returns for page [p]. *)
Definition page_items (userId : ObjectId) (fl : Filters) (db : Db) (p : N)
  : list Transaction :=
  match fst (TransactionService.getAll userId (with_page fl p) db) with
  | Returned page => pg_transactions page
  | Thrown _ => []
  end.

(** All matches of a query, in the order of the listing. *)
Definition all_matches (userId : ObjectId) (fl : Filters) (db : Db) : list Transaction :=
  merge_sort date_created_desc
    (List.filter (TransactionRepository.matches userId fl) (transactions db)).

(** The number of pages that the metadata of a listing gives. *)
Definition page_count (userId : ObjectId) (fl : Filters) (db : Db) : N :=
  match fst (TransactionService.getAll userId fl db) with
  | Returned page => pg_pages (pg_pagination page)
  | Thrown _ => 0%N
  end.

(** ** Properties of the jobs *)

(** The forecast that [generateAndStore] gives a user on database [db],
    if it gives one. *)
Definition forecast_of (ml : MLBackend) (db : Db) (user : ObjectId * Date)
  : option Forecast :=
  match fst (ForecastService.generateAndStore ml (snd user) (fst user) f30day db) with
  | Returned f => Some f
  | Thrown _ => None
  end.

(** The health score that [computeAndStore] gives a user on database
    [db], if it gives one. *)
Definition health_of (ml : MLBackend) (db : Db) (user : ObjectId * Date)
  : option FinancialHealth :=
  match fst (HealthScoreService.computeAndStore ml (snd user) (fst user) db) with
  | Returned h => Some h
  | Thrown _ => None
  end.

(** A goal with its progress recomputed from the transactions of [db]. *)
Definition refreshed (db : Db) (g : Goal) : Goal :=
  GoalModel.with_progress (Math_max (goal_value (g_userId g) g db) 0) g.

(** The goals that the progress job finds and can save. *)
Definition refreshable (db : Db) (g : Goal) : bool :=
  bool_decide (g_status g = active) && GoalModel.valid (refreshed db g).

(** What the progress job makes of a goal. *)
Definition refresh (db : Db) (g : Goal) : Goal :=
  if refreshable db g then refreshed db g else g.

(** The goals that the progress job finds. *)
Definition active_goals (db : Db) : list (ObjectId * Goal) :=
  List.filter (fun goal => bool_decide (g_status (snd goal) = active))
              (map_to_list (goals db)).

(** ** Properties of the monthly summary *)

(** The month after [month] of [year]. *)
Definition next_month (year month : Z) : Z * Z :=
  if month =? 12 then (year + 1, 1) else (year, month + 1).

(** Months counted from January of year 0, and the first instant of the
    month of a given number. *)
Definition month_index (year month : Z) : Z := 12 * year + (month - 1).

Definition month_start_at (n : Z) : Date := mkDate (n / 12) (n mod 12 + 1) 1.

(** The database with one more stored transaction. *)
Definition with_transaction (t : Transaction) (db : Db) : Db :=
  set_transactions (transactions db ++ [t]) db.

(** A transaction dated in the last second of January 2024, half a
    second before February. *)
Definition late_january : Transaction :=
  expense_on 5%nat (mkDate 2024 2 1 - 500) 40 "Food".

(** ** Properties of a creation *)

(** The category of the input passes the check of [create]: none is
    given, or the user has a category of that name. *)
Definition category_accepted (userId : ObjectId) (td : TransactionData) (db : Db) : bool :=
  negb (truthy_str (td_category td))
  || existsb (fun c => Nat.eqb (fst c) userId
                       && String.eqb (snd c) (default "" (td_category td)))
             (categories db).

(** ** Theorems *)

Section Preservation.
Context (P : Db -> Prop).

Lemma preserves_ret {A} (a : A) : preserves P (ret a).
Proof. intros db H. exact H. Qed.

Lemma preserves_throw {A} (e : AppError) : preserves P (@throw A e).
Proof. intros db H. exact H. Qed.

Lemma preserves_get_db : preserves P get_db.
Proof. intros db H. exact H. Qed.

Lemma preserves_bind {A B} (c : M A) (k : A -> M B) :
  preserves P c -> (forall a, preserves P (k a)) -> preserves P (bind c k).
Proof.
  intros Hc Hk db H. unfold bind.
  specialize (Hc db H). destruct (c db) as [[a|e] db']; simpl in *.
  - apply Hk, Hc.
  - exact Hc.
Qed.

Lemma preserves_try_catch {A} (c : M A) (h : AppError -> M A) :
  preserves P c -> (forall e, preserves P (h e)) -> preserves P (try_catch c h).
Proof.
  intros Hc Hh db H. unfold try_catch.
  specialize (Hc db H). destruct (c db) as [[a|e] db']; simpl in *.
  - exact Hc.
  - apply Hh, Hc.
Qed.

Lemma preserves_modify (f : Db -> Db) :
  (forall db, P db -> P (f db)) -> preserves P (modify_db f).
Proof. intros Hf db H. apply Hf, H. Qed.

Lemma preserves_if {A} (b : bool) (c1 c2 : M A) :
  preserves P c1 -> preserves P c2 -> preserves P (if b then c1 else c2).
Proof. destruct b; auto. Qed.
End Preservation.

Create HintDb preserve.

#[local] Hint Resolve preserves_ret preserves_throw preserves_get_db
  preserves_bind preserves_try_catch preserves_if : preserve.

(** *** Running a computation step by step *)

Lemma bind_returned {A B} (c : M A) (k : A -> M B) db a db' :
  c db = (Returned a, db') -> bind c k db = k a db'.
Proof. intros E. unfold bind. rewrite E. reflexivity. Qed.

Lemma bind_thrown {A B} (c : M A) (k : A -> M B) db e db' :
  c db = (Thrown e, db') -> bind c k db = (Thrown e, db').
Proof. intros E. unfold bind. rewrite E. reflexivity. Qed.

Lemma try_catch_returned {A} (c : M A) (h : AppError -> M A) db a db' :
  c db = (Returned a, db') -> try_catch c h db = (Returned a, db').
Proof. intros E. unfold try_catch. rewrite E. reflexivity. Qed.

Lemma try_catch_thrown {A} (c : M A) (h : AppError -> M A) db e db' :
  c db = (Thrown e, db') -> try_catch c h db = h e db'.
Proof. intros E. unfold try_catch. rewrite E. reflexivity. Qed.

Lemma try_rethrow {A} (c : M A) db :
  try_catch c (fun error => throw error) db = c db.
Proof. unfold try_catch, throw. destruct (c db) as [[a|e] db']; reflexivity. Qed.

Lemma predictCategory_never_throws ml req db :
  exists p, MLService.predictCategory ml req db = (Returned p, db).
Proof.
  unfold MLService.predictCategory, try_catch, await_post.
  destruct (post_predict_category ml req); cbn; eexists; reflexivity.
Qed.

Lemma predictCategory_failure ml req db msg :
  post_predict_category ml req = Failure msg ->
  MLService.predictCategory ml req db = (Returned None, db).
Proof.
  intros E. unfold MLService.predictCategory, try_catch, await_post.
  rewrite E. reflexivity.
Qed.

(** *** The ledger never goes negative *)

Lemma Qle_bool_true (a b : Q) : Qle_bool a b = true -> (a <= b)%Q.
Proof. apply Qle_bool_iff. Qed.

Lemma Qle_bool_false (a b : Q) : Qle_bool a b = false -> (b < a)%Q.
Proof.
  intros H. apply Qnot_le_lt. intros Hle.
  apply Qle_bool_iff in Hle. congruence.
Qed.

Lemma or_zero_eq (q : Q) : (or_zero q == q)%Q.
Proof.
  unfold or_zero. destruct (Qeq_bool q 0) eqn:E; [|reflexivity].
  apply Qeq_bool_iff in E. symmetry. exact E.
Qed.

Lemma save_spent_nonneg (k : BudgetKey) (b : Budget) :
  preserves spent_nonneg (BudgetModel.save k b).
Proof.
  intros db H. unfold BudgetModel.save.
  destruct (BudgetModel.key_valid k && BudgetModel.doc_valid b) eqn:E; [|exact H].
  apply andb_prop in E as [_ E]. apply andb_prop in E as [_ E].
  intros k' b'. cbn. rewrite lookup_insert.
  case_decide; [|apply H].
  intros [= <-]. apply Qle_bool_true, E.
Qed.

Lemma getOrCreate_spent_nonneg u c m y a :
  preserves spent_nonneg (BudgetModel.getOrCreate u c m y a).
Proof.
  unfold BudgetModel.getOrCreate. apply preserves_bind; [apply preserves_get_db|].
  intros db. destruct (budgets db !! (u, c, m, y)); [apply preserves_ret|].
  apply save_spent_nonneg.
Qed.

Lemma updateSpent_spent_nonneg u c m y a :
  preserves spent_nonneg (BudgetModel.updateSpent u c m y a).
Proof.
  unfold BudgetModel.updateSpent. apply preserves_bind.
  - apply getOrCreate_spent_nonneg.
  - intros b. apply save_spent_nonneg.
Qed.

Lemma spent_nonneg_same_budgets (db db' : Db) :
  budgets db' = budgets db -> spent_nonneg db -> spent_nonneg db'.
Proof. intros E H k b. rewrite E. apply H. Qed.

Lemma repo_create_spent_nonneg now t :
  preserves spent_nonneg (TransactionRepository.create now t).
Proof.
  unfold TransactionRepository.create.
  apply preserves_bind; [apply preserves_get_db|]. intros db.
  match goal with |- context [if ?b then _ else _] => destruct b end;
    [|apply preserves_throw].
  apply preserves_bind; [|intros; apply preserves_ret].
  apply preserves_modify. intros d. now apply spent_nonneg_same_budgets.
Qed.

Lemma repo_findById_spent_nonneg id :
  preserves spent_nonneg (TransactionRepository.findById id).
Proof.
  unfold TransactionRepository.findById.
  apply preserves_bind; [apply preserves_get_db|]. intros db.
  destruct (TransactionRepository.find_by_id id (transactions db)); auto with preserve.
Qed.

Lemma repo_update_spent_nonneg id ud :
  preserves spent_nonneg (TransactionRepository.update id ud).
Proof.
  unfold TransactionRepository.update.
  destruct (TransactionModel.valid_update ud); [|apply preserves_throw].
  apply preserves_bind; [apply preserves_get_db|]. intros db.
  destruct (TransactionRepository.find_by_id id (transactions db));
    [|apply preserves_throw].
  apply preserves_bind; [|intros; apply preserves_ret].
  apply preserves_modify. intros d. now apply spent_nonneg_same_budgets.
Qed.

Lemma repo_delete_spent_nonneg id :
  preserves spent_nonneg (TransactionRepository.delete id).
Proof.
  unfold TransactionRepository.delete.
  apply preserves_bind; [apply preserves_get_db|]. intros db.
  destruct (TransactionRepository.find_by_id id (transactions db));
    [|apply preserves_throw].
  apply preserves_bind; [|intros; apply preserves_ret].
  apply preserves_modify. intros d. now apply spent_nonneg_same_budgets.
Qed.

Lemma getById_spent_nonneg u id :
  preserves spent_nonneg (TransactionService.getById u id).
Proof.
  unfold TransactionService.getById.
  apply preserves_bind; [apply repo_findById_spent_nonneg|]. intros t.
  apply preserves_if; auto with preserve.
Qed.

#[local] Hint Resolve updateSpent_spent_nonneg repo_create_spent_nonneg
  repo_update_spent_nonneg repo_delete_spent_nonneg getById_spent_nonneg : preserve.

Lemma create_spent_nonneg ml now u td :
  preserves spent_nonneg (TransactionService.create ml now u td).
Proof.
  unfold TransactionService.create.
  apply preserves_bind.
  { apply preserves_if; [|apply preserves_ret].
    unfold CategoryRepository.findByName.
    apply preserves_bind; [apply preserves_bind|]; auto with preserve. }
  intros _. apply preserves_bind.
  { apply preserves_if; [|apply preserves_ret].
    apply preserves_try_catch; [|auto with preserve].
    apply preserves_bind.
    - unfold MLService.predictCategory, await_post.
      apply preserves_try_catch; [|auto with preserve].
      destruct (post_predict_category ml _); auto with preserve.
    - intros []; auto with preserve. }
  intros t. apply preserves_bind; [auto with preserve|].
  intros t'. apply preserves_bind; [|auto with preserve].
  apply preserves_if; auto with preserve.
Qed.

Lemma update_spent_nonneg u id ud :
  preserves spent_nonneg (TransactionService.update u id ud).
Proof.
  unfold TransactionService.update.
  apply preserves_bind; [auto with preserve|]. intros t.
  apply preserves_bind; [|auto with preserve].
  apply preserves_if; [|auto with preserve].
  apply preserves_bind; apply preserves_if || intros _; auto with preserve.
Qed.

Lemma delete_spent_nonneg u id :
  preserves spent_nonneg (TransactionService.delete u id).
Proof.
  unfold TransactionService.delete.
  apply preserves_bind; [auto with preserve|]. intros t.
  apply preserves_bind; [|auto with preserve].
  apply preserves_if; auto with preserve.
Qed.

Lemma updateSpent_rejects_overdraw u c m y a db b :
  budgets db !! (u, c, m, y) = Some b ->
  (b_spent b + a < 0)%Q ->
  BudgetModel.updateSpent u c m y a db
  = (Thrown (ValidationError "Budget validation failed"), db).
Proof.
  intros Hb Hneg.
  unfold BudgetModel.updateSpent, BudgetModel.getOrCreate, bind, get_db. cbn.
  rewrite Hb. cbn. unfold BudgetModel.save, BudgetModel.doc_valid. cbn.
  assert (E : Qle_bool 0 (or_zero (b_spent b) + a) = false).
  { destruct (Qle_bool 0 (or_zero (b_spent b) + a)) eqn:E; [|reflexivity].
    apply Qle_bool_true in E. pose proof (or_zero_eq (b_spent b)) as Ho.
    lra. }
  rewrite E. rewrite !andb_false_r. reflexivity.
Qed.

Lemma spent_nonneg_empty (db : Db) : budgets db = ∅ -> spent_nonneg db.
Proof. intros E k b. rewrite E, lookup_empty. discriminate. Qed.

(** C10: in a ledger whose rows all have [spent >= 0], every operation of
    the transaction service and [Budget.updateSpent] itself leave all rows
    with [spent >= 0], whether they return or throw; and a negative
    adjustment larger than the current [spent] of an existing row is
    rejected by the schema validation, the ledger staying as it was. *)
Theorem spent_never_negative (db : Db) (H : spent_nonneg db) :
  (forall ml now u td,
      spent_nonneg (snd (TransactionService.create ml now u td db))) /\
  (forall u id ud, spent_nonneg (snd (TransactionService.update u id ud db))) /\
  (forall u id, spent_nonneg (snd (TransactionService.delete u id db))) /\
  (forall u c m y a, spent_nonneg (snd (BudgetModel.updateSpent u c m y a db))) /\
  (forall u c m y a b,
      budgets db !! (u, c, m, y) = Some b ->
      (b_spent b + a < 0)%Q ->
      BudgetModel.updateSpent u c m y a db
      = (Thrown (ValidationError "Budget validation failed"), db)).
Proof.
  repeat split.
  - intros. now apply create_spent_nonneg.
  - intros. now apply update_spent_nonneg.
  - intros. now apply delete_spent_nonneg.
  - intros. now apply updateSpent_spent_nonneg.
  - intros. now apply updateSpent_rejects_overdraw with (b := b).
Qed.

Lemma spent_never_negative_witness :
  spent_nonneg db_food100 /\
  BudgetModel.updateSpent 1%nat "Food" 1 2024 (-150) db_food100
  = (Thrown (ValidationError "Budget validation failed"), db_food100).
Proof.
  assert (H : spent_nonneg db_food100).
  { intros k b Hk. unfold db_food100 in Hk. cbn in Hk.
    apply lookup_singleton_Some in Hk as [_ <-]. cbn. discriminate. }
  split; [exact H|].
  destruct (spent_never_negative db_food100 H) as (_ & _ & _ & _ & Hreject).
  apply (Hreject 1%nat "Food" 1 2024 (-150)%Q (mkBudget 0 100 true)).
  - reflexivity.
  - reflexivity.
Defined.

(** *** Sums over the ledger *)

Lemma fold_left_total (l : list Transaction) (a : Q) :
  (fold_left (fun sum t => sum + t_amount t) l a == a + total l)%Q.
Proof.
  revert a. induction l as [|t l IH]; intros a; cbn.
  - unfold total. cbn. lra.
  - rewrite IH. unfold total. cbn. lra.
Qed.

Lemma total_Permutation (l l' : list Transaction) :
  Permutation l l' -> (total l == total l')%Q.
Proof.
  unfold total. induction 1; cbn in *; lra.
Qed.

Lemma filter_Permutation_bool {A} (f : A -> bool) (l l' : list A) :
  Permutation l l' -> Permutation (List.filter f l) (List.filter f l').
Proof.
  induction 1; cbn.
  - constructor.
  - destruct (f x); [constructor|]; assumption.
  - destruct (f x), (f y); try reflexivity. constructor.
  - etransitivity; eassumption.
Qed.

Lemma filter_filter_bool {A} (f g : A -> bool) (l : list A) :
  List.filter f (List.filter g l) = List.filter (fun x => g x && f x) l.
Proof.
  induction l as [|x l IH]; cbn; [reflexivity|].
  destruct (g x); cbn; [destruct (f x)|]; rewrite ?IH; reflexivity.
Qed.

Lemma filter_ext_bool {A} (f g : A -> bool) (l : list A) :
  (forall x, f x = g x) -> List.filter f l = List.filter g l.
Proof.
  intros E. induction l as [|x l IH]; cbn; [reflexivity|].
  rewrite E, IH. reflexivity.
Qed.

Lemma total_nonneg (l : list Transaction) :
  (forall t, In t l -> (0 <= t_amount t)%Q) -> (0 <= total l)%Q.
Proof.
  unfold total. induction l as [|t l IH]; intros H; cbn; [lra|].
  assert (0 <= t_amount t)%Q by (apply H; now left).
  assert (0 <= foldr Qplus 0 (List.map t_amount l))%Q
    by (apply IH; intros; apply H; now right).
  lra.
Qed.

(** The sum that the service folds over the sorted window is the spec's
    sum over the window. *)
Lemma sum_amounts_window ty u s e db :
  (sum_amounts ty
     (merge_sort date_desc
        (List.filter (TransactionModel.in_range u s e) (transactions db)))
   == spec_window_sum ty u s e db)%Q.
Proof.
  unfold sum_amounts. rewrite fold_left_total.
  rewrite (total_Permutation _
             (List.filter (fun t => bool_decide (t_type t = ty))
                (List.filter (TransactionModel.in_range u s e) (transactions db)))).
  2: { apply filter_Permutation_bool, merge_sort_Permutation. }
  rewrite filter_filter_bool. unfold spec_window_sum.
  rewrite (filter_ext_bool _
             (fun t => Nat.eqb (t_userId t) u && bool_decide (t_type t = ty)
                       && (s <=? t_date t) && (t_date t <=? e))); [lra|].
  intros t. unfold TransactionModel.in_range.
  destruct (t_userId t =? u)%nat, (bool_decide (t_type t = ty)),
    (s <=? t_date t), (t_date t <=? e); reflexivity.
Qed.

Lemma spec_window_sum_nonneg ty u s e db :
  amounts_nonneg db -> (0 <= spec_window_sum ty u s e db)%Q.
Proof.
  intros H. apply total_nonneg. intros t Ht.
  apply filter_In in Ht as [Ht _]. apply H, Ht.
Qed.

(** *** Adjusting a ledger row *)

Lemma getMonth_range (d : Date) : 0 <= getMonth d <= 11.
Proof.
  unfold getMonth, civil_from_days. cbv zeta. cbn [snd].
  match goal with
  | |- context [?x mod 12] => pose proof (Z.mod_pos_bound x 12 ltac:(lia))
  end.
  lia.
Qed.

Lemma bucket_key_valid (u : ObjectId) (c : string) (d : Date) :
  c <> ""%string -> 2000 <= getFullYear d ->
  BudgetModel.key_valid (u, c, getMonth d + 1, getFullYear d) = true.
Proof.
  intros Hc Hy. unfold BudgetModel.key_valid.
  pose proof (getMonth_range d).
  destruct (String.eqb_spec c ""); [contradiction|]. cbn [negb andb].
  repeat (apply andb_true_intro; split); apply Z.leb_le; lia.
Qed.

Lemma spent_of_insert db k b k' :
  spent_of (set_budgets (<[k := b]> (budgets db)) db) k'
  = if decide (k = k') then b_spent b else spent_of db k'.
Proof.
  unfold spent_of. cbn. rewrite lookup_insert. case_decide; reflexivity.
Qed.

Lemma getOrCreate_run u c m y d db :
  BudgetModel.getOrCreate u c m y d db
  = match budgets db !! (u, c, m, y) with
    | Some budget => (Returned budget, db)
    | None => BudgetModel.create (u, c, m, y) d db
    end.
Proof.
  unfold BudgetModel.getOrCreate, bind, get_db.
  destruct (budgets db !! (u, c, m, y)); reflexivity.
Qed.

Lemma save_run k b db :
  BudgetModel.key_valid k = true -> BudgetModel.doc_valid b = true ->
  BudgetModel.save k b db = (Returned b, set_budgets (<[k := b]> (budgets db)) db).
Proof. intros Hk Hb. unfold BudgetModel.save. rewrite Hk, Hb. reflexivity. Qed.

(** An adjustment that keeps [spent] non-negative succeeds on a valid
    ledger: the row is written with [spent] moved by the amount. *)
Lemma updateSpent_ok u c m y a db :
  rows_valid db ->
  BudgetModel.key_valid (u, c, m, y) = true ->
  (0 <= spent_of db (u, c, m, y) + a)%Q ->
  exists b,
    BudgetModel.updateSpent u c m y a db
    = (Returned b, set_budgets (<[(u, c, m, y) := b]> (budgets db)) db)
    /\ (b_spent b == spent_of db (u, c, m, y) + a)%Q
    /\ BudgetModel.doc_valid b = true.
Proof.
  intros Hrows Hk Hs. unfold spent_of in *.
  unfold BudgetModel.updateSpent, bind. rewrite getOrCreate_run.
  destruct (budgets db !! (u, c, m, y)) as [b0|] eqn:E.
  - destruct (Hrows _ _ E) as [_ Hd]. unfold BudgetModel.doc_valid in Hd.
    apply andb_prop in Hd as [Hamt _].
    pose proof (or_zero_eq (b_spent b0)) as Ho.
    assert (Hv : BudgetModel.doc_valid
                   (mkBudget (b_amount b0) (or_zero (b_spent b0) + a) (b_isActive b0))
                 = true).
    { unfold BudgetModel.doc_valid. cbn [b_amount b_spent]. rewrite Hamt.
      cbn [andb]. apply Qle_bool_iff. lra. }
    rewrite save_run by assumption.
    eexists. split; [reflexivity|]. split; [cbn [b_spent]; lra|exact Hv].
  - unfold BudgetModel.create. rewrite save_run by (assumption || reflexivity).
    assert (Hv : BudgetModel.doc_valid (mkBudget 0 (or_zero 0 + a) true) = true).
    { unfold BudgetModel.doc_valid. cbn [b_amount b_spent].
      change (or_zero 0) with 0%Q. apply andb_true_intro.
      split; apply Qle_bool_iff; lra. }
    cbn [b_amount b_spent b_isActive]. rewrite save_run by assumption.
    cbn [budgets set_budgets]. rewrite insert_insert_eq.
    eexists. split; [reflexivity|]. split; [|exact Hv].
    cbn [b_spent]. change (or_zero 0) with 0%Q. lra.
Qed.

Lemma rows_valid_insert db k b :
  rows_valid db -> BudgetModel.key_valid k = true -> BudgetModel.doc_valid b = true ->
  rows_valid (set_budgets (<[k := b]> (budgets db)) db).
Proof.
  intros Hrows Hk Hb k' b'. cbn. rewrite lookup_insert. case_decide.
  - intros [= <-]. subst k'. now split.
  - apply Hrows.
Qed.

(** *** The sum of a bucket under changes of the transactions *)

Lemma total_app (l1 l2 : list Transaction) :
  (total (l1 ++ l2)%list == total l1 + total l2)%Q.
Proof.
  unfold total. induction l1 as [|t l1 IH]; cbn; [lra|].
  cbn in IH. lra.
Qed.

Lemma contribution_in_bucket (t : Transaction) (k : BudgetKey) :
  (total (List.filter (in_bucket k) [t]) == contribution t k)%Q.
Proof.
  unfold contribution. cbn [List.filter].
  destruct (in_bucket k t); unfold total; cbn; lra.
Qed.

Lemma total_filter_cons (k : BudgetKey) (t : Transaction) (l : list Transaction) :
  (total (List.filter (in_bucket k) (t :: l))
   == contribution t k + total (List.filter (in_bucket k) l))%Q.
Proof.
  change (t :: l) with ([t] ++ l)%list. rewrite List.filter_app, total_app.
  rewrite contribution_in_bucket. reflexivity.
Qed.

Lemma total_filter_snoc (k : BudgetKey) (t : Transaction) (l : list Transaction) :
  (total (List.filter (in_bucket k) (l ++ [t])%list)
   == total (List.filter (in_bucket k) l) + contribution t k)%Q.
Proof.
  rewrite List.filter_app, total_app, contribution_in_bucket. reflexivity.
Qed.

Lemma find_by_id_In (id : ObjectId) (l : list Transaction) (t : Transaction) :
  TransactionRepository.find_by_id id l = Some t -> In t l /\ t_id t = id.
Proof.
  unfold TransactionRepository.find_by_id. intros H.
  apply find_some in H as [Hin Hid]. split; [exact Hin|].
  now apply Nat.eqb_eq.
Qed.





Lemma total_bucket_bound (k : BudgetKey) (t : Transaction) (l : list Transaction) :
  (forall x, In x l -> (0 <= t_amount x)%Q) ->
  In t l ->
  (contribution t k <= total (List.filter (in_bucket k) l))%Q.
Proof.
  induction l as [|x l IH]; intros Hpos Hin; [destruct Hin|].
  rewrite total_filter_cons.
  assert (Hx : (0 <= contribution x k)%Q).
  { unfold contribution. destruct (in_bucket k x); [apply Hpos; now left|lra]. }
  assert (Hl : (0 <= total (List.filter (in_bucket k) l))%Q).
  { apply total_nonneg. intros y Hy. apply filter_In in Hy as [Hy _].
    apply Hpos. now right. }
  destruct Hin as [->|Hin]; [lra|].
  specialize (IH (fun y Hy => Hpos y (or_intror Hy)) Hin). lra.
Qed.

(** *** The ledger stays exact *)

Lemma getById_run u id db :
  TransactionService.getById u id db
  = match TransactionRepository.find_by_id id (transactions db) with
    | Some t =>
        if negb (Nat.eqb (t_userId t) u)
        then (Thrown (NotFoundError "Transaction"), db)
        else (Returned t, db)
    | None => (Thrown (NotFoundError "Transaction"), db)
    end.
Proof.
  unfold TransactionService.getById, TransactionRepository.findById, bind, get_db.
  destruct (TransactionRepository.find_by_id id (transactions db)) as [t|];
    [|reflexivity].
  cbn. destruct (negb (t_userId t =? u)%nat); reflexivity.
Qed.

(** One adjustment of the ledger, as the service runs it. *)
Lemma adjust_step u c m y a db :
  rows_valid db ->
  BudgetModel.key_valid (u, c, m, y) = true ->
  (0 <= spent_of db (u, c, m, y) + a)%Q ->
  exists db1,
    bind (BudgetModel.updateSpent u c m y a) (fun _ => ret tt) db = (Returned tt, db1)
    /\ transactions db1 = transactions db
    /\ nextId db1 = nextId db
    /\ rows_valid db1
    /\ forall k, (spent_of db1 k
                  == spent_of db k + (if decide ((u, c, m, y) = k) then a else 0))%Q.
Proof.
  intros Hrows Hk Hs.
  destruct (updateSpent_ok u c m y a db Hrows Hk Hs) as (b & Hrun & Hb & Hv).
  eexists. split; [erewrite bind_returned by exact Hrun; reflexivity|].
  split; [reflexivity|]. split; [reflexivity|].
  split; [now apply rows_valid_insert|].
  intros k. rewrite spent_of_insert. case_decide; [subst k; lra|lra].
Qed.

Lemma spent_of_nonneg db k : rows_valid db -> (0 <= spent_of db k)%Q.
Proof.
  intros Hrows. unfold spent_of.
  destruct (budgets db !! k) as [b|] eqn:E; [|lra].
  destruct (Hrows _ _ E) as [_ Hd]. unfold BudgetModel.doc_valid in Hd.
  apply andb_prop in Hd as [_ Hd]. now apply Qle_bool_iff.
Qed.

Lemma contribution_expense (t : Transaction) (k : BudgetKey) :
  t_type t = expense ->
  contribution t k = if decide (bucket_of t = k) then t_amount t else 0%Q.
Proof.
  intros E. unfold contribution, in_bucket, is_expense. rewrite E.
  rewrite bool_decide_eq_true_2 by reflexivity. cbn [andb].
  unfold bool_decide. destruct (decide_rel eq (bucket_of t) k); case_decide;
    try reflexivity; contradiction.
Qed.

Lemma contribution_income (t : Transaction) (k : BudgetKey) :
  t_type t = income -> contribution t k = 0%Q.
Proof.
  intros E. unfold contribution, in_bucket, is_expense. rewrite E. reflexivity.
Qed.



(** [create] either throws before it writes, or persists a transaction
    of the owner with the direction, amount and date of the input, and
    then adjusts the ledger. *)
Lemma create_shape ml now u td db :
  (exists e, TransactionService.create ml now u td db = (Thrown e, db)) \/
  (exists tr,
      t_userId tr = u /\ t_type tr = td_type td /\ t_amount tr = td_amount td
      /\ t_date tr = default now (td_date td)
      /\ TransactionService.create ml now u td db
         = bind (TransactionRepository.create now tr)
             (fun createdTransaction =>
                bind (if is_expense (td_type td)
                         && negb (String.eqb (t_category createdTransaction) "")
                      then
                        bind (BudgetModel.updateSpent u (t_category createdTransaction)
                                (getMonth (t_date createdTransaction) + 1)
                                (getFullYear (t_date createdTransaction))
                                (t_amount createdTransaction))
                             (fun _ => ret tt)
                      else ret tt)
                     (fun _ => ret createdTransaction)) db).
Proof.
  unfold TransactionService.create.
  set (tail := fun transaction : Transaction =>
                 bind (TransactionRepository.create now transaction) _).
  set (tr0 := mkTransaction 0 u _ _ _ _ _ _ _ _ _ _ _ _).
  assert (Hpred : exists tr,
             t_userId tr = u /\ t_type tr = td_type td /\ t_amount tr = td_amount td
             /\ t_date tr = default now (td_date td)
             /\ (if negb (truthy_str (td_category td))
                 then
                   try_catch
                     (bind (MLService.predictCategory ml
                              (mkCategoryRequest (t_description tr0) (t_amount tr0)
                                 (t_type tr0) (t_paymentMethod tr0)))
                        (fun prediction =>
                           match prediction with
                           | Some p => ret (with_prediction p tr0)
                           | None => ret tr0
                           end))
                     (fun _ =>
                        ret (with_category
                               match td_type td with
                               | income => "Other Income"
                               | expense => "Other Expense"
                               end tr0))
                 else ret tr0) db = (Returned tr, db)).
  { destruct (negb (truthy_str (td_category td))).
    - destruct (predictCategory_never_throws ml
                  (mkCategoryRequest (t_description tr0) (t_amount tr0)
                     (t_type tr0) (t_paymentMethod tr0)) db) as [[p|] Hp].
      + exists (with_prediction p tr0). do 4 (split; [reflexivity|]).
        apply try_catch_returned. erewrite bind_returned by exact Hp. reflexivity.
      + exists tr0. do 4 (split; [reflexivity|]).
        apply try_catch_returned. erewrite bind_returned by exact Hp. reflexivity.
    - exists tr0. do 4 (split; [reflexivity|]). reflexivity. }
  destruct Hpred as (tr & H1 & H2 & H3 & H4 & Hrun).
  destruct (truthy_str (td_category td)) eqn:Hc.
  - unfold CategoryRepository.findByName.
    destruct (existsb (fun c => (c.1 =? u)%nat && (c.2 =? default "" (td_category td))%string)
                      (categories db)) eqn:Hex.
    + right. exists tr. do 4 (split; [assumption|]).
      erewrite bind_returned.
      2: { erewrite bind_returned.
           2: { erewrite bind_returned by reflexivity. reflexivity. }
           cbv beta. rewrite Hex. reflexivity. }
      erewrite bind_returned by exact Hrun. reflexivity.
    + left. eexists. erewrite bind_thrown; [reflexivity|].
      erewrite bind_returned.
      2: { erewrite bind_returned by reflexivity. reflexivity. }
      cbv beta. rewrite Hex. reflexivity.
  - right. exists tr. do 4 (split; [assumption|]).
    erewrite bind_returned by reflexivity.
    erewrite bind_returned by exact Hrun. reflexivity.
Qed.

Lemma valid_transaction_facts (t : Transaction) :
  TransactionModel.valid t = true -> (0 <= t_amount t)%Q /\ t_category t <> ""%string.
Proof.
  unfold TransactionModel.valid. intros H.
  apply andb_prop in H as [H Hcat]. apply andb_prop in H as [H _].
  apply andb_prop in H as [H _]. apply andb_prop in H as [Hamt _].
  split; [now apply Qle_bool_iff|].
  destruct (String.eqb_spec (t_category t) ""); [discriminate|assumption].
Qed.

Lemma create_well_formed ml now u td db :
  well_formed db ->
  2000 <= getFullYear (default now (td_date td)) ->
  well_formed (snd (TransactionService.create ml now u td db)).
Proof.
  intros Hwf Hyear.
  destruct (create_shape ml now u td db)
    as [[e ->]|(tr & Hu & Hty & Hamt & Hdate & ->)]; [exact Hwf|].
  destruct Hwf as [Hids Hfresh Hdocs Hrows Hled].
  unfold TransactionRepository.create, bind at 1, bind at 1. cbn [get_db].
  set (t := mkTransaction (nextId db) _ _ _ _ _ _ _ _ _ _ _ _ now).
  destruct (TransactionModel.valid t) eqn:Hvalid; [|now constructor].
  destruct (valid_transaction_facts t Hvalid) as [Hpos Hcat].
  cbn [bind modify_db ret].
  set (db1 := set_nextId (S (nextId db))
                (set_transactions (transactions db ++ [t]) db)).
  assert (Hrows1 : rows_valid db1) by exact Hrows.
  assert (Ht_user : t_userId t = u) by exact Hu.
  assert (Ht_year : 2000 <= getFullYear (t_date t)).
  { change (t_date t) with (t_date tr). now rewrite Hdate. }
  assert (Hstep : exists db2,
             (if is_expense (td_type td) && negb (String.eqb (t_category t) "")
              then bind (BudgetModel.updateSpent u (t_category t)
                           (getMonth (t_date t) + 1) (getFullYear (t_date t))
                           (t_amount t)) (fun _ => ret tt)
              else ret tt) db1 = (Returned tt, db2)
             /\ transactions db2 = transactions db1
             /\ nextId db2 = nextId db1
             /\ rows_valid db2
             /\ forall k, (spent_of db2 k == spent_of db k + contribution t k)%Q).
  { destruct (td_type td) eqn:Htd.
    - exists db1. do 4 (split; [first [reflexivity|assumption]|]).
      intros k. rewrite contribution_income by exact Hty.
      change (spent_of db1 k) with (spent_of db k). lra.
    - change (is_expense expense) with true.
      destruct (String.eqb_spec (t_category t) ""); [contradiction|].
      cbn [andb negb].
      destruct (adjust_step u (t_category t) (getMonth (t_date t) + 1)
                  (getFullYear (t_date t)) (t_amount t) db1 Hrows1)
        as (db2 & Hrun & Htx & Hnext & Hrows2 & Hspent).
      + now apply bucket_key_valid.
      + pose proof (spent_of_nonneg db1 (u, t_category t, getMonth (t_date t) + 1,
                                         getFullYear (t_date t)) Hrows1). lra.
      + exists db2. do 4 (split; [first [reflexivity|assumption]|]).
        intros k. rewrite Hspent.
        rewrite contribution_expense by exact Hty.
        unfold bucket_of. rewrite Ht_user.
        change (spent_of db1 k) with (spent_of db k). case_decide; lra. }
  destruct Hstep as (db2 & Hrun & Htx & Hnext & Hrows2 & Hspent).
  erewrite bind_returned by exact Hrun. cbn [ret snd].
  constructor.
  - rewrite Htx. cbn [transactions db1 set_nextId set_transactions].
    rewrite map_app. apply NoDup_app. split; [exact Hids|]. split.
    + intros x Hx Hx'. apply list_elem_of_In in Hx.
      apply in_map_iff in Hx as (y & <- & Hy). specialize (Hfresh y Hy).
      cbn in Hx'. apply list_elem_of_In in Hx'. destruct Hx' as [E|[]].
      cbn in E. lia.
    + cbn. apply NoDup_singleton.
  - intros x Hx. rewrite Htx in Hx. rewrite Hnext.
    cbn [transactions nextId db1 set_nextId set_transactions] in *.
    apply in_app_or in Hx as [Hx|[<-|[]]].
    + specialize (Hfresh x Hx). lia.
    + cbn. lia.
  - intros x Hx. rewrite Htx in Hx.
    cbn [transactions db1 set_nextId set_transactions] in Hx.
    apply in_app_or in Hx as [Hx|[<-|[]]]; [now apply Hdocs|].
    split; [exact Hpos|]. split; [exact Hcat|exact Ht_year].
  - exact Hrows2.
  - intros k. rewrite Hspent, (Hled k). unfold bucket_total. rewrite Htx.
    cbn [transactions db1 set_nextId set_transactions].
    rewrite total_filter_snoc. reflexivity.
Qed.



(** What an exact update writes to the transaction is what the service
    passed to the ledger. *)
Lemma apply_set_fields (ud : UpdateData) (t : Transaction) :
  exact_request (ReqUpdate (t_id t) ud) ->
  (0 <= t_amount t)%Q -> t_category t <> ""%string -> 2000 <= getFullYear (t_date t) ->
  let t' := apply_set ud t in
  t_type t' = t_type t /\ t_userId t' = t_userId t /\ t_id t' = t_id t
  /\ num_or (ud_amount ud) (t_amount t) = t_amount t'
  /\ str_or (ud_category ud) (t_category t) = t_category t'
  /\ (0 <= t_amount t')%Q /\ t_category t' <> ""%string
  /\ 2000 <= getFullYear (t_date t')
  /\ (truthy_str (ud_category ud) || truthy_num (ud_amount ud) = false ->
      t_amount t' = t_amount t /\ t_category t' = t_category t /\ t_date t' = t_date t).
Proof.
  intros (Hvalid & Htype & Hnz & Hdate) Hamt Hcat Hyear. cbv zeta.
  unfold TransactionModel.valid_update in Hvalid.
  apply andb_prop in Hvalid as [Hvalid Hvc]. apply andb_prop in Hvalid as [Hvalid _].
  apply andb_prop in Hvalid as [Hva _].
  unfold apply_set. cbn [t_type t_userId t_id t_amount t_category t_date].
  rewrite Htype. cbn [default].
  split; [reflexivity|]. split; [reflexivity|]. split; [reflexivity|].
  assert (Ha : num_or (ud_amount ud) (t_amount t) = default (t_amount t) (ud_amount ud)
               /\ (0 <= default (t_amount t) (ud_amount ud))%Q
               /\ (truthy_num (ud_amount ud) = false ->
                   default (t_amount t) (ud_amount ud) = t_amount t)).
  { destruct (ud_amount ud) as [a|] eqn:Ea; cbn.
    - specialize (Hnz a eq_refl).
      destruct (Qeq_bool a 0) eqn:Ez; [apply Qeq_bool_iff in Ez; contradiction|].
      split; [reflexivity|]. split; [now apply Qle_bool_iff|]. discriminate.
    - split; [reflexivity|]. split; [exact Hamt|]. reflexivity. }
  assert (Hc : str_or (ud_category ud) (t_category t)
               = default (t_category t) (ud_category ud)
               /\ default (t_category t) (ud_category ud) <> ""%string
               /\ (truthy_str (ud_category ud) = false ->
                   default (t_category t) (ud_category ud) = t_category t)).
  { destruct (ud_category ud) as [c|] eqn:Ec; cbn.
    - cbn in Hvc. destruct (String.eqb_spec c ""); [discriminate|].
      split; [reflexivity|]. split; [assumption|]. discriminate.
    - split; [reflexivity|]. split; [exact Hcat|]. reflexivity. }
  destruct Ha as (Ha1 & Ha2 & Ha3). destruct Hc as (Hc1 & Hc2 & Hc3).
  split; [exact Ha1|]. split; [exact Hc1|]. split; [exact Ha2|]. split; [exact Hc2|].
  split.
  - destruct (ud_date ud) as [d|] eqn:Ed; cbn; [apply (Hdate d eq_refl)|exact Hyear].
  - intros Hg. apply orb_false_elim in Hg as [Hgc Hga].
    split; [now apply Ha3|]. split; [now apply Hc3|].
    destruct (ud_date ud) as [d|] eqn:Ed; cbn; [|reflexivity].
    destruct (Hdate d eq_refl) as [_ Hg]. rewrite Hgc, Hga in Hg. discriminate.
Qed.

Lemma contribution_same (t t' : Transaction) (k : BudgetKey) :
  t_type t' = t_type t -> t_userId t' = t_userId t -> t_amount t' = t_amount t ->
  t_category t' = t_category t -> t_date t' = t_date t ->
  contribution t' k = contribution t k.
Proof.
  intros E1 E2 E3 E4 E5. unfold contribution, in_bucket, bucket_of.
  rewrite E1, E2, E3, E4, E5. reflexivity.
Qed.

Lemma repo_update_run id ud db t :
  TransactionModel.valid_update ud = true ->
  TransactionRepository.find_by_id id (transactions db) = Some t ->
  TransactionRepository.update id ud db
  = (Returned (apply_set ud t),
     set_transactions
       (List.map (fun x => if Nat.eqb (t_id x) id then apply_set ud t else x)
                 (transactions db)) db).
Proof.
  intros Hv Hf. unfold TransactionRepository.update. rewrite Hv.
  unfold bind at 1, get_db. rewrite Hf. reflexivity.
Qed.

(** An exact update of an existing transaction of the owner succeeds:
    it returns the updated transaction and moves its contribution in the
    ledger. *)
Lemma update_exact_run u id ud db t :
  well_formed db ->
  exact_request (ReqUpdate id ud) ->
  TransactionRepository.find_by_id id (transactions db) = Some t ->
  t_userId t = u ->
  exists db2,
    TransactionService.update u id ud db
    = (Returned (apply_set ud t),
       set_transactions
         (List.map (fun x => if Nat.eqb (t_id x) id then apply_set ud t else x)
                   (transactions db)) db2)
    /\ transactions db2 = transactions db
    /\ nextId db2 = nextId db
    /\ rows_valid db2
    /\ forall k, (spent_of db2 k
                  == spent_of db k - contribution t k
                     + contribution (apply_set ud t) k)%Q.
Proof.
  intros [Hids Hfresh Hdocs Hrows Hled] Hexact Hfind Hu.
  unfold TransactionService.update, bind at 1. rewrite getById_run, Hfind.
  rewrite Hu, Nat.eqb_refl. cbn [negb].
  destruct (find_by_id_In _ _ _ Hfind) as [Hin Hid].
  destruct (Hdocs t Hin) as (Hamt & Hcat & Hyear).
  rewrite <- Hid in Hexact.
  destruct (apply_set_fields ud t Hexact Hamt Hcat Hyear)
    as (Hty' & Hu' & Hid' & Hna & Hnc & Hamt' & Hcat' & Hyear' & Hsame).
  destruct Hexact as (Hvalid & _).
  set (t' := apply_set ud t) in *.
  rewrite Hna, Hnc.
  change (default (t_date t) (ud_date ud)) with (t_date t').
  assert (Hstep : exists db2,
             (if truthy_str (ud_category ud) || truthy_num (ud_amount ud)
              then
                bind (if is_expense (t_type t)
                      then bind (BudgetModel.updateSpent u (t_category t)
                                   (getMonth (t_date t) + 1) (getFullYear (t_date t))
                                   (- t_amount t)) (fun _ => ret tt)
                      else ret tt)
                     (fun _ =>
                        if is_expense (t_type t)
                        then bind (BudgetModel.updateSpent u (t_category t')
                                     (getMonth (t_date t') + 1)
                                     (getFullYear (t_date t')) (t_amount t'))
                                  (fun _ => ret tt)
                        else ret tt)
              else ret tt) db = (Returned tt, db2)
             /\ transactions db2 = transactions db
             /\ nextId db2 = nextId db
             /\ rows_valid db2
             /\ forall k, (spent_of db2 k
                           == spent_of db k - contribution t k + contribution t' k)%Q).
  { destruct (truthy_str (ud_category ud) || truthy_num (ud_amount ud)) eqn:Hg.
    2: { exists db. do 4 (split; [first [reflexivity|assumption]|]).
         destruct (Hsame eq_refl) as (E1 & E2 & E3).
         intros k. rewrite (contribution_same t t') by assumption. lra. }
    destruct (t_type t) eqn:Hty.
    { exists db. do 4 (split; [first [reflexivity|assumption]|]).
      intros k. rewrite !contribution_income by assumption. lra. }
    change (is_expense expense) with true. cbv iota.
    destruct (adjust_step u (t_category t) (getMonth (t_date t) + 1)
                (getFullYear (t_date t)) (- t_amount t) db Hrows)
      as (db1 & Hrun1 & Htx1 & Hnext1 & Hrows1 & Hspent1).
    { now apply bucket_key_valid. }
    { rewrite (Hled _). unfold bucket_total.
      pose proof (total_bucket_bound
                    (u, t_category t, getMonth (t_date t) + 1, getFullYear (t_date t))
                    t (transactions db) (fun x Hx => proj1 (Hdocs x Hx)) Hin) as Hb.
      rewrite contribution_expense in Hb by assumption.
      unfold bucket_of in Hb. rewrite Hu in Hb.
      rewrite decide_True in Hb by reflexivity. lra. }
    destruct (adjust_step u (t_category t') (getMonth (t_date t') + 1)
                (getFullYear (t_date t')) (t_amount t') db1 Hrows1)
      as (db2 & Hrun2 & Htx2 & Hnext2 & Hrows2 & Hspent2).
    { now apply bucket_key_valid. }
    { pose proof (spent_of_nonneg db1 (u, t_category t', getMonth (t_date t') + 1,
                                       getFullYear (t_date t')) Hrows1). lra. }
    exists db2. split.
    { erewrite bind_returned by exact Hrun1. exact Hrun2. }
    split; [congruence|]. split; [congruence|]. split; [exact Hrows2|].
    intros k. rewrite Hspent2, Hspent1.
    rewrite !contribution_expense by congruence.
    unfold bucket_of. rewrite Hu', Hu.
    repeat case_decide; lra. }
  destruct Hstep as (db2 & Hrun & Htx & Hnext & Hrows2 & Hspent).
  exists db2. split; [|now repeat (split; [assumption|])].
  erewrite bind_returned by exact Hrun.
  rewrite (repo_update_run id ud db2 t) by (rewrite ?Htx; assumption).
  fold t'. rewrite Htx. reflexivity.
Qed.



Lemma well_formed_db0 : well_formed db0.
Proof.
  constructor.
  - constructor.
  - intros t [].
  - intros t [].
  - intros k b H. unfold db0 in H. cbn [budgets] in H.
    rewrite lookup_empty in H. discriminate.
  - intros k. unfold spent_of, db0. cbn [budgets]. rewrite lookup_empty.
    reflexivity.
Qed.

(** *** Updates and the ledger *)

(** The sibling path of the date-only update: an exact update of an
    expense that sets an amount (or a category) and a date of another
    month takes the old amount out of the old row and puts the new amount
    into the new row. *)
Lemma update_with_amount_relocates u id ud db t :
  well_formed db ->
  exact_request (ReqUpdate id ud) ->
  TransactionRepository.find_by_id id (transactions db) = Some t ->
  t_userId t = u ->
  t_type t = expense ->
  bucket_of (apply_set ud t) <> bucket_of t ->
  let db' := snd (TransactionService.update u id ud db) in
  (spent_of db' (bucket_of t) == spent_of db (bucket_of t) - t_amount t)%Q
  /\ (spent_of db' (bucket_of (apply_set ud t))
      == spent_of db (bucket_of (apply_set ud t)) + t_amount (apply_set ud t))%Q.
Proof.
  intros Hwf Hexact Hfind Hu Hty Hne. cbv zeta.
  destruct (update_exact_run u id ud db t Hwf Hexact Hfind Hu)
    as (db2 & -> & _ & _ & _ & Hspent).
  cbn [snd].
  change (spent_of (set_transactions ?l db2)) with (spent_of db2).
  assert (Hty' : t_type (apply_set ud t) = expense).
  { destruct Hexact as (_ & E & _). unfold apply_set. cbn. rewrite E. exact Hty. }
  rewrite !Hspent, !contribution_expense by assumption.
  split; repeat case_decide; try congruence; lra.
Qed.

Lemma well_formed_db_lunch : well_formed db_lunch.
Proof.
  unfold db_lunch. apply create_well_formed; [apply well_formed_db0|].
  vm_compute. discriminate.
Qed.

(** The lunch of January, moved to February and repriced at 80 in one
    update: January loses its 100 and February gets 80. *)
Lemma update_with_amount_relocates_lunch :
  let db' := snd (TransactionService.update 1%nat 100%nat move_and_reprice db_lunch) in
  (spent_of db' jan_food == spent_of db_lunch jan_food - 100)%Q
  /\ (spent_of db' feb_food == spent_of db_lunch feb_food + 80)%Q.
Proof.
  assert (Hexact : exact_request (ReqUpdate 100%nat move_and_reprice)).
  { split; [reflexivity|]. split; [reflexivity|]. split.
    - intros a [= <-]. discriminate.
    - intros d [= <-]. split; [vm_compute; discriminate|reflexivity]. }
  assert (Hfind : TransactionRepository.find_by_id 100%nat (transactions db_lunch)
                  = Some lunch_doc) by (vm_compute; reflexivity).
  assert (Hne : bucket_of (apply_set move_and_reprice lunch_doc) <> bucket_of lunch_doc)
    by (vm_compute; discriminate).
  assert (Hjan : bucket_of lunch_doc = jan_food) by (vm_compute; reflexivity).
  assert (Hfeb : bucket_of (apply_set move_and_reprice lunch_doc) = feb_food)
    by (vm_compute; reflexivity).
  pose proof (update_with_amount_relocates 1%nat 100%nat move_and_reprice db_lunch
                lunch_doc well_formed_db_lunch Hexact Hfind eq_refl eq_refl Hne) as H.
  cbv zeta in H. rewrite Hjan, Hfeb in H. exact H.
Qed.

Lemma update_without_amount_or_category u id ud db :
  truthy_str (ud_category ud) = false ->
  truthy_num (ud_amount ud) = false ->
  budgets (snd (TransactionService.update u id ud db)) = budgets db.
Proof.
  intros Hc Ha. unfold TransactionService.update, TransactionService.getById,
    TransactionRepository.findById, TransactionRepository.update, bind, get_db.
  rewrite Hc, Ha. cbn.
  destruct (TransactionRepository.find_by_id id (transactions db)) as [t|] eqn:E;
    [|reflexivity].
  cbn. destruct (negb (t_userId t =? u)%nat); [reflexivity|]. cbn.
  destruct (TransactionModel.valid_update ud); [|reflexivity].
  cbn. rewrite E. reflexivity.
Qed.

(** C2: the lunch of 15 January (100, Food) is moved to 15 February by an
    update that sets the date only.  The update returns the transaction
    with its new date, in the February bucket, and the ledger is what it
    was: January still has spent 100 and February has no row. *)
Theorem date_only_update_keeps_ledger :
  (exists t,
      fst (TransactionService.update 1%nat 100%nat move_to_february db_lunch)
      = Returned t
      /\ t_type t = expense /\ t_amount t = 100%Q /\ bucket_of t = feb_food) /\
  spent_of db_lunch jan_food = 100%Q /\
  spent_of (snd (TransactionService.update 1%nat 100%nat move_to_february db_lunch))
           jan_food = 100%Q /\
  budgets (snd (TransactionService.update 1%nat 100%nat move_to_february db_lunch))
  !! feb_food = None.
Proof.
  split; [eexists; split; [vm_compute; reflexivity|vm_compute; auto]|].
  split; [vm_compute; reflexivity|].
  split; vm_compute; reflexivity.
Qed.

(** C1: after the lunch (100, Food, January 2024) is created the ledger
    agrees with the transactions in every bucket.  It does not after an
    update that sets the amount to 0: the January row still has spent 100
    while the transactions of the bucket sum to 0; nor after an update
    that sets only the date to February: the January row has spent 100
    with no transaction left in January, and February holds a transaction
    of 100 with nothing spent. *)
Theorem ledger_diverges_from_transactions :
  ledger_consistent db_lunch /\
  (let db' := snd (TransactionService.update 1%nat 100%nat set_amount_zero db_lunch) in
   ~ ledger_consistent db'
   /\ spent_of db' jan_food = 100%Q /\ bucket_total db' jan_food = 0%Q) /\
  (let db' := snd (TransactionService.update 1%nat 100%nat move_to_february db_lunch) in
   ~ ledger_consistent db'
   /\ spent_of db' jan_food = 100%Q /\ bucket_total db' jan_food = 0%Q
   /\ spent_of db' feb_food = 0%Q /\ (bucket_total db' feb_food == 100)%Q).
Proof.
  split; [apply wf_ledger, well_formed_db_lunch|].
  split; cbv zeta.
  - split; [|split; vm_compute; reflexivity].
    intros H. specialize (H jan_food). vm_compute in H. discriminate.
  - split; [|repeat split; vm_compute; reflexivity].
    intros H. specialize (H jan_food). vm_compute in H. discriminate.
Qed.

(** *** Creation when the category predictor fails *)

Lemma set_budgets_same db : set_budgets (budgets db) db = db.
Proof. destruct db; reflexivity. Qed.

(** [Budget.updateSpent] writes to the budgets only. *)
Lemma updateSpent_frame u c m y a db :
  exists b, snd (BudgetModel.updateSpent u c m y a db) = set_budgets b db.
Proof.
  unfold BudgetModel.updateSpent, BudgetModel.getOrCreate, BudgetModel.create,
    BudgetModel.save, bind, get_db, modify_db, ret, throw. cbn.
  destruct (budgets db !! (u, c, m, y)) as [b|]; cbn;
    repeat match goal with
      | |- context [if ?x then _ else _] => destruct x; cbn
      end;
    eexists; try reflexivity; symmetry; apply set_budgets_same.
Qed.

Lemma falsy_category_default (c : option string) :
  truthy_str c = false -> str_or c "Other Expense" = "Other Expense".
Proof.
  destruct c as [s|]; cbn; [|reflexivity].
  destruct (String.eqb s ""); [reflexivity|discriminate].
Qed.

(** C3: [create] with no category, a failing category predictor and an
    input that passes the schema.  The transaction is persisted under a
    fresh id with category source [auto] (the default marker), and
    [create] returns it without an exception (for an expense, when the
    ledger rows are valid and the date is of year 2000 or later); the
    category is "Other Expense" whatever the direction is, also for an
    income. *)
Theorem create_when_predictor_fails ml now u td db msg :
  truthy_str (td_category td) = false ->
  (forall req, post_predict_category ml req = Failure msg) ->
  input_valid td = true ->
  exists t,
    In t (transactions (snd (TransactionService.create ml now u td db))) /\
    t_id t = nextId db /\ t_type t = td_type td /\
    t_category t = "Other Expense" /\ t_categorySource t = cs_auto /\
    (td_type td = income ->
     TransactionService.create ml now u td db
     = (Returned t,
        set_nextId (S (nextId db)) (set_transactions (transactions db ++ [t]) db))) /\
    (rows_valid db -> 2000 <= getFullYear (default now (td_date td)) ->
     fst (TransactionService.create ml now u td db) = Returned t).
Proof.
  intros Hc Hml Hv.
  unfold input_valid in Hv.
  apply andb_prop in Hv as [Hv Hn]. apply andb_prop in Hv as [Hv Hl].
  apply andb_prop in Hv as [Ha Hd].
  unfold TransactionService.create.
  rewrite Hc, (falsy_category_default _ Hc). cbn [negb].
  erewrite bind_returned by reflexivity.
  erewrite bind_returned.
  2: { apply try_catch_returned.
       erewrite bind_returned by (apply predictCategory_failure with (msg := msg), Hml).
       reflexivity. }
  erewrite bind_returned.
  2: { unfold TransactionRepository.create.
       erewrite bind_returned by reflexivity.
       unfold TransactionModel.valid.
       cbn [t_amount t_description t_notes t_category].
       rewrite Ha, Hd, Hl, Hn. cbn [andb negb String.eqb Ascii.eqb Bool.eqb].
       erewrite bind_returned by reflexivity. reflexivity. }
  cbn [t_category String.eqb negb andb t_date t_amount].
  match goal with
  | |- context [ret ?t] =>
      match type of t with Transaction => exists t end
  end.
  split; [|split; [|split; [|split; [|split; [|split]]]]]; try reflexivity.
  - destruct (td_type td).
    + cbn. apply in_or_app. right. left. reflexivity.
    + change (is_expense expense) with true. cbn [andb]. unfold bind.
      match goal with
      | |- context [BudgetModel.updateSpent ?a ?b ?c ?d ?e ?f] =>
          destruct (updateSpent_frame a b c d e f) as [bs Hbs];
          destruct (BudgetModel.updateSpent a b c d e f) as [[r|err] db']
      end; cbn in *; subst db'; cbn; apply in_or_app; right; left; reflexivity.
  - intros Hty. rewrite Hty. reflexivity.
  - intros Hrows Hyear. destruct (td_type td); [reflexivity|].
    change (is_expense expense) with true. cbn [andb].
    match goal with
    | |- context [BudgetModel.updateSpent ?a ?b ?c ?d ?e] =>
        match goal with
        | |- context [bind _ _ ?db1] =>
            destruct (adjust_step a b c d e db1) as (db2 & Hrun & _)
        end
    end.
    + exact Hrows.
    + now apply bucket_key_valid.
    + match goal with
      | |- (0 <= spent_of ?d ?k + _)%Q =>
          pose proof (spent_of_nonneg d k Hrows)
      end.
      apply Qle_bool_iff in Ha. lra.
    + erewrite bind_returned by exact Hrun. reflexivity.
Qed.

Lemma create_when_predictor_fails_witness :
  exists t,
    TransactionService.create ml_down (mkDate 2024 1 20) 1%nat salary db0
    = (Returned t,
       set_nextId 101%nat (set_transactions [t] db0)) /\
    t_type t = income /\ t_category t = "Other Expense" /\
    t_categorySource t = cs_auto.
Proof.
  destruct (create_when_predictor_fails ml_down (mkDate 2024 1 20) 1%nat salary db0
              "timeout of 30000ms exceeded")
    as (t & _ & _ & Hty & Hcat & Hsrc & Hrun & _).
  - reflexivity.
  - intros req. reflexivity.
  - reflexivity.
  - exists t. split; [apply Hrun; reflexivity|].
    split; [exact Hty|]. split; [exact Hcat|exact Hsrc].
Defined.

(** *** Forecast generation *)

Lemma getByDateRange_run u s e db :
  TransactionRepository.getByDateRange u s e db
  = (Returned (merge_sort date_desc
                 (List.filter (TransactionModel.in_range u s e) (transactions db))),
     db).
Proof. reflexivity. Qed.

(** With fewer than 30 transactions in the window the forecast fails with
    the insufficient-history error and nothing is written. *)
Lemma generateAndStore_too_few ml now u ft db :
  (length (window_90 u now db) < 30)%nat ->
  ForecastService.generateAndStore ml now u ft db
  = (Thrown (Error insufficient_history), db).
Proof.
  intros Hlen. unfold ForecastService.generateAndStore.
  rewrite try_rethrow.
  erewrite bind_returned by apply getByDateRange_run.
  fold (window_90 u now db).
  apply Nat.ltb_lt in Hlen. rewrite Hlen. reflexivity.
Qed.

(** With 30 transactions or more the forecast predictor is called and its
    answer is saved. *)
Lemma generateAndStore_enough ml now u ft db :
  (30 <= length (window_90 u now db))%nat ->
  ForecastService.generateAndStore ml now u ft db
  = bind (MLService.generateForecast ml u
            (List.map (fun t => mkHistoryItem (signedAmount t) (t_type t)
                                              (t_category t) (t_date t))
                      (window_90 u now db)) ft)
         (fun forecastData =>
            ForecastModel.save
              (mkForecast u ft now (fd_predictions forecastData)
                 (default risk_medium (fd_riskIndicator forecastData))
                 (fd_riskScore forecastData) (fd_modelVersion forecastData) now))
         db.
Proof.
  intros Hlen. unfold ForecastService.generateAndStore.
  rewrite try_rethrow.
  erewrite bind_returned by apply getByDateRange_run.
  fold (window_90 u now db).
  apply Nat.ltb_ge in Hlen. rewrite Hlen.
  erewrite bind_returned by reflexivity. reflexivity.
Qed.

(** C4: the threshold counts transactions, not days.  With two expenses
    on each of the 29 days of February 2024 (29 days of history, 58
    transactions) the forecast of 1 March proceeds: the predictor is
    called and a forecast is stored; so it does with 30 expenses that all
    fall on one day. *)
Theorem forecast_threshold_counts_transactions :
  spec_history_days 1%nat (mkDate 2024 3 1) (db_with february_two_a_day) = 29%nat /\
  (exists f,
      ForecastService.generateAndStore ml_up (mkDate 2024 3 1) 1%nat f30day
        (db_with february_two_a_day)
      = (Returned f, set_forecasts [f] (db_with february_two_a_day))) /\
  spec_history_days 1%nat (mkDate 2024 3 1) (db_with thirty_on_one_day) = 1%nat /\
  (exists f,
      ForecastService.generateAndStore ml_up (mkDate 2024 3 1) 1%nat f30day
        (db_with thirty_on_one_day)
      = (Returned f, set_forecasts [f] (db_with thirty_on_one_day))).
Proof.
  split; [vm_compute; reflexivity|].
  split; [eexists; vm_compute; reflexivity|].
  split; [vm_compute; reflexivity|].
  eexists; vm_compute; reflexivity.
Qed.

(** *** Goal progress *)

Lemma updateProgress_run u id db :
  GoalService.updateProgress u id db
  = match goals db !! id with
    | Some g =>
        if negb (Nat.eqb (g_userId g) u) then (Thrown (Error "Goal not found"), db)
        else GoalModel.save id
               (GoalModel.with_progress (Math_max (goal_value u g db) 0) g) db
    | None => (Thrown (Error "Goal not found"), db)
    end.
Proof.
  unfold GoalService.updateProgress, GoalService.getById, bind, get_db. cbn.
  destruct (goals db !! id) as [g|]; [|reflexivity].
  destruct (negb (g_userId g =? u)%nat); [reflexivity|]. cbn.
  unfold goal_value. cbn.
  destruct (g_type g); reflexivity.
Qed.

Lemma with_progress_idem cv g :
  GoalModel.with_progress cv (GoalModel.with_progress cv g)
  = GoalModel.with_progress cv g.
Proof.
  unfold GoalModel.with_progress. cbn. f_equal.
  destruct (js_ge (GoalModel.progress_of cv (g_targetValue g)) 100); cbn;
    [|reflexivity].
  destruct (g_status g); reflexivity.
Qed.

(** The category limit of 200 with 150 spent in its window: the current
    value becomes 150 and the progress 75. *)
Lemma updateProgress_food_limit :
  exists g p,
    fst (GoalService.updateProgress 1%nat 7%nat db_goals) = Returned g
    /\ (g_currentValue g == 150)%Q /\ g_progress g = Fin p /\ (p == 75)%Q
    /\ g_status g = active.
Proof.
  eexists. eexists. split; [vm_compute; reflexivity|].
  split; [reflexivity|]. split; [reflexivity|]. split; reflexivity.
Qed.

(** C7: [updateProgress] run a second time on the database that the
    first run left gives the same outcome (the same goal, with the same
    [currentValue] and [progress], or the same error) and leaves the
    database as the first run left it. *)
Theorem updateProgress_idempotent (u id : ObjectId) (db : Db) :
  GoalService.updateProgress u id (snd (GoalService.updateProgress u id db))
  = GoalService.updateProgress u id db.
Proof.
  rewrite (updateProgress_run u id db).
  destruct (goals db !! id) as [g|] eqn:Hg.
  2: { cbn. rewrite updateProgress_run, Hg. reflexivity. }
  destruct (negb (g_userId g =? u)%nat) eqn:Hu.
  { cbn. rewrite updateProgress_run, Hg, Hu. reflexivity. }
  unfold GoalModel.save.
  match goal with
  | |- context [GoalModel.with_progress ?c g] => set (cv := c)
  end.
  destruct (GoalModel.valid (GoalModel.with_progress cv g)) eqn:Hv.
  2: { cbn. rewrite updateProgress_run, Hg, Hu. unfold GoalModel.save.
       fold cv. rewrite Hv. reflexivity. }
  cbn. rewrite updateProgress_run. cbn.
  rewrite lookup_insert_eq. cbn. rewrite Hu.
  change (goal_value u (GoalModel.with_progress cv g) (set_goals _ db))
    with (goal_value u g db).
  fold cv. rewrite with_progress_idem.
  unfold GoalModel.save. rewrite Hv. cbn.
  rewrite insert_insert_eq. reflexivity.
Qed.

(** With a positive target the progress is the clamped percentage. *)
Lemma progress_of_positive_target (cv tv : Q) :
  (0 <= cv)%Q -> (0 < tv)%Q ->
  exists p, GoalModel.progress_of cv tv = Fin p
            /\ (p == Qmin (cv / tv * 100) 100)%Q /\ (0 <= p <= 100)%Q.
Proof.
  intros Hcv Htv. unfold GoalModel.progress_of, js_div.
  destruct (Qeq_bool tv 0) eqn:E.
  { apply Qeq_bool_iff in E. lra. }
  cbn. assert (Hq : (0 <= cv / tv * 100)%Q).
  { apply Qmult_le_0_compat; [|lra].
    apply Qle_shift_div_l; [exact Htv|lra]. }
  destruct (Qle_bool (cv / tv * 100) 100) eqn:Hle; eexists; split; try reflexivity.
  - apply Qle_bool_true in Hle. split; [|lra].
    symmetry. apply Q.min_l. exact Hle.
  - apply Qle_bool_false in Hle. split; [|lra].
    symmetry. apply Q.min_r. lra.
Qed.

(** With target 0 and a positive current value the quotient is infinite
    and the progress is 100. *)
Lemma progress_of_zero_target (cv tv : Q) :
  (0 < cv)%Q -> (tv == 0)%Q -> GoalModel.progress_of cv tv = Fin 100.
Proof.
  intros Hcv Htv. unfold GoalModel.progress_of, js_div.
  apply Qeq_bool_iff in Htv. rewrite Htv.
  destruct (Qeq_bool cv 0) eqn:E.
  { apply Qeq_bool_iff in E. lra. }
  destruct (Qle_bool 0 cv) eqn:E2; [reflexivity|].
  apply Qle_bool_false in E2. lra.
Qed.

(** C6: a spending cap with target 0 and nothing spent in its window.
    The quotient 0/0 is NaN and so is the progress; NaN fails the
    validators [min: 0] and [max: 100] of [progress], so [updateProgress]
    throws a validation error and stores nothing, in the service and in
    the method of the model alike. *)
Theorem progress_is_NaN_for_zero_target :
  GoalModel.progress_of 0 0 = NaN /\
  goal_value 1%nat no_spend_march db_goals = 0%Q /\
  GoalService.updateProgress 1%nat 9%nat db_goals
  = (Thrown (ValidationError "Goal validation failed"), db_goals) /\
  GoalModel.updateProgress 9%nat no_spend_march 0 db_goals
  = (Thrown (ValidationError "Goal validation failed"), db_goals).
Proof.
  split; [reflexivity|].
  split; [vm_compute; reflexivity|].
  split.
  - rewrite updateProgress_run.
    change (goals db_goals !! 9%nat) with (Some no_spend_march).
    reflexivity.
  - reflexivity.
Qed.

(** *** The value of a goal *)

Lemma Math_max_floor (x : Q) : (Math_max x 0 == Qmax 0 x)%Q.
Proof.
  unfold Math_max. destruct (Qle_bool 0 x) eqn:E.
  - apply Qle_bool_true in E. symmetry. apply Q.max_r. exact E.
  - apply Qle_bool_false in E. symmetry. apply Q.max_l. lra.
Qed.

Lemma Math_max_nonneg (x : Q) : (0 <= Math_max x 0)%Q.
Proof.
  unfold Math_max. destruct (Qle_bool 0 x) eqn:E.
  - apply Qle_bool_true in E. exact E.
  - lra.
Qed.

(** A valid goal stays valid under [with_progress] when its target is
    positive and the new current value is not negative. *)
Lemma with_progress_valid cv g :
  GoalModel.valid g = true -> (0 <= cv)%Q -> (0 < g_targetValue g)%Q ->
  GoalModel.valid (GoalModel.with_progress cv g) = true.
Proof.
  intros Hv Hcv Htv. unfold GoalModel.valid in *. cbn.
  repeat (apply andb_prop in Hv as [Hv ?]).
  destruct (progress_of_positive_target cv (g_targetValue g) Hcv Htv)
    as (p & -> & _ & Hp0 & Hp100).
  cbn. repeat (apply andb_true_intro; split); try assumption.
  all: apply Qle_bool_iff; assumption.
Qed.

(** C5 (amended): for a stored, valid goal of its owner, when the stored
    amounts are non-negative, [updateProgress] saves the goal with a
    [currentValue] computed from the transactions of the window only: for
    [spending_cap] and for [category_limit] alike the sum of all expense
    amounts of the window (no category filter), for [savings_target] the
    sum of income minus the sum of expenses, floored at 0.  With a
    positive target the save succeeds and the goal is returned. *)
Theorem updateProgress_currentValue (u id : ObjectId) (g : Goal) (db : Db) :
  goals db !! id = Some g ->
  g_userId g = u ->
  GoalModel.valid g = true ->
  amounts_nonneg db ->
  exists cv,
    match g_type g with
    | spending_cap | category_limit =>
        (cv == spec_window_sum expense u (g_startDate g) (g_endDate g) db)%Q
    | savings_target =>
        (cv == Qmax 0 (spec_window_sum income u (g_startDate g) (g_endDate g) db
                       - spec_window_sum expense u (g_startDate g) (g_endDate g) db))%Q
    | custom => True
    end /\
    g_currentValue (GoalModel.with_progress cv g) = cv /\
    GoalService.updateProgress u id db
    = GoalModel.save id (GoalModel.with_progress cv g) db /\
    ((0 < g_targetValue g)%Q ->
     GoalService.updateProgress u id db
     = (Returned (GoalModel.with_progress cv g),
        set_goals (<[id := GoalModel.with_progress cv g]> (goals db)) db)).
Proof.
  intros Hg Hu Hv Hamt.
  exists (Math_max (goal_value u g db) 0).
  assert (Hrun : GoalService.updateProgress u id db
                 = GoalModel.save id
                     (GoalModel.with_progress (Math_max (goal_value u g db) 0) g) db).
  { rewrite updateProgress_run, Hg, Hu, Nat.eqb_refl. reflexivity. }
  split; [|split; [reflexivity|split; [exact Hrun|]]].
  - pose proof (spec_window_sum_nonneg expense u (g_startDate g) (g_endDate g) db Hamt)
      as Hexp.
    pose proof (sum_amounts_window expense u (g_startDate g) (g_endDate g) db) as He.
    pose proof (sum_amounts_window income u (g_startDate g) (g_endDate g) db) as Hi.
    unfold goal_value. destruct (g_type g); cbv zeta.
    + rewrite Math_max_floor, He. apply Q.max_r. exact Hexp.
    + rewrite Math_max_floor, He, Hi. reflexivity.
    + rewrite Math_max_floor, He. apply Q.max_r. exact Hexp.
    + exact I.
  - intros Htv. rewrite Hrun. unfold GoalModel.save.
    rewrite with_progress_valid; [reflexivity|exact Hv|apply Math_max_nonneg|exact Htv].
Qed.

Lemma updateProgress_currentValue_witness :
  exists cv,
    (cv == spec_window_sum expense 1%nat (mkDate 2024 1 1) (mkDate 2024 1 31) db_goals)%Q /\
    GoalService.updateProgress 1%nat 7%nat db_goals
    = (Returned (GoalModel.with_progress cv food_limit),
       set_goals (<[7%nat := GoalModel.with_progress cv food_limit]> (goals db_goals))
                 db_goals).
Proof.
  destruct (updateProgress_currentValue 1%nat 7%nat food_limit db_goals)
    as (cv & Hcv & _ & _ & Hrun).
  - reflexivity.
  - reflexivity.
  - reflexivity.
  - intros t [<-|[<-|[]]]; cbn; discriminate.
  - exists cv. split; [exact Hcv|]. apply Hrun. reflexivity.
Defined.

(** C5, as stated, fails, whatever category the goal is given.  The
    category limit on Food gets all expenses of the window, 150 (Food 100
    and Rent 50): the sum of no single category; and the custom goal,
    whose current value 4 came from its owner, is recomputed to 0. *)
Lemma updateProgress_ignores_category_and_resets_custom :
  ~ (exists c, spec_updateProgress c 1%nat 7%nat db_goals) /\
  ~ (exists c, spec_updateProgress c 1%nat 8%nat db_goals) /\
  (exists g',
      fst (GoalService.updateProgress 1%nat 7%nat db_goals) = Returned g'
      /\ (g_currentValue g' == 150)%Q
      /\ (spec_category_sum "Food" 1%nat (g_startDate g') (g_endDate g') db_goals
          == 100)%Q) /\
  (exists g',
      fst (GoalService.updateProgress 1%nat 8%nat db_goals) = Returned g'
      /\ g_currentValue read_more = 4%Q
      /\ g_currentValue g' = 0%Q).
Proof.
  split; [|split; [|split]].
  - intros [c Hc].
    specialize (Hc food_limit _ eq_refl eq_refl).
    unfold spec_current_value, spec_category_sum, total in Hc.
    cbn -[String.eqb Qeq] in Hc.
    destruct (String.eqb_spec "Food" c) as [E|_];
      [subst c|destruct (String.eqb "Rent" c)]; vm_compute in Hc; discriminate.
  - intros [c Hc].
    specialize (Hc read_more _ eq_refl eq_refl).
    vm_compute in Hc. discriminate.
  - eexists. split; [vm_compute; reflexivity|]. split; reflexivity.
  - eexists. split; [vm_compute; reflexivity|]. split; reflexivity.
Qed.

(** *** Health scores *)

Lemma computeHealthScore_run ml u h p db :
  MLService.computeHealthScore ml u h p db
  = match post_health_score ml u h p with
    | Body data => (Returned data, db)
    | Failure message => (Thrown (RequestError message), db)
    end.
Proof.
  unfold MLService.computeHealthScore. rewrite try_rethrow.
  unfold await_post. destruct (post_health_score ml u h p); reflexivity.
Qed.


(** When the predictor answers, one record is appended. *)
Lemma computeAndStore_stores_one_record :
  exists h,
    HealthScoreService.computeAndStore ml_up (mkDate 2024 3 1) 1%nat db_goals
    = (Returned h, set_healthScores [h] db_goals)
    /\ h_overallScore h = 72%Q /\ h_date h = mkDate 2024 3 1.
Proof. eexists. split; [vm_compute; reflexivity|]. split; reflexivity. Qed.



(** *** Listing transactions *)

#[local] Instance date_created_desc_trans : Transitive date_created_desc.
Proof. intros x y z. unfold date_created_desc. lia. Qed.

#[local] Instance date_created_desc_total : Total date_created_desc.
Proof. intros x y. unfold date_created_desc. lia. Qed.

Lemma In_take {A} (n : nat) (l : list A) (x : A) : In x (take n l) -> In x l.
Proof.
  intros H. rewrite <- (take_drop n l). apply in_or_app. now left.
Qed.


Lemma StronglySorted_take {A} (R : relation A) (n : nat) (l : list A) :
  StronglySorted R l -> StronglySorted R (take n l).
Proof.
  intros H. rewrite <- (take_drop n l) in H.
  eapply StronglySorted_app_1_l, H.
Qed.


Lemma int_or_positive (x : option N) (d : N) : (0 < d)%N -> (0 < TransactionRepository.int_or x d)%N.
Proof. destruct x as [[|p]|]; cbn; lia. Qed.

Lemma ceil_div_spec (a b : N) :
  (0 < b)%N -> (a <= ceil_div a b * b < a + b)%N.
Proof.
  intros Hb. unfold ceil_div.
  pose proof (N.div_mod (a + b - 1) b ltac:(lia)) as E.
  pose proof (N.mod_lt (a + b - 1) b ltac:(lia)) as Hr.
  rewrite (N.mul_comm _ b).
  set (q := (b * ((a + b - 1) / b))%N) in *.
  set (r := ((a + b - 1) mod b)%N) in *.
  lia.
Qed.



Lemma findByUserId_run u fl db :
  TransactionRepository.findByUserId u fl db
  = (Returned
       (let page := TransactionRepository.int_or (fl_page fl) 1 in
        let limit := TransactionRepository.int_or (fl_limit fl) 50 in
        let found := List.filter (TransactionRepository.matches u fl) (transactions db) in
        mkPage
          (take (N.to_nat limit)
             (drop (N.to_nat ((page - 1) * limit))
                (merge_sort date_created_desc found)))
          (mkPagination page limit (N.of_nat (length found))
             (ceil_div (N.of_nat (length found)) limit))),
     db).
Proof. reflexivity. Qed.



(** *** Sequences of requests *)





(** *** What a successful call has done *)

Lemma save_returned k b db b' db' :
  BudgetModel.save k b db = (Returned b', db') ->
  b' = b /\ db' = set_budgets (<[k := b]> (budgets db)) db
  /\ BudgetModel.key_valid k = true /\ BudgetModel.doc_valid b = true.
Proof.
  unfold BudgetModel.save.
  destruct (BudgetModel.key_valid k) eqn:Hk; [|discriminate].
  destruct (BudgetModel.doc_valid b) eqn:Hb; [|discriminate].
  cbn. intros [= <- <-]. auto.
Qed.

Lemma set_budgets_twice b1 b2 db :
  set_budgets b2 (set_budgets b1 db) = set_budgets b2 db.
Proof. reflexivity. Qed.

(** A call of [updateSpent] that returns has written one row: the budget
    and the flag of the row that was there (0 and active for a new row),
    and its [spent] plus the amount. *)
Lemma updateSpent_returned u c m y a db b db' :
  BudgetModel.updateSpent u c m y a db = (Returned b, db') ->
  db' = set_budgets (<[(u, c, m, y) := b]> (budgets db)) db
  /\ b = match budgets db !! (u, c, m, y) with
         | Some b0 => mkBudget (b_amount b0) (or_zero (b_spent b0) + a) (b_isActive b0)
         | None => mkBudget 0 (or_zero 0 + a) true
         end
  /\ BudgetModel.key_valid (u, c, m, y) = true
  /\ BudgetModel.doc_valid b = true.
Proof.
  unfold BudgetModel.updateSpent, bind at 1. rewrite getOrCreate_run.
  destruct (budgets db !! (u, c, m, y)) as [b0|] eqn:Hk.
  - intros H. apply save_returned in H as (-> & -> & Hkey & Hdoc). auto.
  - unfold BudgetModel.create.
    destruct (BudgetModel.save (u, c, m, y) (mkBudget 0 0 true) db)
      as [[b0|e] db1] eqn:Hc; [|discriminate].
    apply save_returned in Hc as (-> & -> & Hkey & _).
    intros H. apply save_returned in H as (-> & -> & _ & Hdoc).
    cbn [budgets set_budgets b_amount b_spent b_isActive].
    rewrite set_budgets_twice, insert_insert_eq. auto.
Qed.

Lemma updateSpent_returned_spent u c m y a db b db' :
  BudgetModel.updateSpent u c m y a db = (Returned b, db') ->
  forall k, (spent_of db' k
             == spent_of db k + (if decide ((u, c, m, y) = k) then a else 0))%Q.
Proof.
  intros H k. apply updateSpent_returned in H as (-> & -> & _ & _).
  rewrite spent_of_insert. unfold spent_of. case_decide as E; [subst k|lra].
  destruct (budgets db !! (u, c, m, y)) as [b0|]; cbn [b_spent];
    rewrite or_zero_eq; lra.
Qed.

(** A call of [create] that returns has appended one document: it has
    the next id, the caller as owner, the direction, amount and date of
    the input, and it passes the schema. *)
Lemma create_returned ml now u td db t db1 :
  TransactionService.create ml now u td db = (Returned t, db1) ->
  transactions db1 = (transactions db ++ [t])%list
  /\ nextId db1 = S (nextId db)
  /\ t_id t = nextId db /\ t_userId t = u /\ t_type t = td_type td
  /\ t_amount t = td_amount td /\ t_date t = default now (td_date td)
  /\ TransactionModel.valid t = true
  /\ forall k, (spent_of db1 k == spent_of db k + contribution t k)%Q.
Proof.
  destruct (create_shape ml now u td db)
    as [[e ->]|(tr & Hu & Hty & Hamt & Hdate & ->)]; [discriminate|].
  unfold TransactionRepository.create, bind at 1, bind at 1. cbn [get_db].
  set (t0 := mkTransaction (nextId db) _ _ _ _ _ _ _ _ _ _ _ _ now).
  destruct (TransactionModel.valid t0) eqn:Hvalid; [|discriminate].
  destruct (valid_transaction_facts t0 Hvalid) as [_ Hcat].
  cbn [bind modify_db ret].
  set (dba := set_nextId (S (nextId db))
                (set_transactions (transactions db ++ [t0]) db)).
  unfold bind at 1.
  destruct (td_type td) eqn:Htd.
  - cbn. intros [= <- <-]. do 8 (split; [first [reflexivity|assumption]|]).
    intros k. rewrite contribution_income by exact Hty.
    change (spent_of dba k) with (spent_of db k). lra.
  - change (is_expense expense) with true.
    destruct (String.eqb_spec (t_category t0) ""); [contradiction|].
    cbn [andb negb]. unfold bind at 1.
    destruct (BudgetModel.updateSpent u (t_category t0) (getMonth (t_date t0) + 1)
                (getFullYear (t_date t0)) (t_amount t0) dba) as [[b|e] dbb] eqn:Hup;
      [|discriminate].
    cbn [ret]. intros [= <- <-].
    pose proof (updateSpent_returned_spent _ _ _ _ _ _ _ _ Hup) as Hspent.
    apply updateSpent_returned in Hup as (-> & _ & _ & _).
    do 8 (split; [first [reflexivity|assumption]|]).
    intros k. rewrite Hspent, contribution_expense by exact Hty.
    change (bucket_of t0) with (t_userId tr, t_category t0, getMonth (t_date t0) + 1,
                                getFullYear (t_date t0)).
    rewrite Hu. change (spent_of dba k) with (spent_of db k). case_decide; lra.
Qed.


Lemma find_by_id_snoc (id : ObjectId) (l : list Transaction) (t : Transaction) :
  ~ In id (List.map t_id l) -> t_id t = id ->
  TransactionRepository.find_by_id id (l ++ [t])%list = Some t.
Proof.
  intros Hnot Hid. unfold TransactionRepository.find_by_id.
  induction l as [|x l IH]; cbn.
  - now rewrite Hid, Nat.eqb_refl.
  - destruct (Nat.eqb_spec (t_id x) id) as [E|_].
    + exfalso. apply Hnot. now left.
    + apply IH. intros H. apply Hnot. now right.
Qed.




(** *** Ownership *)

(** X4. A transaction id that does not exist, or that belongs to another
    user, is answered with NotFoundError("Transaction") by [getById],
    [update] and [delete] alike, and the database stays as it was:
    neither the transactions nor the ledger are touched. *)
Theorem foreign_transaction_not_found u id db :
  (forall t, TransactionRepository.find_by_id id (transactions db) = Some t ->
             t_userId t <> u) ->
  TransactionService.getById u id db = (Thrown (NotFoundError "Transaction"), db)
  /\ (forall ud, TransactionService.update u id ud db
                 = (Thrown (NotFoundError "Transaction"), db))
  /\ TransactionService.delete u id db = (Thrown (NotFoundError "Transaction"), db).
Proof.
  intros Hforeign.
  assert (Hget : TransactionService.getById u id db
                 = (Thrown (NotFoundError "Transaction"), db)).
  { rewrite getById_run.
    destruct (TransactionRepository.find_by_id id (transactions db)) as [t|];
      [|reflexivity].
    destruct (Nat.eqb_spec (t_userId t) u) as [E|_]; [|reflexivity].
    now destruct (Hforeign t eq_refl). }
  split; [exact Hget|]. split.
  - intros ud. unfold TransactionService.update. now apply bind_thrown.
  - unfold TransactionService.delete. now apply bind_thrown.
Qed.

Lemma foreign_transaction_not_found_witness :
  TransactionService.getById 2%nat 100%nat db_lunch
  = (Thrown (NotFoundError "Transaction"), db_lunch)
  /\ (forall ud, TransactionService.update 2%nat 100%nat ud db_lunch
                 = (Thrown (NotFoundError "Transaction"), db_lunch))
  /\ TransactionService.delete 2%nat 100%nat db_lunch
     = (Thrown (NotFoundError "Transaction"), db_lunch).
Proof.
  apply foreign_transaction_not_found.
  intros t H. vm_compute in H. injection H as <-. cbn. lia.
Defined.

(** *** Rows of the ledger *)

(** X5. [Budget.getOrCreate] creates a row at most once.  When it
    returns, the row it returned is the one stored under the key; a row
    that existed is returned as it is and nothing is written; a new row has
    the default amount, spent 0 and is active; no other row changes; and a
    later call returns the same row whatever default amount it is given. *)
Theorem getOrCreate_creates_once u c m y d db b db1 :
  BudgetModel.getOrCreate u c m y d db = (Returned b, db1) ->
  budgets db1 !! (u, c, m, y) = Some b
  /\ (forall b0, budgets db !! (u, c, m, y) = Some b0 -> b = b0 /\ db1 = db)
  /\ (budgets db !! (u, c, m, y) = None -> b = mkBudget d 0 true)
  /\ (forall k, k <> (u, c, m, y) -> budgets db1 !! k = budgets db !! k)
  /\ forall d', BudgetModel.getOrCreate u c m y d' db1 = (Returned b, db1).
Proof.
  rewrite getOrCreate_run.
  destruct (budgets db !! (u, c, m, y)) as [b0|] eqn:Hk.
  - intros [= <- <-]. split; [exact Hk|].
    split; [now intros ? [= <-]|]. split; [discriminate|].
    split; [reflexivity|]. intros d'. now rewrite getOrCreate_run, Hk.
  - unfold BudgetModel.create. intros H.
    apply save_returned in H as (-> & -> & _ & _). cbn [budgets set_budgets].
    split; [apply lookup_insert_eq|]. split; [discriminate|].
    split; [reflexivity|].
    split; [intros k Hne; now apply lookup_insert_ne|].
    intros d'. rewrite getOrCreate_run. cbn [budgets set_budgets].
    now rewrite lookup_insert_eq.
Qed.

Lemma getOrCreate_creates_once_witness :
  let db1 := snd (BudgetModel.getOrCreate 1%nat "Food" 3 2024 500 db_food100) in
  budgets db1 !! (1%nat, "Food", 3, 2024) = Some (mkBudget 500 0 true)
  /\ (forall b0, budgets db_food100 !! (1%nat, "Food", 3, 2024) = Some b0 ->
                 mkBudget 500 0 true = b0 /\ db1 = db_food100)
  /\ (budgets db_food100 !! (1%nat, "Food", 3, 2024) = None ->
      mkBudget 500 0 true = mkBudget 500 0 true)
  /\ (forall k, k <> (1%nat, "Food", 3, 2024) ->
                budgets db1 !! k = budgets db_food100 !! k)
  /\ forall d', BudgetModel.getOrCreate 1%nat "Food" 3 2024 d' db1
                = (Returned (mkBudget 500 0 true), db1).
Proof.
  apply (getOrCreate_creates_once 1%nat "Food" 3 2024 500 db_food100).
  vm_compute. reflexivity.
Defined.



(** *** The pages of a listing *)

Lemma concat_chunks {A} (L n : nat) (l : list A) :
  (0 < L)%nat -> (length l <= n * L)%nat ->
  concat (List.map (fun i => take L (drop (i * L) l)) (seq 0 n)) = l.
Proof.
  intros HL. revert l. induction n as [|n IH]; intros l Hlen.
  - destruct l; [reflexivity|cbn in Hlen; lia].
  - cbn [seq List.map concat]. rewrite <- seq_shift, List.map_map.
    rewrite (List.map_ext _ (fun i => take L (drop (i * L) (drop L l)))).
    + rewrite IH by (rewrite length_drop; lia). cbn [Nat.mul drop].
      apply take_drop.
    + intros i. rewrite drop_drop. f_equal.
Qed.

Lemma page_items_eq u fl db p :
  page_items u fl db p
  = take (N.to_nat (TransactionRepository.int_or (fl_limit fl) 50))
         (drop (N.to_nat ((TransactionRepository.int_or (Some p) 1 - 1)
                          * TransactionRepository.int_or (fl_limit fl) 50))
               (all_matches u fl db)).
Proof. reflexivity. Qed.

Lemma int_or_nonzero (p d : N) : (0 < p)%N -> TransactionRepository.int_or (Some p) d = p.
Proof. destruct p; [lia|reflexivity]. Qed.

(** X7. The pages of a listing partition its matches.  With any filters
    and page size, pages 1 to [pages] (the page count of the metadata),
    one after the other, are all the matches in the order of the listing,
    each once; a page beyond the last is empty. *)
Theorem pages_partition_matches (u : ObjectId) (fl : Filters) (db : Db) :
  concat (List.map (fun i => page_items u fl db (N.of_nat (S i)))
                   (seq 0 (N.to_nat (page_count u fl db))))
  = all_matches u fl db
  /\ forall p, (page_count u fl db < p)%N -> page_items u fl db p = [].
Proof.
  set (limit := TransactionRepository.int_or (fl_limit fl) 50).
  assert (Hlimit : (0 < limit)%N) by (apply int_or_positive; lia).
  assert (Hcount : page_count u fl db
                   = ceil_div (N.of_nat (length (all_matches u fl db))) limit).
  { unfold all_matches. rewrite merge_sort_Permutation. reflexivity. }
  pose proof (ceil_div_spec (N.of_nat (length (all_matches u fl db))) limit Hlimit)
    as [Hcover _].
  rewrite <- Hcount in Hcover.
  split.
  - rewrite (List.map_ext _ (fun i => take (N.to_nat limit)
                                        (drop (i * N.to_nat limit) (all_matches u fl db)))).
    + apply concat_chunks; [lia|].
      rewrite <- N2Nat.inj_mul. lia.
    + intros i. rewrite page_items_eq, int_or_nonzero by lia. fold limit.
      do 2 f_equal. rewrite N2Nat.inj_mul. f_equal. lia.
  - intros p Hp. rewrite page_items_eq, int_or_nonzero by lia. fold limit.
    rewrite drop_ge; [apply take_nil|].
    rewrite N2Nat.inj_mul.
    assert (N.to_nat (page_count u fl db) * N.to_nat limit
            <= N.to_nat (p - 1) * N.to_nat limit)%nat
      by (apply Nat.mul_le_mono_r; lia).
    rewrite <- N2Nat.inj_mul in H. rewrite <- N2Nat.inj_mul. lia.
Qed.

(** *** The virtuals of a budget *)

(** X8. The virtuals of a valid budget are finite and in range:
    [utilization] lies between 0 and 100 and [remaining] between 0 and the
    budgeted amount.  Within the budget they are the percentage spent and
    the difference; beyond it [remaining] is 0 and [utilization] is 100,
    except that a budget of 0 shows a utilization of 0 whatever was
    spent. *)
Theorem budget_virtuals_in_range (b : Budget) :
  BudgetModel.doc_valid b = true ->
  exists p,
    BudgetModel.utilization b = Fin p
    /\ (0 <= p <= 100)%Q
    /\ (0 <= BudgetModel.remaining b <= b_amount b)%Q
    /\ ((b_spent b <= b_amount b)%Q ->
        (BudgetModel.remaining b == b_amount b - b_spent b)%Q
        /\ (p * b_amount b == b_spent b * 100)%Q)
    /\ ((b_amount b < b_spent b)%Q ->
        (BudgetModel.remaining b == 0)%Q
        /\ (p == if Qeq_bool (b_amount b) 0 then 0 else 100)%Q).
Proof.
  unfold BudgetModel.doc_valid. intros Hv.
  apply andb_prop in Hv as [Ha Hs].
  apply Qle_bool_iff in Ha. apply Qle_bool_iff in Hs.
  assert (Hrem : (0 <= BudgetModel.remaining b <= b_amount b)%Q
                 /\ ((b_spent b <= b_amount b)%Q ->
                     (BudgetModel.remaining b == b_amount b - b_spent b)%Q)
                 /\ ((b_amount b < b_spent b)%Q -> (BudgetModel.remaining b == 0)%Q)).
  { unfold BudgetModel.remaining, Math_max.
    destruct (Qle_bool 0 (b_amount b - b_spent b)) eqn:E.
    - apply Qle_bool_true in E. repeat split; try lra.
    - apply Qle_bool_false in E. repeat split; try lra. }
  destruct Hrem as (Hr1 & Hr2 & Hr3).
  unfold BudgetModel.utilization, js_div.
  destruct (Qeq_bool (b_amount b) 0) eqn:E0.
  - apply Qeq_bool_iff in E0. exists 0%Q.
    split; [reflexivity|]. split; [lra|]. split; [exact Hr1|]. split.
    + intros Hle. split; [now apply Hr2|]. rewrite E0. lra.
    + intros Hlt. split; [now apply Hr3|reflexivity].
  - assert (Hpos : (0 < b_amount b)%Q).
    { apply Qeq_bool_neq in E0. lra. }
    cbn [js_mul_pos Math_min].
    set (q := (b_spent b / b_amount b * 100)%Q).
    assert (Hq : (q * b_amount b == b_spent b * 100)%Q).
    { unfold q. field. lra. }
    assert (Hq0 : (0 <= q)%Q).
    { unfold q. apply Qmult_le_0_compat; [|lra].
      apply Qle_shift_div_l; [exact Hpos|lra]. }
    destruct (Qle_bool q 100) eqn:Hle; eexists; (split; [reflexivity|]).
    + apply Qle_bool_true in Hle. split; [lra|]. split; [exact Hr1|]. split.
      * intros Hsa. split; [now apply Hr2|exact Hq].
      * intros Hlt. split; [now apply Hr3|]. nra.
    + apply Qle_bool_false in Hle. split; [lra|]. split; [exact Hr1|]. split.
      * intros Hsa. exfalso. nra.
      * intros Hlt. split; [now apply Hr3|reflexivity].
Qed.

Lemma budget_virtuals_in_range_witness :
  exists p,
    BudgetModel.utilization (mkBudget 80 100 true) = Fin p
    /\ (p == 100)%Q /\ (BudgetModel.remaining (mkBudget 80 100 true) == 0)%Q.
Proof.
  destruct (budget_virtuals_in_range (mkBudget 80 100 true)) as (p & Hp & _ & _ & _ & H).
  - reflexivity.
  - exists p. split; [exact Hp|]. destruct H as [Hr Hu].
    + reflexivity.
    + split; [exact Hu|exact Hr].
Defined.

(** *** Goals: progress, status and ownership *)

Lemma progress_of_reaches_100 (cv tv : Q) :
  (0 <= cv)%Q -> (0 < tv)%Q ->
  js_ge (GoalModel.progress_of cv tv) 100 = Qle_bool tv cv.
Proof.
  intros Hcv Htv. unfold GoalModel.progress_of, js_div.
  destruct (Qeq_bool tv 0) eqn:E.
  { apply Qeq_bool_iff in E. lra. }
  cbn [js_mul_pos Math_min js_ge].
  set (q := (cv / tv * 100)%Q).
  assert (Hq : (q * tv == cv * 100)%Q) by (unfold q; field; lra).
  destruct (Qle_bool q 100) eqn:H1; destruct (Qle_bool tv cv) eqn:H2;
    try apply Qle_bool_true in H1; try apply Qle_bool_false in H1;
    try apply Qle_bool_true in H2; try apply Qle_bool_false in H2.
  - apply Qle_bool_iff. nra.
  - destruct (Qle_bool 100 q) eqn:H3; [|reflexivity].
    apply Qle_bool_true in H3. nra.
  - reflexivity.
  - nra.
Qed.

(** X9. With a positive target the progress grows with the current
    value and is capped: it lies between 0 and 100, a larger current value
    never gives a smaller progress, and it is 100 exactly when the current
    value has reached the target. *)
Theorem progress_monotone_and_capped (cv1 cv2 tv : Q) :
  (0 < tv)%Q -> (0 <= cv1)%Q -> (cv1 <= cv2)%Q ->
  exists p1 p2,
    GoalModel.progress_of cv1 tv = Fin p1 /\ GoalModel.progress_of cv2 tv = Fin p2
    /\ (0 <= p1)%Q /\ (p1 <= p2)%Q /\ (p2 <= 100)%Q
    /\ ((p2 == 100)%Q <-> (tv <= cv2)%Q).
Proof.
  intros Htv H1 H12.
  destruct (progress_of_positive_target cv1 tv H1 Htv) as (p1 & E1 & Hp1 & Hr1).
  destruct (progress_of_positive_target cv2 tv ltac:(lra) Htv) as (p2 & E2 & Hp2 & Hr2).
  exists p1, p2. split; [exact E1|]. split; [exact E2|].
  split; [lra|].
  assert (Hq1 : (cv1 / tv * 100 * tv == cv1 * 100)%Q) by (field; lra).
  assert (Hq2 : (cv2 / tv * 100 * tv == cv2 * 100)%Q) by (field; lra).
  assert (Hmono : (cv1 / tv * 100 <= cv2 / tv * 100)%Q) by nra.
  split.
  { rewrite Hp1, Hp2. apply Q.min_le_compat_r. exact Hmono. }
  split; [lra|].
  pose proof (progress_of_reaches_100 cv2 tv ltac:(lra) Htv) as Hge.
  rewrite E2 in Hge. cbn [js_ge] in Hge. split.
  - intros E. apply Qle_bool_iff. rewrite <- Hge. apply Qle_bool_iff. lra.
  - intros Hle. apply Qle_bool_iff in Hle. rewrite <- Hge in Hle.
    apply Qle_bool_iff in Hle. lra.
Qed.

Lemma progress_monotone_and_capped_witness :
  exists p1 p2,
    GoalModel.progress_of 50 200 = Fin p1 /\ GoalModel.progress_of 250 200 = Fin p2
    /\ (0 <= p1)%Q /\ (p1 <= p2)%Q /\ (p2 <= 100)%Q
    /\ ((p2 == 100)%Q <-> (200 <= 250)%Q).
Proof.
  apply (progress_monotone_and_capped 50 250 200); vm_compute;
    first [reflexivity|discriminate].
Defined.

(** X10. What a successful [updateProgress] does to a goal with a
    positive target: the current value becomes the value computed from
    the transactions, floored at 0; an active goal is completed exactly
    when that value has reached the target and stays active otherwise; a
    goal that is not active (paused, failed, completed) keeps its status,
    so a completed goal never becomes active again; owner, title, type,
    target, dates and source are kept; and only this goal is written. *)
Theorem updateProgress_completes_at_target u id db g g' db' :
  goals db !! id = Some g ->
  (0 < g_targetValue g)%Q ->
  GoalService.updateProgress u id db = (Returned g', db') ->
  g_currentValue g' = Math_max (goal_value u g db) 0
  /\ g_status g'
     = (if decide (g_status g = active)
        then (if Qle_bool (g_targetValue g) (g_currentValue g') then completed else active)
        else g_status g)
  /\ (g_userId g' = g_userId g /\ g_title g' = g_title g /\ g_type g' = g_type g
      /\ g_targetValue g' = g_targetValue g /\ g_startDate g' = g_startDate g
      /\ g_endDate g' = g_endDate g /\ g_source g' = g_source g)
  /\ db' = set_goals (<[id := g']> (goals db)) db.
Proof.
  intros Hg Htv. rewrite updateProgress_run, Hg.
  destruct (negb (g_userId g =? u)%nat); [discriminate|].
  unfold GoalModel.save.
  destruct (GoalModel.valid _); [|discriminate].
  cbn [bind modify_db ret]. intros [= <- <-].
  split; [reflexivity|]. split; [|split; [repeat split|reflexivity]].
  cbn [g_status g_currentValue GoalModel.with_progress].
  rewrite progress_of_reaches_100 by (try apply Math_max_nonneg; assumption).
  destruct (Qle_bool (g_targetValue g) (Math_max (goal_value u g db) 0));
    destruct (decide (g_status g = active)) as [E|E]; cbn.
  - now rewrite bool_decide_eq_true_2.
  - now rewrite bool_decide_eq_false_2.
  - exact E.
  - reflexivity.
Qed.

Lemma updateProgress_completes_at_target_witness :
  exists g' db',
    GoalService.updateProgress 1%nat 7%nat db_goals = (Returned g', db')
    /\ (g_currentValue g' == 150)%Q /\ g_status g' = active.
Proof.
  destruct (GoalService.updateProgress 1%nat 7%nat db_goals) as [[g'|e] db'] eqn:Hrun;
    [|vm_compute in Hrun; discriminate].
  destruct (updateProgress_completes_at_target 1%nat 7%nat db_goals food_limit g' db')
    as (Hcv & Hst & _ & _).
  - reflexivity.
  - reflexivity.
  - exact Hrun.
  - exists g', db'. split; [reflexivity|]. rewrite Hst, Hcv. split; reflexivity.
Defined.

(** X11. A goal id that does not exist, or that belongs to another
    user, is answered with Error("Goal not found") by [getById],
    [updateProgress] and [delete] alike, and nothing is written. *)
Theorem foreign_goal_not_found u id db :
  (forall g, goals db !! id = Some g -> g_userId g <> u) ->
  GoalService.getById u id db = (Thrown (Error "Goal not found"), db)
  /\ GoalService.updateProgress u id db = (Thrown (Error "Goal not found"), db)
  /\ GoalService.delete u id db = (Thrown (Error "Goal not found"), db).
Proof.
  intros Hforeign.
  assert (Hget : GoalService.getById u id db = (Thrown (Error "Goal not found"), db)).
  { unfold GoalService.getById, bind, get_db.
    destruct (goals db !! id) as [g|]; [|reflexivity].
    destruct (Nat.eqb_spec (g_userId g) u) as [E|_]; [|reflexivity].
    now destruct (Hforeign g eq_refl). }
  split; [exact Hget|]. split.
  - unfold GoalService.updateProgress. now apply bind_thrown.
  - unfold GoalService.delete. now apply bind_thrown.
Qed.

Lemma foreign_goal_not_found_witness :
  GoalService.getById 2%nat 7%nat db_goals = (Thrown (Error "Goal not found"), db_goals)
  /\ GoalService.updateProgress 2%nat 7%nat db_goals
     = (Thrown (Error "Goal not found"), db_goals)
  /\ GoalService.delete 2%nat 7%nat db_goals
     = (Thrown (Error "Goal not found"), db_goals).
Proof.
  apply foreign_goal_not_found.
  intros g H. vm_compute in H. injection H as <-. cbn. lia.
Defined.

(** X12. The deletion of an owned goal returns it and removes it and
    nothing else: the other goals, the transactions and the ledger are as
    before, and the goal is not found afterwards. *)
Theorem goal_delete_removes_one u id db g :
  goals db !! id = Some g ->
  g_userId g = u ->
  exists db',
    GoalService.delete u id db = (Returned g, db')
    /\ goals db' !! id = None
    /\ (forall id', id' <> id -> goals db' !! id' = goals db !! id')
    /\ transactions db' = transactions db /\ budgets db' = budgets db
    /\ GoalService.updateProgress u id db' = (Thrown (Error "Goal not found"), db').
Proof.
  intros Hg Hu. eexists. split.
  { unfold GoalService.delete. erewrite bind_returned.
    2: { unfold GoalService.getById, bind, get_db. rewrite Hg, Hu, Nat.eqb_refl.
         reflexivity. }
    reflexivity. }
  cbn [goals set_goals transactions budgets].
  split; [apply lookup_delete_eq|].
  split; [intros id' Hne; now apply lookup_delete_ne|].
  split; [reflexivity|]. split; [reflexivity|].
  rewrite updateProgress_run. cbn [goals set_goals].
  now rewrite lookup_delete_eq.
Qed.

Lemma goal_delete_removes_one_witness :
  exists db',
    GoalService.delete 1%nat 8%nat db_goals = (Returned read_more, db')
    /\ goals db' !! 8%nat = None
    /\ (forall id', id' <> 8%nat -> goals db' !! id' = goals db_goals !! id')
    /\ transactions db' = transactions db_goals /\ budgets db' = budgets db_goals
    /\ GoalService.updateProgress 1%nat 8%nat db'
       = (Thrown (Error "Goal not found"), db').
Proof.
  apply (goal_delete_removes_one 1%nat 8%nat db_goals read_more); reflexivity.
Defined.

(** X13. The [daysRemaining] virtual is never negative, is 0 exactly
    when the end date is not in the future, and otherwise counts the days
    that have begun: [d] when the end is more than [d - 1] and at most [d]
    whole days ahead. *)
Theorem daysRemaining_counts_started_days (now : Date) (g : Goal) :
  0 <= GoalModel.daysRemaining now g
  /\ (GoalModel.daysRemaining now g = 0 <-> g_endDate g <= now)
  /\ (0 < GoalModel.daysRemaining now g ->
      (GoalModel.daysRemaining now g - 1) * msPerDay < g_endDate g - now
      <= GoalModel.daysRemaining now g * msPerDay).
Proof.
  unfold GoalModel.daysRemaining, msPerDay.
  set (diff := g_endDate g - now).
  pose proof (Z.div_mod (- diff) 86400000 ltac:(lia)) as Hdm.
  pose proof (Z.mod_pos_bound (- diff) 86400000 ltac:(lia)) as Hm.
  set (q := (- diff) / 86400000) in *. set (r := (- diff) mod 86400000) in *.
  assert (Hend : g_endDate g = diff + now) by (unfold diff; lia).
  lia.
Qed.

(** *** Stored forecasts and health scores *)

#[local] Instance computedAt_desc_trans : Transitive computedAt_desc.
Proof. intros x y z. unfold computedAt_desc. lia. Qed.

#[local] Instance computedAt_desc_total : Total computedAt_desc.
Proof. intros x y. unfold computedAt_desc. lia. Qed.

#[local] Instance health_date_desc_trans : Transitive health_date_desc.
Proof. intros x y z. unfold health_date_desc. lia. Qed.

#[local] Instance health_date_desc_total : Total health_date_desc.
Proof. intros x y. unfold health_date_desc. lia. Qed.

(** The first element of a sorted list that got one element which
    nothing else precedes is that element. *)
Lemma head_merge_sort_newest {A} (R : relation A) `{!Transitive R} `{!Total R}
    `{!forall x y, Decision (R x y)} (l : list A) (x : A) :
  (forall y, In y l -> ~ R y x) -> head (merge_sort R (l ++ [x])) = Some x.
Proof.
  intros Hnew.
  pose proof (StronglySorted_merge_sort R (l ++ [x])) as Hs.
  pose proof (merge_sort_Permutation R (l ++ [x])) as Hp.
  destruct (merge_sort R (l ++ [x])) as [|h t].
  { apply Permutation_length in Hp. rewrite length_app in Hp. cbn in Hp. lia. }
  cbn. f_equal.
  assert (Hh : In h (l ++ [x])).
  { apply list_elem_of_In. rewrite <- Hp. left. }
  assert (Hx : In x (h :: t)).
  { apply list_elem_of_In. rewrite Hp. apply list_elem_of_In, in_or_app.
    right. now left. }
  apply in_app_or in Hh as [Hh|[Hh|[]]]; [|now symmetry].
  destruct Hx as [Hx|Hx]; [exact Hx|].
  exfalso. apply (Hnew h Hh).
  inversion Hs as [|? ? _ Hall]; subst.
  rewrite Forall_forall in Hall. apply Hall. now apply list_elem_of_In.
Qed.

Lemma generateForecast_run ml u h ft db :
  MLService.generateForecast ml u h ft db
  = match post_forecast_generate ml u h ft with
    | Body data => (Returned data, db)
    | Failure message => (Thrown (RequestError message), db)
    end.
Proof.
  unfold MLService.generateForecast. rewrite try_rethrow.
  unfold await_post. destruct (post_forecast_generate ml u h ft); reflexivity.
Qed.

(** The outcomes of [generateAndStore], one by one. *)
Lemma generateAndStore_run ml now u ft db :
  ForecastService.generateAndStore ml now u ft db
  = if (length (window_90 u now db) <? 30)%nat
    then (Thrown (Error insufficient_history), db)
    else
      match post_forecast_generate ml u
              (List.map (fun t => mkHistoryItem (signedAmount t) (t_type t)
                                                (t_category t) (t_date t))
                        (window_90 u now db)) ft with
      | Body fd =>
          let f := mkForecast u ft now (fd_predictions fd)
                     (default risk_medium (fd_riskIndicator fd))
                     (fd_riskScore fd) (fd_modelVersion fd) now in
          if ForecastModel.valid f
          then (Returned f, set_forecasts (forecasts db ++ [f]) db)
          else (Thrown (ValidationError "Forecast validation failed"), db)
      | Failure message => (Thrown (RequestError message), db)
      end.
Proof.
  destruct (length (window_90 u now db) <? 30)%nat eqn:Hlen.
  - apply generateAndStore_too_few. now apply Nat.ltb_lt.
  - rewrite generateAndStore_enough by now apply Nat.ltb_ge.
    unfold bind. rewrite generateForecast_run.
    destruct (post_forecast_generate ml u _ ft) as [fd|m]; [|reflexivity].
    unfold ForecastModel.save. cbv zeta.
    destruct (ForecastModel.valid _); reflexivity.
Qed.

(** X14. A forecast that was generated is the latest one.  When
    [generateAndStore] returns, at a time later than the forecasts of the
    same user and type that are stored, it has appended the forecast it
    returns (of that user and type, computed now, from a history of at
    least 30 transactions) and changed nothing else; [getLatest] for this
    user and type then answers with it, and for any other user or type
    with what it answered before. *)
Theorem new_forecast_is_latest ml now u ft db f db' :
  (forall f0, In f0 (forecasts db) -> f_userId f0 = u -> f_forecastType f0 = ft ->
              f_computedAt f0 < now) ->
  ForecastService.generateAndStore ml now u ft db = (Returned f, db') ->
  db' = set_forecasts (forecasts db ++ [f]) db
  /\ f_userId f = u /\ f_forecastType f = ft /\ f_computedAt f = now
  /\ (30 <= length (window_90 u now db))%nat
  /\ ForecastService.getLatest u ft db' = (Returned (Some f), db')
  /\ (forall u' ft', (u', ft') <> (u, ft) ->
        ForecastService.getLatest u' ft' db'
        = (fst (ForecastService.getLatest u' ft' db), db')).
Proof.
  intros Hnew. rewrite generateAndStore_run.
  destruct (length (window_90 u now db) <? 30)%nat eqn:Hlen; [discriminate|].
  apply Nat.ltb_ge in Hlen.
  destruct (post_forecast_generate ml u _ ft) as [fd|m]; [|discriminate].
  cbv zeta. destruct (ForecastModel.valid _); [|discriminate].
  intros [= <- <-]. do 5 (split; [first [reflexivity|assumption]|]).
  unfold ForecastService.getLatest, ForecastModel.getLatest, bind, get_db, ret.
  cbn [forecasts set_forecasts fst]. split.
  - f_equal. f_equal. rewrite List.filter_app. cbn [List.filter f_userId f_forecastType].
    rewrite Nat.eqb_refl, bool_decide_eq_true_2 by reflexivity. cbn [andb].
    apply head_merge_sort_newest; try apply _.
    intros y Hy. apply filter_In in Hy as [Hy Hm].
    apply andb_prop in Hm as [Hu Ht]. apply Nat.eqb_eq in Hu.
    apply bool_decide_eq_true in Ht. unfold computedAt_desc. cbn.
    specialize (Hnew y Hy Hu Ht). lia.
  - intros u' ft' Hne.
    rewrite List.filter_app. cbn [List.filter f_userId f_forecastType].
    destruct (Nat.eqb_spec u u') as [->|_]; cbn [andb];
      [rewrite bool_decide_eq_false_2 by congruence|];
      now rewrite app_nil_r.
Qed.

Lemma new_forecast_is_latest_witness :
  exists f db',
    ForecastService.generateAndStore ml_up (mkDate 2024 3 1) 1%nat f30day
      (db_with thirty_on_one_day) = (Returned f, db')
    /\ ForecastService.getLatest 1%nat f30day db' = (Returned (Some f), db').
Proof.
  destruct (ForecastService.generateAndStore ml_up (mkDate 2024 3 1) 1%nat f30day
              (db_with thirty_on_one_day)) as [[f|e] db'] eqn:Hrun;
    [|vm_compute in Hrun; discriminate].
  exists f, db'. split; [reflexivity|].
  apply (new_forecast_is_latest ml_up (mkDate 2024 3 1) 1%nat f30day
           (db_with thirty_on_one_day) f db'); [|exact Hrun].
  intros f0 [].
Defined.

(** X15. A forecast that fails stores nothing: when [generateAndStore]
    throws, the database is what it was.  The error is the
    insufficient-history error exactly when the user has fewer than 30
    transactions in the trailing 90 days. *)
Theorem failed_forecast_stores_nothing ml now u ft db e db' :
  ForecastService.generateAndStore ml now u ft db = (Thrown e, db') ->
  db' = db
  /\ ((length (window_90 u now db) < 30)%nat <-> e = Error insufficient_history).
Proof.
  rewrite generateAndStore_run.
  destruct (length (window_90 u now db) <? 30)%nat eqn:Hlen.
  - intros [= <- <-]. apply Nat.ltb_lt in Hlen. split; [reflexivity|]. now split.
  - apply Nat.ltb_ge in Hlen.
    destruct (post_forecast_generate ml u _ ft) as [fd|m].
    + cbv zeta. destruct (ForecastModel.valid _); [discriminate|].
      intros [= <- <-]. split; [reflexivity|]. split; [lia|discriminate].
    + intros [= <- <-]. split; [reflexivity|]. split; [lia|discriminate].
Qed.

Lemma failed_forecast_stores_nothing_witness :
  ForecastService.generateAndStore ml_up (mkDate 2024 3 1) 1%nat f30day db_lunch
  = (Thrown (Error insufficient_history), db_lunch).
Proof.
  destruct (ForecastService.generateAndStore ml_up (mkDate 2024 3 1) 1%nat f30day db_lunch)
    as [[f|e] db'] eqn:Hrun; [vm_compute in Hrun; discriminate|].
  destruct (failed_forecast_stores_nothing ml_up (mkDate 2024 3 1) 1%nat f30day
              db_lunch e db' Hrun) as [-> [He _]].
  rewrite He; [reflexivity|]. vm_compute. lia.
Defined.

(** When [computeAndStore] returns, the user is known and the record it
    appended is the user's, dated now, with a score between 0 and 100. *)
Lemma computeAndStore_returned ml now u db h db' :
  HealthScoreService.computeAndStore ml now u db = (Returned h, db') ->
  db' = set_healthScores (healthScores db ++ [h]) db
  /\ h_userId h = u /\ h_date h = now
  /\ (0 <= h_overallScore h <= 100)%Q
  /\ h_explanation h <> ""%string
  /\ users db !! u <> None.
Proof.
  unfold HealthScoreService.computeAndStore. rewrite try_rethrow.
  unfold UserRepository.findById, bind at 1, bind at 1, get_db.
  destruct (users db !! u) as [user|]; [|discriminate]. cbn [ret].
  erewrite bind_returned by apply getByDateRange_run.
  unfold bind. rewrite computeHealthScore_run.
  destruct (post_health_score ml u _ user) as [hd|m]; [|discriminate].
  unfold FinancialHealthModel.save.
  destruct (hd_overallScore hd) as [score|]; [|discriminate].
  destruct (hd_explanation hd) as [explanation|]; [|discriminate].
  match goal with |- context [if ?b then _ else _] => destruct b eqn:Hv end;
    [|discriminate].
  cbn [modify_db ret]. intros [= <- <-].
  do 5 (apply andb_prop in Hv as [Hv _]). apply andb_prop in Hv as [Hs He].
  unfold in_0_100 in Hs. apply andb_prop in Hs as [H0 H100].
  apply Qle_bool_iff in H0. apply Qle_bool_iff in H100.
  do 3 (split; [reflexivity|]). split; [cbn; split; assumption|].
  split; [|discriminate]. cbn.
  destruct (String.eqb_spec explanation ""); [discriminate|assumption].
Qed.

(** X16. The history of health scores is the newest records of the
    user: [getHistory] never throws and writes nothing; what it returns
    are records of this user that are stored, sorted by date, newest
    first; at most [limit] of them (30 when no limit is given; all when
    the limit is 0), and all of the user's when they are no more than the
    limit; and its first record is what [getLatest] answers. *)
Theorem health_history_newest_first (u : ObjectId) (limit : option N) (db : Db) :
  exists l,
    HealthScoreService.getHistory u limit db = (Returned l, db)
    /\ StronglySorted health_date_desc l
    /\ (forall h, In h l -> In h (healthScores db) /\ h_userId h = u)
    /\ (default 30%N limit <> 0%N -> (length l <= N.to_nat (default 30%N limit))%nat)
    /\ (let mine := List.filter (fun h => Nat.eqb (h_userId h) u) (healthScores db) in
        default 30%N limit = 0%N \/ (length mine <= N.to_nat (default 30%N limit))%nat ->
        Permutation l mine)
    /\ HealthScoreService.getLatest u db = (Returned (head l), db).
Proof.
  unfold HealthScoreService.getHistory, HealthScoreService.getLatest,
    FinancialHealthModel.getLatest, bind, get_db, ret.
  set (mine := List.filter (fun h => Nat.eqb (h_userId h) u) (healthScores db)).
  set (n := default 30%N limit).
  assert (Hsorted : StronglySorted health_date_desc (merge_sort health_date_desc mine))
    by (apply StronglySorted_merge_sort; apply _).
  assert (Hin : forall h, In h (merge_sort health_date_desc mine) ->
                          In h (healthScores db) /\ h_userId h = u).
  { intros h Hh. apply list_elem_of_In in Hh. rewrite merge_sort_Permutation in Hh.
    apply list_elem_of_In, filter_In in Hh as [Hh Hu]. split; [exact Hh|].
    now apply Nat.eqb_eq. }
  eexists. split; [reflexivity|]. cbv zeta.
  destruct (N.eqb_spec n 0) as [E|E].
  - split; [exact Hsorted|]. split; [exact Hin|]. split; [contradiction|].
    split; [intros _; apply merge_sort_Permutation|reflexivity].
  - split; [now apply StronglySorted_take|].
    split; [intros h Hh; apply Hin; eapply In_take, Hh|].
    split; [intros _; rewrite length_take; lia|].
    split.
    + intros [E0|Hlen]; [contradiction|]. rewrite take_ge.
      * apply merge_sort_Permutation.
      * rewrite merge_sort_Permutation. exact Hlen.
    + do 2 f_equal. destruct (N.to_nat n) eqn:En; [lia|].
      now destruct (merge_sort health_date_desc mine).
Qed.

(** X17. A health score that was computed is the latest one.  When
    [computeAndStore] returns, at a time later than the user's stored
    scores, the record it returns is the user's, dated now, with an
    overall score between 0 and 100; it is what [getLatest] then answers
    for this user, and for any other user [getLatest] answers what it did
    before. *)
Theorem new_health_score_is_latest ml now u db h db' :
  (forall h0, In h0 (healthScores db) -> h_userId h0 = u -> h_date h0 < now) ->
  HealthScoreService.computeAndStore ml now u db = (Returned h, db') ->
  h_userId h = u /\ h_date h = now /\ (0 <= h_overallScore h <= 100)%Q
  /\ HealthScoreService.getLatest u db' = (Returned (Some h), db')
  /\ (forall u', u' <> u ->
        HealthScoreService.getLatest u' db'
        = (fst (HealthScoreService.getLatest u' db), db')).
Proof.
  intros Hnew Hrun.
  apply computeAndStore_returned in Hrun as (-> & Hu & Hd & Hscore & _ & _).
  do 3 (split; [assumption|]).
  unfold HealthScoreService.getLatest, FinancialHealthModel.getLatest, bind, get_db, ret.
  cbn [healthScores set_healthScores fst]. split.
  - f_equal. f_equal. rewrite List.filter_app. cbn [List.filter].
    rewrite Hu, Nat.eqb_refl.
    apply head_merge_sort_newest; try apply _.
    intros y Hy. apply filter_In in Hy as [Hy Hm]. apply Nat.eqb_eq in Hm.
    unfold health_date_desc. specialize (Hnew y Hy Hm). lia.
  - intros u' Hne. rewrite List.filter_app. cbn [List.filter].
    rewrite Hu. destruct (Nat.eqb_spec u u') as [E|_]; [congruence|].
    now rewrite app_nil_r.
Qed.

Lemma new_health_score_is_latest_witness :
  exists h db',
    HealthScoreService.computeAndStore ml_up (mkDate 2024 3 1) 1%nat db_goals
    = (Returned h, db')
    /\ (0 <= h_overallScore h <= 100)%Q
    /\ HealthScoreService.getLatest 1%nat db' = (Returned (Some h), db').
Proof.
  destruct (HealthScoreService.computeAndStore ml_up (mkDate 2024 3 1) 1%nat db_goals)
    as [[h|e] db'] eqn:Hrun; [|vm_compute in Hrun; discriminate].
  exists h, db'. split; [reflexivity|].
  destruct (new_health_score_is_latest ml_up (mkDate 2024 3 1) 1%nat db_goals h db')
    as (_ & _ & Hscore & Hlatest & _); [|exact Hrun|].
  - intros h0 [].
  - split; [exact Hscore|exact Hlatest].
Defined.

(** *** The jobs *)

Lemma for_each_step_returned {A B} (body : A -> M B) x rest s e db b db' :
  body x db = (Returned b, db') ->
  for_each_counting body (x :: rest) s e db = for_each_counting body rest (S s) e db'.
Proof.
  intros H. cbn [for_each_counting]. erewrite bind_returned.
  2: { apply try_catch_returned. erewrite bind_returned by exact H. reflexivity. }
  reflexivity.
Qed.

Lemma for_each_step_thrown {A B} (body : A -> M B) x rest s e db err db' :
  body x db = (Thrown err, db') ->
  for_each_counting body (x :: rest) s e db = for_each_counting body rest s (S e) db'.
Proof.
  intros H. cbn [for_each_counting]. erewrite bind_returned.
  2: { erewrite try_catch_thrown by (apply bind_thrown; exact H). reflexivity. }
  reflexivity.
Qed.

Lemma length_omap_le {A B} (f : A -> option B) (l : list A) :
  (length (omap f l) <= length l)%nat.
Proof.
  induction l as [|x l IH]; cbn; [lia|]. destruct (f x); cbn; lia.
Qed.

(** A forecast is generated from the transactions alone: the forecasts
    that are stored do not change its outcome. *)
Lemma generateAndStore_frame ml now u ft fs db :
  ForecastService.generateAndStore ml now u ft (set_forecasts fs db)
  = match ForecastService.generateAndStore ml now u ft db with
    | (Returned f, _) => (Returned f, set_forecasts (fs ++ [f]) db)
    | (Thrown e, _) => (Thrown e, set_forecasts fs db)
    end.
Proof.
  rewrite !generateAndStore_run.
  change (window_90 u now (set_forecasts fs db)) with (window_90 u now db).
  destruct (length (window_90 u now db) <? 30)%nat; [reflexivity|].
  destruct (post_forecast_generate ml u _ ft) as [fd|m]; [|reflexivity].
  cbv zeta. destruct (ForecastModel.valid _); reflexivity.
Qed.

Lemma set_forecasts_same_list db : set_forecasts (forecasts db) db = db.
Proof. now destruct db. Qed.

Lemma forecast_loop ml users db acc s e :
  for_each_counting
    (fun user => ForecastService.generateAndStore ml (snd user) (fst user) f30day)
    users s e (set_forecasts (forecasts db ++ acc) db)
  = (Returned ((s + length (omap (forecast_of ml db) users))%nat,
               (e + (length users - length (omap (forecast_of ml db) users)))%nat),
     set_forecasts (forecasts db ++ acc ++ omap (forecast_of ml db) users) db).
Proof.
  revert acc s e. induction users as [|[u now] users IH]; intros acc s e.
  - cbn. rewrite !Nat.add_0_r, app_nil_r. reflexivity.
  - pose proof (length_omap_le (forecast_of ml db) users) as Hle.
    pose proof (generateAndStore_frame ml now u f30day (forecasts db ++ acc) db) as Hf.
    cbn [omap list_omap].
    destruct (ForecastService.generateAndStore ml now u f30day db) as [[f|err] d] eqn:E.
    + assert (Hfo : forecast_of ml db (u, now) = Some f)
        by (unfold forecast_of; cbn [fst snd]; now rewrite E).
      rewrite Hfo. erewrite for_each_step_returned by exact Hf.
      rewrite <- app_assoc, IH. cbn [length].
      f_equal; [do 2 f_equal; lia|]. now rewrite <- (app_assoc acc [f]).
    + assert (Hfo : forecast_of ml db (u, now) = None)
        by (unfold forecast_of; cbn [fst snd]; now rewrite E).
      rewrite Hfo. erewrite for_each_step_thrown by exact Hf.
      rewrite IH. cbn [length]. do 3 f_equal. lia.
Qed.

(** X18. The forecast job serves every user on its own.  It never
    throws; each active user gets the forecast that [generateAndStore]
    alone would have given it on the database of before (a user whose
    forecast fails, for want of history or otherwise, gets none and does
    not hold up the others); these forecasts are appended in the order of
    the users and nothing else is written; the report counts the users,
    the forecasts stored and the failures, which add up to the users. *)
Theorem forecast_job_serves_each_user (ml : MLBackend) (users : list (ObjectId * Date))
    (db : Db) :
  ForecastJob.run ml users db
  = (Returned (Some (mkJobReport (length users)
                       (length (omap (forecast_of ml db) users))
                       (length users - length (omap (forecast_of ml db) users)))),
     set_forecasts (forecasts db ++ omap (forecast_of ml db) users) db)
  /\ (length (omap (forecast_of ml db) users) <= length users)%nat.
Proof.
  split; [|apply length_omap_le].
  unfold ForecastJob.run. apply try_catch_returned.
  pose proof (forecast_loop ml users db [] 0 0) as H.
  rewrite app_nil_r, set_forecasts_same_list in H.
  erewrite bind_returned by exact H. reflexivity.
Qed.

(** The outcomes of [computeAndStore], one by one. *)
Lemma computeAndStore_run ml now u db :
  HealthScoreService.computeAndStore ml now u db
  = match users db !! u with
    | Some user =>
        match post_health_score ml u
                (List.map (fun t => mkHistoryItem (t_amount t) (t_type t)
                                                  (t_category t) (t_date t))
                          (window_90 u now db)) user with
        | Body hd => FinancialHealthModel.save u now hd db
        | Failure message => (Thrown (RequestError message), db)
        end
    | None => (Thrown (NotFoundError "User"), db)
    end.
Proof.
  unfold HealthScoreService.computeAndStore. rewrite try_rethrow.
  unfold UserRepository.findById, bind at 1, bind at 1, get_db.
  destruct (users db !! u) as [user|]; [|reflexivity]. cbn [ret].
  erewrite bind_returned by apply getByDateRange_run.
  unfold bind. rewrite computeHealthScore_run. fold (window_90 u now db).
  destruct (post_health_score ml u _ user); reflexivity.
Qed.

(** A health score is computed from the user and the transactions
    alone: the scores that are stored do not change its outcome. *)
Lemma computeAndStore_frame ml now u hs db :
  HealthScoreService.computeAndStore ml now u (set_healthScores hs db)
  = match HealthScoreService.computeAndStore ml now u db with
    | (Returned h, _) => (Returned h, set_healthScores (hs ++ [h]) db)
    | (Thrown e, _) => (Thrown e, set_healthScores hs db)
    end.
Proof.
  rewrite !computeAndStore_run. cbn [users set_healthScores].
  change (window_90 u now (set_healthScores hs db)) with (window_90 u now db).
  destruct (users db !! u) as [user|]; [|reflexivity].
  destruct (post_health_score ml u _ user) as [hd|m]; [|reflexivity].
  unfold FinancialHealthModel.save.
  destruct (hd_overallScore hd); [|reflexivity].
  destruct (hd_explanation hd); [|reflexivity].
  match goal with |- context [if ?b then _ else _] => destruct b end; reflexivity.
Qed.

Lemma set_healthScores_same_list db : set_healthScores (healthScores db) db = db.
Proof. now destruct db. Qed.

Lemma health_loop ml users db acc s e :
  for_each_counting
    (fun user => HealthScoreService.computeAndStore ml (snd user) (fst user))
    users s e (set_healthScores (healthScores db ++ acc) db)
  = (Returned ((s + length (omap (health_of ml db) users))%nat,
               (e + (length users - length (omap (health_of ml db) users)))%nat),
     set_healthScores (healthScores db ++ acc ++ omap (health_of ml db) users) db).
Proof.
  revert acc s e. induction users as [|[u now] users IH]; intros acc s e.
  - cbn. rewrite !Nat.add_0_r, app_nil_r. reflexivity.
  - pose proof (length_omap_le (health_of ml db) users) as Hle.
    pose proof (computeAndStore_frame ml now u (healthScores db ++ acc) db) as Hf.
    cbn [omap list_omap].
    destruct (HealthScoreService.computeAndStore ml now u db) as [[h|err] d] eqn:E.
    + assert (Hfo : health_of ml db (u, now) = Some h)
        by (unfold health_of; cbn [fst snd]; now rewrite E).
      rewrite Hfo. erewrite for_each_step_returned by exact Hf.
      rewrite <- app_assoc, IH. cbn [length].
      f_equal; [do 2 f_equal; lia|]. now rewrite <- (app_assoc acc [h]).
    + assert (Hfo : health_of ml db (u, now) = None)
        by (unfold health_of; cbn [fst snd]; now rewrite E).
      rewrite Hfo. erewrite for_each_step_thrown by exact Hf.
      rewrite IH. cbn [length]. do 3 f_equal. lia.
Qed.

(** X19. The health score job serves every user on its own.  It never
    throws; each active user gets the score that [computeAndStore] alone
    would have given it on the database of before, and a user for whom it
    fails (an unknown user, a predictor that is down, an answer that the
    schema rejects) gets none and does not hold up the others; the scores
    are appended in the order of the users and nothing else is written;
    successes and failures of the report add up to the users. *)
Theorem health_job_serves_each_user (ml : MLBackend) (users : list (ObjectId * Date))
    (db : Db) :
  HealthScoreJob.run ml users db
  = (Returned (Some (mkJobReport (length users)
                       (length (omap (health_of ml db) users))
                       (length users - length (omap (health_of ml db) users)))),
     set_healthScores (healthScores db ++ omap (health_of ml db) users) db)
  /\ (length (omap (health_of ml db) users) <= length users)%nat.
Proof.
  split; [|apply length_omap_le].
  unfold HealthScoreJob.run. apply try_catch_returned.
  pose proof (health_loop ml users db [] 0 0) as H.
  rewrite app_nil_r, set_healthScores_same_list in H.
  erewrite bind_returned by exact H. reflexivity.
Qed.

Lemma updateProgress_of_owner id g gm db :
  gm !! id = Some g ->
  GoalService.updateProgress (g_userId g) id (set_goals gm db)
  = if GoalModel.valid (refreshed db g)
    then (Returned (refreshed db g), set_goals (<[id := refreshed db g]> gm) db)
    else (Thrown (ValidationError "Goal validation failed"), set_goals gm db).
Proof.
  intros H. rewrite updateProgress_run. cbn [goals set_goals].
  rewrite H, Nat.eqb_refl. cbn [negb]. unfold GoalModel.save.
  change (goal_value (g_userId g) g (set_goals gm db))
    with (goal_value (g_userId g) g db).
  fold (refreshed db g). destruct (GoalModel.valid (refreshed db g)); reflexivity.
Qed.

Lemma length_filter_split {A} (f : A -> bool) (l : list A) :
  (length (List.filter f l) + length (List.filter (fun x => negb (f x)) l)
   = length l)%nat.
Proof.
  induction l as [|x l IH]; cbn; [reflexivity|]. destruct (f x); cbn; lia.
Qed.

Lemma goal_loop db (l : list (ObjectId * Goal)) gm s e :
  List.NoDup (List.map fst l) ->
  (forall p, In p l -> gm !! fst p = Some (snd p) /\ g_status (snd p) = active) ->
  for_each_counting
    (fun goal : ObjectId * ObjectId => GoalService.updateProgress (snd goal) (fst goal))
    (List.map (fun goal => (fst goal, g_userId (snd goal))) l) s e (set_goals gm db)
  = (Returned
       ((s + length (List.filter (fun p => GoalModel.valid (refreshed db (snd p))) l))%nat,
        (e + length (List.filter
                       (fun p => negb (GoalModel.valid (refreshed db (snd p)))) l))%nat),
     set_goals (fold_left (fun gm p => <[fst p := refresh db (snd p)]> gm) l gm) db).
Proof.
  revert gm s e. induction l as [|[id g] l IH]; intros gm s e Hnd Hl.
  - cbn. now rewrite !Nat.add_0_r.
  - cbn [List.map fst] in Hnd. apply List.NoDup_cons_iff in Hnd as [Hid Hnd].
    destruct (Hl (id, g) (or_introl eq_refl)) as [Hg Hact]. cbn [fst snd] in Hg, Hact.
    pose proof (updateProgress_of_owner id g gm db Hg) as Hrun.
    assert (Hrest : forall v, forall p, In p l ->
               <[id := v]> gm !! fst p = Some (snd p) /\ g_status (snd p) = active).
    { intros v p Hp. destruct (Hl p (or_intror Hp)) as [H1 H2]. split; [|exact H2].
      rewrite lookup_insert_ne; [exact H1|].
      intros E. apply Hid. rewrite E. apply in_map, Hp. }
    cbn [List.map List.filter fold_left fst snd].
    unfold refresh at 2, refreshable. rewrite bool_decide_eq_true_2 by exact Hact.
    cbn [andb].
    destruct (GoalModel.valid (refreshed db g)) eqn:Hv; cbn [negb].
    + erewrite for_each_step_returned by exact Hrun.
      rewrite IH by (try apply Hrest; assumption). cbn [length].
      do 3 f_equal. lia.
    + erewrite for_each_step_thrown by exact Hrun.
      rewrite <- (insert_id gm id g Hg) at 1.
      rewrite IH by (try apply Hrest; assumption). cbn [length].
      do 3 f_equal. lia.
Qed.

Lemma fold_insert_other {A} (f : A -> A) (l : list (ObjectId * A)) (gm : gmap ObjectId A)
    (i : ObjectId) :
  ~ In i (List.map fst l) ->
  fold_left (fun gm p => <[fst p := f (snd p)]> gm) l gm !! i = gm !! i.
Proof.
  revert gm. induction l as [|[j a] l IH]; intros gm Hi; [reflexivity|].
  cbn [fold_left fst snd]. rewrite IH.
  - apply lookup_insert_ne. intros E. apply Hi. now left.
  - intros H. apply Hi. now right.
Qed.

Lemma fold_insert_member {A} (f : A -> A) (l : list (ObjectId * A)) (gm : gmap ObjectId A)
    (i : ObjectId) (a : A) :
  List.NoDup (List.map fst l) -> In (i, a) l ->
  fold_left (fun gm p => <[fst p := f (snd p)]> gm) l gm !! i = Some (f a).
Proof.
  revert gm. induction l as [|[j b] l IH]; intros gm Hnd Hin; [destruct Hin|].
  cbn [List.map fst] in Hnd. apply List.NoDup_cons_iff in Hnd as [Hj Hnd].
  cbn [fold_left fst snd].
  destruct Hin as [[= -> ->]|Hin].
  - rewrite fold_insert_other by exact Hj. apply lookup_insert_eq.
  - now apply IH.
Qed.

Lemma NoDup_fst_filter {A} (f : ObjectId * A -> bool) (l : list (ObjectId * A)) :
  List.NoDup (List.map fst l) -> List.NoDup (List.map fst (List.filter f l)).
Proof.
  induction l as [|x l IH]; [auto|]. cbn [List.map List.filter]. intros Hnd.
  apply List.NoDup_cons_iff in Hnd as [Hx Hnd].
  destruct (f x); cbn [List.map]; [|auto]. apply List.NoDup_cons; [|auto].
  intros Hin. apply Hx. apply in_map_iff in Hin as (y & Hy & Hin).
  apply filter_In in Hin as [Hin _]. apply in_map_iff. eauto.
Qed.

Lemma NoDup_fst_goals (m : gmap ObjectId Goal) :
  List.NoDup (List.map fst (map_to_list m)).
Proof.
  apply NoDup_ListNoDup. exact (NoDup_fst_map_to_list m).
Qed.

Lemma In_goals (m : gmap ObjectId Goal) (i : ObjectId) (g : Goal) :
  In (i, g) (map_to_list m) <-> m !! i = Some g.
Proof. rewrite <- list_elem_of_In. apply elem_of_map_to_list. Qed.

Lemma fold_refresh db (m : gmap ObjectId Goal) :
  fold_left (fun gm p => <[fst p := refresh db (snd p)]> gm)
            (List.filter (fun goal => bool_decide (g_status (snd goal) = active))
                         (map_to_list m)) m
  = refresh db <$> m.
Proof.
  apply map_eq. intros i. rewrite lookup_fmap.
  destruct (m !! i) as [g|] eqn:Hi; cbn.
  - destruct (decide (g_status g = active)) as [Hact|Hact].
    + apply fold_insert_member; [apply NoDup_fst_filter, NoDup_fst_goals|].
      apply filter_In. split; [now apply In_goals|].
      now apply bool_decide_eq_true.
    + rewrite fold_insert_other.
      * rewrite Hi. unfold refresh, refreshable.
        now rewrite bool_decide_eq_false_2.
      * intros Hin. apply in_map_iff in Hin as ([j g'] & Hj & Hin). cbn in Hj. subst j.
        apply filter_In in Hin as [Hin Hact']. apply In_goals in Hin.
        apply bool_decide_eq_true in Hact'. cbn in Hact'. congruence.
  - rewrite fold_insert_other; [exact Hi|].
    intros Hin. apply in_map_iff in Hin as ([j g'] & Hj & Hin). cbn in Hj. subst j.
    apply filter_In in Hin as [Hin _]. apply In_goals in Hin. congruence.
Qed.

(** X20. The goal progress job recomputes the active goals and leaves
    the others alone.  It never throws.  Every active goal whose
    recomputed document passes the schema is saved with the current value
    and progress that [updateProgress] computes from the transactions;
    an active goal whose document fails the schema is counted as an error
    and kept as it was; a goal that is not active is not touched; the
    transactions and the ledger are not written.  The report counts the
    active goals, and its successes and errors add up to them. *)
Theorem goal_job_refreshes_active_goals (db : Db) :
  exists s e,
    GoalProgressJob.run db
    = (Returned (Some (mkJobReport (length (active_goals db)) s e)),
       set_goals (refresh db <$> goals db) db)
    /\ s = length (List.filter (fun goal => refreshable db (snd goal))
                               (map_to_list (goals db)))
    /\ (s + e = length (active_goals db))%nat
    /\ (forall id g, goals db !! id = Some g -> g_status g <> active ->
                     (refresh db <$> goals db) !! id = Some g)
    /\ (forall id g, goals db !! id = Some g -> refreshable db g = true ->
                     (refresh db <$> goals db) !! id = Some (refreshed db g)).
Proof.
  pose proof (goal_loop db (active_goals db) (goals db) 0 0) as Hloop.
  rewrite !Nat.add_0_l in Hloop.
  replace (fold_left _ (active_goals db) (goals db)) with (refresh db <$> goals db)
    in Hloop by (symmetry; apply fold_refresh).
  assert (Hdb : set_goals (goals db) db = db) by now destruct db.
  rewrite Hdb in Hloop.
  eexists. eexists. split.
  { unfold GoalProgressJob.run. apply try_catch_returned.
    erewrite bind_returned by reflexivity. fold (active_goals db).
    erewrite bind_returned.
    2: { apply Hloop.
         - apply NoDup_fst_filter, NoDup_fst_goals.
         - intros [i g] Hp. apply filter_In in Hp as [Hp Hact].
           apply In_goals in Hp. apply bool_decide_eq_true in Hact. auto. }
    rewrite length_map. reflexivity. }
  cbn [fst snd]. split.
  { unfold active_goals. rewrite filter_filter_bool. reflexivity. }
  split; [cbn; apply length_filter_split|].
  split; intros id g Hg H; rewrite lookup_fmap, Hg; cbn; unfold refresh.
  - unfold refreshable. now rewrite bool_decide_eq_false_2.
  - now rewrite H.
Qed.

(** *** Monthly summaries *)

Lemma summary_fold (l : list Transaction) (a b : Q) :
  let r := fold_left
             (fun acc txn =>
                match t_type txn with
                | income => ((fst acc + t_amount txn)%Q, snd acc)
                | expense => (fst acc, (snd acc + t_amount txn)%Q)
                end) l (a, b) in
  (fst r == a + sum_amounts income l)%Q /\ (snd r == b + sum_amounts expense l)%Q.
Proof.
  cbv zeta. unfold sum_amounts. revert a b.
  induction l as [|t l IH]; intros a b.
  - cbn. split; lra.
  - cbn [fold_left List.filter]. destruct (t_type t) eqn:Hty; cbn [fst snd].
    + destruct (IH (a + t_amount t)%Q b) as [H1 H2].
      rewrite bool_decide_eq_true_2, bool_decide_eq_false_2 by congruence.
      cbn [fold_left]. rewrite H1, H2, !fold_left_total. split; lra.
    + destruct (IH a (b + t_amount t)%Q) as [H1 H2].
      rewrite bool_decide_eq_false_2, bool_decide_eq_true_2 by congruence.
      cbn [fold_left]. rewrite H1, H2, !fold_left_total. split; lra.
Qed.

(** The summary of a month, computed. *)
Lemma getMonthlySummary_totals (u : ObjectId) (year month : Z) (db : Db) :
  exists s,
    TransactionRepository.getMonthlySummary u year month db = (Returned s, db)
    /\ (totalIncome s
        == spec_window_sum income u (month_start year month) (month_end year month) db)%Q
    /\ (totalExpenses s
        == spec_window_sum expense u (month_start year month) (month_end year month) db)%Q
    /\ (savings s == totalIncome s - totalExpenses s)%Q
    /\ transactionCount s
       = length (merge_sort date_desc
                   (List.filter
                      (TransactionModel.in_range u (month_start year month)
                                                 (month_end year month))
                      (transactions db))).
Proof.
  unfold TransactionRepository.getMonthlySummary.
  erewrite bind_returned by apply getByDateRange_run.
  eexists. split; [reflexivity|]. cbv zeta.
  cbn [totalIncome totalExpenses savings transactionCount].
  match goal with
  | |- context [fold_left ?f ?l (0%Q, 0%Q)] =>
      destruct (summary_fold l 0 0) as [Hi He]; cbv zeta in Hi, He;
      set (r := fold_left f l (0%Q, 0%Q)) in *
  end.
  rewrite sum_amounts_window in Hi, He.
  split; [rewrite Hi; lra|]. split; [rewrite He; lra|].
  split; reflexivity.
Qed.

(** X21. The monthly summary adds up the month.  [getMonthlySummary]
    never throws and writes nothing; its income and expense totals are
    the sums of the amounts of the user's income and expense transactions
    dated from the first instant of the month to 23:59:59 of its last day,
    its count is the number of those transactions, and its savings are
    income minus expenses.  With non-negative amounts both totals are
    non-negative and the savings do not exceed the income. *)
Theorem monthly_summary_adds_up (u : ObjectId) (year month : Z) (db : Db) :
  exists s,
    TransactionRepository.getMonthlySummary u year month db = (Returned s, db)
    /\ (totalIncome s
        == spec_window_sum income u (month_start year month) (month_end year month) db)%Q
    /\ (totalExpenses s
        == spec_window_sum expense u (month_start year month) (month_end year month) db)%Q
    /\ (savings s == totalIncome s - totalExpenses s)%Q
    /\ transactionCount s
       = length (List.filter
                   (TransactionModel.in_range u (month_start year month)
                                              (month_end year month))
                   (transactions db))
    /\ (amounts_nonneg db ->
        (0 <= totalIncome s)%Q /\ (0 <= totalExpenses s)%Q
        /\ (savings s <= totalIncome s)%Q).
Proof.
  destruct (getMonthlySummary_totals u year month db) as (s & Hrun & Hi & He & Hs & Hn).
  exists s. do 4 (split; [assumption|]).
  split; [now rewrite Hn, merge_sort_Permutation|].
  intros Hamt.
  pose proof (spec_window_sum_nonneg income u (month_start year month)
                (month_end year month) db Hamt).
  pose proof (spec_window_sum_nonneg expense u (month_start year month)
                (month_end year month) db Hamt).
  lra.
Qed.

(** The calendar: a year has 365 or 366 days, a month at least 28. *)
Lemma leap_in_era (r : Z) :
  1 <= r <= 399 ->
  0 <= r / 4 - (r - 1) / 4 - (r / 100 - (r - 1) / 100) <= 1.
Proof.
  intros Hr.
  assert (H100 : r / 100 = 0 \/ r / 100 = 1 \/ r / 100 = 2 \/ r / 100 = 3).
  { assert (0 <= r / 100 <= 3) by (Z.to_euclidean_division_equations; lia). lia. }
  destruct H100 as [H|[H|[H|H]]]; Z.to_euclidean_division_equations; lia.
Qed.

Lemma year_length (y : Z) :
  365 <= y / 400 * 146097
         + ((y - y / 400 * 400) * 365 + (y - y / 400 * 400) / 4
            - (y - y / 400 * 400) / 100)
         - ((y - 1) / 400 * 146097
            + ((y - 1 - (y - 1) / 400 * 400) * 365 + (y - 1 - (y - 1) / 400 * 400) / 4
               - (y - 1 - (y - 1) / 400 * 400) / 100)) <= 366.
Proof.
  pose proof (Z.div_mod y 400 ltac:(lia)) as Hy.
  pose proof (Z.mod_pos_bound y 400 ltac:(lia)) as Hr.
  set (e := y / 400) in *. set (r := y mod 400) in *.
  replace (y - e * 400) with r by lia.
  destruct (Z.eq_dec r 0) as [E|E].
  - assert (He : (y - 1) / 400 = e - 1).
    { symmetry. apply (Z.div_unique (y - 1) 400 (e - 1) 399); lia. }
    rewrite He. replace (y - 1 - (e - 1) * 400) with 399 by lia.
    rewrite E. change (0 / 4) with 0. change (0 / 100) with 0.
    change (399 / 4) with 99. change (399 / 100) with 3. lia.
  - assert (He : (y - 1) / 400 = e).
    { symmetry. apply (Z.div_unique (y - 1) 400 e (r - 1)); lia. }
    rewrite He. replace (y - 1 - e * 400) with (r - 1) by lia.
    pose proof (leap_in_era r ltac:(lia)). lia.
Qed.

Lemma month_step (y m : Z) :
  1 <= m <= 12 -> days_from_civil y m 1 + 28 <= days_from_civil y (m + 1) 1.
Proof.
  intros Hm.
  assert (Hc : m = 1 \/ m = 2 \/ m = 3 \/ m = 4 \/ m = 5 \/ m = 6 \/ m = 7 \/ m = 8
               \/ m = 9 \/ m = 10 \/ m = 11 \/ m = 12) by lia.
  pose proof (year_length y) as Hy.
  unfold days_from_civil.
  repeat (destruct Hc as [->|Hc]); [..|subst m].
  all: match goal with
       | |- context [if ?a <=? 2 then _ else _] =>
           let v := eval vm_compute in (a <=? 2) in change (a <=? 2) with v
       end.
  all: match goal with
       | |- context [if ?a + 1 <=? 2 then _ else _] =>
           let v := eval vm_compute in (a + 1 <=? 2) in change (a + 1 <=? 2) with v
       end.
  all: cbv iota zeta.
  all: repeat match goal with
       | |- context [(?a + 9) mod 12] =>
           let v := eval vm_compute in ((a + 9) mod 12) in change ((a + 9) mod 12) with v
       end.
  all: repeat match goal with
       | |- context [(153 * ?a + 2) / 5] =>
           let v := eval vm_compute in ((153 * a + 2) / 5) in change ((153 * a + 2) / 5) with v
       end.
  all: lia.
Qed.

Lemma month_index_inv (year month : Z) :
  1 <= month <= 12 ->
  month_index year month / 12 = year /\ month_index year month mod 12 + 1 = month.
Proof.
  intros Hm. unfold month_index.
  assert (Hq : (12 * year + (month - 1)) / 12 = year).
  { symmetry. apply (Z.div_unique _ 12 year (month - 1)); lia. }
  split; [exact Hq|].
  pose proof (Z.div_mod (12 * year + (month - 1)) 12 ltac:(lia)) as H.
  rewrite Hq in H. lia.
Qed.

Lemma month_start_next (year month : Z) :
  1 <= month <= 12 ->
  month_start (fst (next_month year month)) (snd (next_month year month))
  = month_end year month + 1000.
Proof.
  intros Hm. unfold next_month, month_start, month_end.
  destruct (Z.eqb_spec month 12) as [->|_]; cbn [fst snd]; [|lia].
  unfold mkDate, days_from_civil.
  change (12 + 1 <=? 2) with false. change (1 <=? 2) with true. cbv iota.
  change ((12 + 1 + 9) mod 12) with 10. change ((1 + 9) mod 12) with 10.
  replace (year + 1 - 1) with year by lia. lia.
Qed.

Lemma month_start_at_next (n : Z) :
  month_start_at (n + 1) = mkDate (n / 12) (n mod 12 + 1 + 1) 1.
Proof.
  unfold month_start_at.
  pose proof (Z.div_mod n 12 ltac:(lia)) as Hn.
  pose proof (Z.mod_pos_bound n 12 ltac:(lia)) as Hr.
  set (q := n / 12) in *. set (r := n mod 12) in *.
  destruct (Z.eq_dec r 11) as [E|E].
  - assert (Hq : (n + 1) / 12 = q + 1)
      by (symmetry; apply (Z.div_unique (n + 1) 12 (q + 1) 0); lia).
    assert (Hm : (n + 1) mod 12 = 0)
      by (symmetry; apply (Z.mod_unique (n + 1) 12 (q + 1) 0); lia).
    rewrite Hq, Hm, E.
    pose proof (month_start_next q 12 ltac:(lia)) as H.
    unfold next_month, month_start, month_end in H. cbn in H.
    change (0 + 1) with 1. change (11 + 1 + 1) with (12 + 1). lia.
  - assert (Hq : (n + 1) / 12 = q)
      by (symmetry; apply (Z.div_unique (n + 1) 12 q (r + 1)); lia).
    assert (Hm : (n + 1) mod 12 = r + 1)
      by (symmetry; apply (Z.mod_unique (n + 1) 12 q (r + 1)); lia).
    now rewrite Hq, Hm.
Qed.

Lemma month_start_at_step (n : Z) :
  month_start_at n + 28 * msPerDay <= month_start_at (n + 1).
Proof.
  rewrite month_start_at_next. unfold month_start_at, mkDate, msPerDay.
  pose proof (Z.mod_pos_bound n 12 ltac:(lia)) as Hr.
  pose proof (month_step (n / 12) (n mod 12 + 1) ltac:(lia)). lia.
Qed.

Lemma month_start_at_mono (n1 n2 : Z) :
  n1 <= n2 -> month_start_at n1 <= month_start_at n2.
Proof.
  intros Hle. replace n2 with (n1 + Z.of_nat (Z.to_nat (n2 - n1))) by lia.
  induction (Z.to_nat (n2 - n1)) as [|k IH].
  - replace (n1 + Z.of_nat 0) with n1 by lia. lia.
  - replace (n1 + Z.of_nat (S k)) with (n1 + Z.of_nat k + 1) by lia.
    pose proof (month_start_at_step (n1 + Z.of_nat k)). unfold msPerDay in *. lia.
Qed.

Lemma month_window_index (year month : Z) :
  1 <= month <= 12 ->
  month_start year month = month_start_at (month_index year month)
  /\ month_end year month = month_start_at (month_index year month + 1) - 1000.
Proof.
  intros Hm. destruct (month_index_inv year month Hm) as [Hq Hr].
  rewrite month_start_at_next. unfold month_start_at. rewrite Hq, Hr. split; reflexivity.
Qed.

(** X22. The windows of the monthly summaries do not cover the last
    second of a month.  A month ends at 23:59:59.000 of its last day and
    the next begins 1000 ms later; a transaction dated strictly between
    the two is counted by the summary of no month of any year: storing it
    changes none of them. *)
Theorem last_second_of_month_is_not_summarised u year month t db :
  1 <= month <= 12 ->
  month_end year month < t_date t < month_end year month + 1000 ->
  month_start (fst (next_month year month)) (snd (next_month year month))
  = month_end year month + 1000
  /\ forall year' month',
       1 <= month' <= 12 ->
       fst (TransactionRepository.getMonthlySummary u year' month' (with_transaction t db))
       = fst (TransactionRepository.getMonthlySummary u year' month' db).
Proof.
  intros Hm Ht. split; [now apply month_start_next|].
  intros year' month' Hm'.
  destruct (month_window_index year month Hm) as [_ Hend].
  destruct (month_window_index year' month' Hm') as [Hstart' Hend'].
  assert (Hout : month_end year' month' < t_date t \/ t_date t < month_start year' month').
  { destruct (Z_le_gt_dec (month_index year' month') (month_index year month)) as [Hle|Hgt].
    - left. rewrite Hend'.
      pose proof (month_start_at_mono (month_index year' month' + 1)
                    (month_index year month + 1) ltac:(lia)). lia.
    - right. rewrite Hstart'.
      pose proof (month_start_at_mono (month_index year month + 1)
                    (month_index year' month') ltac:(lia)). lia. }
  unfold TransactionRepository.getMonthlySummary.
  erewrite !bind_returned by apply getByDateRange_run.
  unfold with_transaction. cbn [transactions set_transactions].
  rewrite List.filter_app. cbn [List.filter].
  replace (TransactionModel.in_range u (month_start year' month')
             (month_end year' month') t) with false;
    [now rewrite app_nil_r|].
  symmetry. unfold TransactionModel.in_range.
  destruct Hout; [apply andb_false_intro2|apply andb_false_intro1, andb_false_intro2];
    lia.
Qed.

Lemma last_second_of_month_is_not_summarised_witness :
  fst (TransactionRepository.getMonthlySummary 1%nat 2024 1
         (with_transaction late_january db_goals))
  = fst (TransactionRepository.getMonthlySummary 1%nat 2024 1 db_goals)
  /\ fst (TransactionRepository.getMonthlySummary 1%nat 2024 2
            (with_transaction late_january db_goals))
     = fst (TransactionRepository.getMonthlySummary 1%nat 2024 2 db_goals).
Proof.
  destruct (last_second_of_month_is_not_summarised 1%nat 2024 1 late_january db_goals)
    as [_ H].
  - lia.
  - vm_compute. split; reflexivity.
  - split; apply H; lia.
Defined.

(** X23. The savings rate is a finite percentage.  On a cache miss
    [getSavingsRate] never throws and returns a finite number: 0 when the
    month has no income (whatever was spent), and otherwise savings over
    income times 100, which with non-negative amounts is at most 100 and
    is negative exactly when more was spent than earned. *)
Theorem savings_rate_is_finite (u : ObjectId) (year month : Z) (db : Db) :
  amounts_nonneg db ->
  let inc := spec_window_sum income u (month_start year month) (month_end year month) db in
  let exp := spec_window_sum expense u (month_start year month) (month_end year month) db in
  exists r,
    AnalyticsService.getSavingsRate None u year month db = (Returned (Fin r), db)
    /\ (r <= 100)%Q
    /\ ((inc == 0)%Q -> (r == 0)%Q)
    /\ ((0 < inc)%Q -> (r * inc == (inc - exp) * 100)%Q)
    /\ ((r < 0)%Q <-> (0 < inc)%Q /\ (inc < exp)%Q).
Proof.
  intros Hamt inc exp.
  destruct (getMonthlySummary_totals u year month db)
    as (s & Hrun & Hi & He & Hs & _).
  fold inc in Hi. fold exp in He.
  pose proof (spec_window_sum_nonneg income u (month_start year month)
                (month_end year month) db Hamt) as Hinc. fold inc in Hinc.
  pose proof (spec_window_sum_nonneg expense u (month_start year month)
                (month_end year month) db Hamt) as Hexp. fold exp in Hexp.
  unfold AnalyticsService.getSavingsRate, AnalyticsService.getMonthlySummary.
  erewrite bind_returned by exact Hrun.
  destruct (Qeq_bool (totalIncome s) 0) eqn:E0.
  - apply Qeq_bool_iff in E0. exists 0%Q. split; [reflexivity|].
    split; [lra|]. split; [lra|]. split; [lra|]. split; lra.
  - apply Qeq_bool_neq in E0. unfold js_div.
    destruct (Qeq_bool (totalIncome s) 0) eqn:E1.
    { apply Qeq_bool_iff in E1. contradiction. }
    cbn [js_mul_pos]. eexists. split; [reflexivity|].
    set (r := (savings s / totalIncome s * 100)%Q).
    assert (Hpos : (0 < inc)%Q) by lra.
    assert (Hr : (r * inc == (inc - exp) * 100)%Q).
    { unfold r. rewrite Hs, <- Hi, <- He. field. lra. }
    split; [nra|]. split; [lra|]. split; [intros _; exact Hr|].
    split; [intros Hneg; split; [exact Hpos|nra]|intros [_ Hlt]; nra].
Qed.

Lemma savings_rate_is_finite_witness :
  exists r,
    AnalyticsService.getSavingsRate None 1%nat 2024 1 db_goals = (Returned (Fin r), db_goals)
    /\ (r == 0)%Q.
Proof.
  destruct (savings_rate_is_finite 1%nat 2024 1 db_goals) as (r & Hrun & _ & H0 & _).
  - intros t [<-|[<-|[]]]; cbn; discriminate.
  - exists r. split; [exact Hrun|]. apply H0. vm_compute. reflexivity.
Defined.

(** *** Creation: rejected input and predicted categories *)

Lemma invalid_amount_rejected now (tr : Transaction) db :
  (t_amount tr < 0)%Q ->
  TransactionRepository.create now tr db
  = (Thrown (ValidationError "Transaction validation failed"), db).
Proof.
  intros Hneg. unfold TransactionRepository.create, bind at 1. cbn [get_db].
  unfold TransactionModel.valid. cbn [t_amount].
  replace (Qle_bool 0 (t_amount tr)) with false; [reflexivity|].
  symmetry. apply not_true_is_false. intros H. apply Qle_bool_iff in H. lra.
Qed.

(** X24. A creation that is rejected writes nothing.  When a category is
    given that the user does not have, [create] throws
    ValidationError("Category does not exist"); otherwise, when the
    amount is negative, it throws the validation error of the schema,
    whatever the category predictor answers.  In both cases the database
    is what it was: no transaction is stored and no ledger row is
    touched. *)
Theorem rejected_create_writes_nothing ml now u td db :
  (category_accepted u td db = false ->
   TransactionService.create ml now u td db
   = (Thrown (ValidationError "Category does not exist"), db))
  /\ (category_accepted u td db = true ->
      (td_amount td < 0)%Q ->
      TransactionService.create ml now u td db
      = (Thrown (ValidationError "Transaction validation failed"), db)).
Proof.
  unfold category_accepted, TransactionService.create. split.
  - intros Hacc. apply orb_false_elim in Hacc as [Hc Hex].
    apply negb_false_iff in Hc. rewrite Hc.
    apply bind_thrown. unfold CategoryRepository.findByName.
    erewrite bind_returned.
    2: { erewrite bind_returned by reflexivity. reflexivity. }
    cbv beta. rewrite Hex. reflexivity.
  - intros Hacc Hneg.
    destruct (truthy_str (td_category td)) eqn:Hc; cbn [negb orb] in Hacc |- *.
    + unfold CategoryRepository.findByName.
      erewrite bind_returned.
      2: { erewrite bind_returned.
           2: { erewrite bind_returned by reflexivity. reflexivity. }
           cbv beta. rewrite Hacc. reflexivity. }
      erewrite bind_returned by reflexivity.
      apply bind_thrown. now apply invalid_amount_rejected.
    + erewrite bind_returned by reflexivity.
      match goal with
      | |- context [MLService.predictCategory ml ?req] =>
          destruct (predictCategory_never_throws ml req db) as [[p|] Hp]
      end.
      * erewrite bind_returned.
        2: { apply try_catch_returned. erewrite bind_returned by exact Hp.
             reflexivity. }
        apply bind_thrown. now apply invalid_amount_rejected.
      * erewrite bind_returned.
        2: { apply try_catch_returned. erewrite bind_returned by exact Hp.
             reflexivity. }
        apply bind_thrown. now apply invalid_amount_rejected.
Qed.

Lemma predictCategory_body ml req db r :
  post_predict_category ml req = Body r ->
  MLService.predictCategory ml req db = (Returned r, db).
Proof.
  intros H. unfold MLService.predictCategory. apply try_catch_returned.
  now rewrite H.
Qed.

(** X25. A creation without a category takes the category of the
    predictor.  When no category is given and the predictor answers with
    a prediction, the transaction that [create] returns has the predicted
    category, marked as set by the AI, the predicted needs-or-wants class
    (unknown when none is predicted), the next id and the caller as
    owner; it is the last of the stored transactions, and every row of
    the ledger has grown by its contribution: an expense is charged to
    the row of the predicted category.  Whether the user has such a
    category is not looked up. *)
Theorem create_uses_prediction ml now u td db p t db1 :
  truthy_str (td_category td) = false ->
  (forall req, post_predict_category ml req = Body (Some p)) ->
  TransactionService.create ml now u td db = (Returned t, db1) ->
  t_category t = cp_category p /\ t_categorySource t = cs_ai
  /\ t_needsVsWants t = default nw_unknown (cp_needsVsWants p)
  /\ t_needsVsWantsSource t = nvw_ai
  /\ t_id t = nextId db /\ t_userId t = u
  /\ transactions db1 = (transactions db ++ [t])%list
  /\ (forall k, (spent_of db1 k == spent_of db k + contribution t k)%Q).
Proof.
  intros Hc Hml Hrun.
  destruct (create_returned _ _ _ _ _ _ _ Hrun)
    as (Htx & _ & Hid & Hu & _ & _ & _ & _ & Hspent).
  assert (Hfields : t_category t = cp_category p /\ t_categorySource t = cs_ai
                    /\ t_needsVsWants t = default nw_unknown (cp_needsVsWants p)
                    /\ t_needsVsWantsSource t = nvw_ai).
  { revert Hrun. unfold TransactionService.create. rewrite Hc. cbn [negb].
    erewrite bind_returned by reflexivity.
    erewrite bind_returned.
    2: { apply try_catch_returned.
         erewrite bind_returned by (apply predictCategory_body, Hml).
         reflexivity. }
    unfold TransactionRepository.create, bind at 1, bind at 1. cbn [get_db].
    match goal with |- context [if ?b then _ else _] => destruct b end;
      [|discriminate].
    cbn [bind modify_db ret]. unfold bind at 1.
    match goal with
    | |- context [(if ?b then ?c1 else ?c2) ?d] =>
        destruct ((if b then c1 else c2) d) as [[[]|e] d2]
    end; [|discriminate].
    cbn [ret]. intros [= <- _]. repeat split. }
  destruct Hfields as (H1 & H2 & H3 & H4).
  repeat split; assumption.
Qed.

Lemma create_uses_prediction_witness :
  exists t db1,
    TransactionService.create ml_up (mkDate 2024 1 20) 1%nat salary db0 = (Returned t, db1)
    /\ t_category t = "Food" /\ t_categorySource t = cs_ai
    /\ t_needsVsWants t = needs.
Proof.
  destruct (TransactionService.create ml_up (mkDate 2024 1 20) 1%nat salary db0)
    as [[t|e] db1] eqn:Hrun; [|vm_compute in Hrun; discriminate].
  exists t, db1. split; [reflexivity|].
  destruct (create_uses_prediction ml_up (mkDate 2024 1 20) 1%nat salary db0
              (mkCategoryPrediction "Food" (Some needs) (Some (9 # 10))) t db1)
    as (H1 & H2 & H3 & _).
  - reflexivity.
  - intros req. reflexivity.
  - exact Hrun.
  - split; [exact H1|]. split; [exact H2|exact H3].
Defined.

(** *** Reading what was written *)

(** An adjustment of the ledger that returns has left the transactions
    and the id counter alone. *)
Lemma ledger_step_returned (b : bool) u c m y a db db' :
  (if b then bind (BudgetModel.updateSpent u c m y a) (fun _ => ret tt) else ret tt) db
  = (Returned tt, db') ->
  transactions db' = transactions db.
Proof.
  destruct b; [|now intros [= <-]].
  unfold bind.
  destruct (BudgetModel.updateSpent u c m y a db) as [[r|e] d] eqn:E; [|discriminate].
  cbn [ret]. intros [= <-].
  apply updateSpent_returned in E as (-> & _). reflexivity.
Qed.

Lemma find_by_id_replaced (id : ObjectId) (t t' : Transaction) (l : list Transaction) :
  TransactionRepository.find_by_id id l = Some t -> t_id t' = id ->
  TransactionRepository.find_by_id id
    (List.map (fun x => if Nat.eqb (t_id x) id then t' else x) l) = Some t'.
Proof.
  unfold TransactionRepository.find_by_id. intros Hfind Hid.
  induction l as [|x l IH]; [discriminate|]. cbn in *.
  destruct (Nat.eqb_spec (t_id x) id) as [E|E].
  - cbn. now rewrite Hid, Nat.eqb_refl.
  - cbn. destruct (Nat.eqb_spec (t_id x) id); [contradiction|]. now apply IH.
Qed.

Lemma find_by_id_removed (id : ObjectId) (l : list Transaction) :
  TransactionRepository.find_by_id id
    (List.filter (fun x => negb (Nat.eqb (t_id x) id)) l) = None.
Proof.
  unfold TransactionRepository.find_by_id.
  induction l as [|x l IH]; [reflexivity|]. cbn.
  destruct (Nat.eqb_spec (t_id x) id) as [E|E]; cbn; [exact IH|].
  destruct (Nat.eqb_spec (t_id x) id); [contradiction|exact IH].
Qed.

Lemma getById_returned u id db t db' :
  TransactionService.getById u id db = (Returned t, db') ->
  db' = db /\ TransactionRepository.find_by_id id (transactions db) = Some t
  /\ t_userId t = u.
Proof.
  rewrite getById_run.
  destruct (TransactionRepository.find_by_id id (transactions db)) as [x|];
    [|discriminate].
  destruct (Nat.eqb_spec (t_userId x) u) as [E|E]; cbn [negb]; [|discriminate].
  intros [= <- <-]. auto.
Qed.

(** X26. The service reads what it wrote.  After a creation that
    returned (on a database whose ids are below the id counter), [getById]
    answers the created transaction to its owner; after an update that
    returned, it answers the updated document; after a deletion that
    returned, the transaction is not found, so a second deletion fails. *)
Theorem reads_follow_writes u db :
  (forall ml now td t db1,
      (forall x, In x (transactions db) -> (t_id x < nextId db)%nat) ->
      TransactionService.create ml now u td db = (Returned t, db1) ->
      TransactionService.getById u (t_id t) db1 = (Returned t, db1))
  /\ (forall id ud t db1,
         TransactionService.update u id ud db = (Returned t, db1) ->
         TransactionService.getById u id db1 = (Returned t, db1))
  /\ (forall id t db1,
         TransactionService.delete u id db = (Returned t, db1) ->
         TransactionService.getById u id db1
         = (Thrown (NotFoundError "Transaction"), db1)
         /\ TransactionService.delete u id db1
            = (Thrown (NotFoundError "Transaction"), db1)).
Proof.
  split; [|split].
  - intros ml now td t db1 Hfresh Hrun.
    destruct (create_returned _ _ _ _ _ _ _ Hrun) as (Htx & _ & Hid & Hu & _).
    rewrite getById_run, Htx, find_by_id_snoc; [|rewrite Hid|reflexivity].
    + now rewrite Hu, Nat.eqb_refl.
    + intros Hin. apply in_map_iff in Hin as (x & E & Hx).
      specialize (Hfresh x Hx). lia.
  - intros id ud t db1. unfold TransactionService.update, bind at 1.
    destruct (TransactionService.getById u id db) as [[old|e] d0] eqn:Hget;
      [|discriminate].
    apply getById_returned in Hget as (-> & Hfind & Hu).
    unfold bind at 1.
    match goal with
    | |- context [(if ?b then ?c1 else ?c2) db] =>
        destruct ((if b then c1 else c2) db) as [[[]|e] d1] eqn:Hled
    end; [|discriminate].
    assert (Htx : transactions d1 = transactions db).
    { revert Hled.
      destruct (truthy_str (ud_category ud) || truthy_num (ud_amount ud));
        [|now intros [= <-]].
      unfold bind at 1.
      match goal with
      | |- context [(if ?b then ?c1 else ?c2) db] =>
          destruct ((if b then c1 else c2) db) as [[[]|e] d2] eqn:Hold
      end; [|discriminate].
      intros Hnew.
      apply ledger_step_returned in Hold. apply ledger_step_returned in Hnew.
      congruence. }
    unfold TransactionRepository.update.
    destruct (TransactionModel.valid_update ud); [|discriminate].
    unfold bind at 1. cbn [get_db]. rewrite Htx, Hfind.
    cbn [bind modify_db ret]. intros [= <- <-].
    rewrite getById_run. cbn [transactions set_transactions]. rewrite Htx.
    erewrite find_by_id_replaced; [|exact Hfind|].
    + cbn [apply_set t_userId]. now rewrite Hu, Nat.eqb_refl.
    + cbn. now destruct (find_by_id_In _ _ _ Hfind).
  - intros id t db1. unfold TransactionService.delete at 1, bind at 1.
    destruct (TransactionService.getById u id db) as [[old|e] d0] eqn:Hget;
      [|discriminate].
    apply getById_returned in Hget as (-> & Hfind & Hu).
    unfold bind at 1.
    match goal with
    | |- context [(if ?b then ?c1 else ?c2) db] =>
        destruct ((if b then c1 else c2) db) as [[[]|e] d1] eqn:Hled
    end; [|discriminate].
    apply ledger_step_returned in Hled.
    unfold TransactionRepository.delete, bind at 1. cbn [get_db].
    rewrite Hled, Hfind. cbn [bind modify_db ret]. intros [= <- <-].
    assert (Hget : TransactionService.getById u id
                     (set_transactions
                        (List.filter (fun x => negb (t_id x =? id)%nat) (transactions d1))
                        d1)
                   = (Thrown (NotFoundError "Transaction"),
                      set_transactions
                        (List.filter (fun x => negb (t_id x =? id)%nat) (transactions d1))
                        d1)).
    { rewrite getById_run. cbn [transactions set_transactions].
      now rewrite find_by_id_removed. }
    split; [exact Hget|].
    unfold TransactionService.delete. now apply bind_thrown.
Qed.

(** *** Users do not see each other *)

Lemma filter_snoc_false {A} (f : A -> bool) (l : list A) (x : A) :
  f x = false -> List.filter f (l ++ [x]) = List.filter f l.
Proof.
  intros H. rewrite List.filter_app. cbn. rewrite H. apply app_nil_r.
Qed.

Lemma in_range_other_user u s e t :
  t_userId t <> u -> TransactionModel.in_range u s e t = false.
Proof.
  intros H. unfold TransactionModel.in_range.
  destruct (Nat.eqb_spec (t_userId t) u); [contradiction|reflexivity].
Qed.

Lemma save_health_fst u now hd db db2 :
  fst (FinancialHealthModel.save u now hd db) = fst (FinancialHealthModel.save u now hd db2).
Proof.
  unfold FinancialHealthModel.save.
  destruct (hd_overallScore hd); [|reflexivity].
  destruct (hd_explanation hd); [|reflexivity].
  match goal with |- context [if ?b then _ else _] => destruct b end; reflexivity.
Qed.

(** X27. A user's answers do not depend on the transactions of others.
    Storing a transaction of another user changes nothing of what a user
    gets: the pages and metadata of [getAll], the monthly summaries, the
    value and the outcome of a goal's [updateProgress], the outcome of a
    forecast and of a health score are what they were. *)
Theorem other_users_transactions_are_invisible u t db :
  t_userId t <> u ->
  (forall fl, fst (TransactionService.getAll u fl (with_transaction t db))
              = fst (TransactionService.getAll u fl db))
  /\ (forall year month,
        fst (TransactionRepository.getMonthlySummary u year month (with_transaction t db))
        = fst (TransactionRepository.getMonthlySummary u year month db))
  /\ (forall goalId,
        fst (GoalService.updateProgress u goalId (with_transaction t db))
        = fst (GoalService.updateProgress u goalId db))
  /\ (forall ml now ft,
        fst (ForecastService.generateAndStore ml now u ft (with_transaction t db))
        = fst (ForecastService.generateAndStore ml now u ft db))
  /\ (forall ml now,
        fst (HealthScoreService.computeAndStore ml now u (with_transaction t db))
        = fst (HealthScoreService.computeAndStore ml now u db)).
Proof.
  intros Ht.
  assert (Hrange : forall s e,
            List.filter (TransactionModel.in_range u s e)
                        (transactions (with_transaction t db))
            = List.filter (TransactionModel.in_range u s e) (transactions db)).
  { intros s e. unfold with_transaction. cbn [transactions set_transactions].
    now apply filter_snoc_false, in_range_other_user. }
  assert (Hwin : forall now, window_90 u now (with_transaction t db) = window_90 u now db).
  { intros now. unfold window_90. now rewrite Hrange. }
  split; [|split; [|split; [|split]]].
  - intros fl. unfold TransactionService.getAll. rewrite !findByUserId_run.
    cbn [fst]. unfold with_transaction. cbn [transactions set_transactions].
    rewrite filter_snoc_false; [reflexivity|].
    unfold TransactionRepository.matches.
    destruct (Nat.eqb_spec (t_userId t) u); [contradiction|reflexivity].
  - intros year month. unfold TransactionRepository.getMonthlySummary.
    erewrite !bind_returned by apply getByDateRange_run. now rewrite Hrange.
  - intros goalId. rewrite !updateProgress_run.
    change (goals (with_transaction t db)) with (goals db).
    destruct (goals db !! goalId) as [g|]; [|reflexivity].
    destruct (negb (g_userId g =? u)%nat); [reflexivity|].
    assert (Hval : goal_value u g (with_transaction t db) = goal_value u g db).
    { unfold goal_value. now rewrite Hrange. }
    rewrite Hval. unfold GoalModel.save.
    destruct (GoalModel.valid _); reflexivity.
  - intros ml now ft. rewrite !generateAndStore_run, Hwin.
    destruct (length (window_90 u now db) <? 30)%nat; [reflexivity|].
    destruct (post_forecast_generate ml u _ ft); [|reflexivity].
    cbv zeta. destruct (ForecastModel.valid _); reflexivity.
  - intros ml now. rewrite !computeAndStore_run, Hwin.
    change (users (with_transaction t db)) with (users db).
    destruct (users db !! u); [|reflexivity].
    destruct (post_health_score ml u _ _); [|reflexivity].
    apply save_health_fst.
Qed.

Lemma other_users_transactions_are_invisible_witness :
  fst (GoalService.updateProgress 2%nat 7%nat (with_transaction late_january db_goals))
  = fst (GoalService.updateProgress 2%nat 7%nat db_goals)
  /\ fst (TransactionService.getAll 2%nat no_filters (with_transaction late_january db_goals))
     = fst (TransactionService.getAll 2%nat no_filters db_goals).
Proof.
  destruct (other_users_transactions_are_invisible 2%nat late_january db_goals)
    as (Hall & _ & Hgoal & _).
  - cbn. lia.
  - split; [apply Hgoal|apply Hall].
Defined.
